(** * Portfolio analytics engine: epic health, initiative roll-up, WSJF,
      lead time, work in progress and Monte Carlo forecast

    A shallow embedding of [EpicMetricsService] and [ForecastService] and
    the properties their specification states about them.

    Conventions of the embedding.
    - A JavaScript [number] that goes through division or rounding is an
      IEEE-754 binary64 value, Rocq's primitive [float]; [NaN] and signed
      zeros behave as in the source.  Counters, lengths and array indices,
      which the source only increments and compares, are [nat] or [Z].
    - A property that may be [undefined] is an [option]; a string property
      that may also be [null] is a [strfield].
    - What the JavaScript runtime supplies (the clock, the date parser, the
      printing of numbers, calendar arithmetic) is a [Runtime] record the
      functions take as a parameter; the clock is read once per call.
      [Math.random] is a stream of index draws threaded through a small
      state monad, and the [while] loop of a trial runs on fuel.
    - A [Map] is an insertion-ordered association list ([OMap]), and so is
      an object whose keys are its own.  An object that is read or counted
      up under arbitrary names also answers for the properties of
      [Object.prototype] and lists its array indices first ([inherited],
      [Counter]). *)

From Stdlib Require Import ZArith Lia List Bool Ascii String.
From Stdlib Require Import Floats QArith Qround.
From Stdlib Require Import Sorting.Permutation Sorting.Sorted.
From stdpp Require Import base option list strings gmap pretty.
From Equations Require Import Equations.

Local Open Scope Z_scope.

(** ** The JavaScript prelude *)

Module JS.

(** *** Numbers *)

(** The double of an integer, exact below 2^53 in magnitude. *)
Definition of_Z (z : Z) : float :=
  match z with
  | Z0 => 0%float
  | Zpos _ => PrimFloat.of_uint63 (Uint63.of_Z z)
  | Zneg p => (- PrimFloat.of_uint63 (Uint63.of_Z (Zpos p)))%float
  end.

Definition of_nat (n : nat) : float := of_Z (Z.of_nat n).

(** The integer a finite double denotes when it is integral (truncated
    towards zero otherwise); 0 on [NaN] and the infinities. *)
Definition to_Z (x : float) : Z :=
  match Prim2SF x with
  | S754_finite s m e =>
      let v := if (0 <=? e) then Zpos m * 2 ^ e else Zpos m / 2 ^ (- e) in
      if s then - v else v
  | _ => 0
  end.

(** [ToBoolean] on a number: [0], [-0] and [NaN] are falsy. *)
Definition truthy (x : float) : bool := negb (is_zero x || is_nan x).

(** [x || d] where [x] is a number or [undefined]. *)
Definition or_num (x : option float) (d : float) : float :=
  match x with
  | Some v => if truthy v then v else d
  | None => d
  end.

(** [v || 0] reads [v] back: [v] is neither [NaN] nor the negative zero. *)
Definition kept (v : float) : Prop := or_num (Some v) 0 = v.

(** [Math.round]: the nearest integer, ties towards +infinity; the sign of a
    zero result follows the argument. Computed exactly on the mantissa. *)
Definition Math_round (x : float) : float :=
  match Prim2SF x with
  | S754_finite s m e =>
      if (0 <=? e) then x
      else
        let den := 2 ^ (- e) in
        let num := if s then Zneg m else Zpos m in
        let n := (2 * num + den) / (2 * den) in
        if (n =? 0) then (if s then (- 0)%float else 0%float) else of_Z n
  | _ => x
  end.

Definition Math_max (x y : float) : float :=
  if is_nan x || is_nan y then nan
  else if (x <? y)%float then y
  else if (y <? x)%float then x
  else if get_sign x then y else x.

Definition Math_min (x y : float) : float :=
  if is_nan x || is_nan y then nan
  else if (x <? y)%float then x
  else if (y <? x)%float then y
  else if get_sign x then x else y.

(** [x > y], [x >= y] on numbers. *)
Definition gtb (x y : float) : bool := (y <? x)%float.
Definition geb (x y : float) : bool := (y <=? x)%float.

Definition sum_num (l : list float) : float :=
  fold_left (fun a b => (a + b)%float) l 0%float.

(** [Math.ceil(n / 100)] for an integer [n]: the double quotient of an
    integer below 2^53 by 100 is an integer exactly when the exact one is,
    and otherwise lies strictly between the same two integers. *)
Definition ceil_div100 (n : Z) : Z := - ((- n) / 100).

(** *** Strings *)

Definition lower_ascii (c : ascii) : ascii :=
  let n := nat_of_ascii c in
  if (65 <=? n)%nat && (n <=? 90)%nat then ascii_of_nat (n + 32) else c.

(** [String.prototype.toLowerCase] on the ASCII letters.  No character
    outside ASCII lower-cases to one of the letters of [done], [closed] or
    [resolved], so membership in that set is decided the same way. *)
Fixpoint toLowerCase (s : string) : string :=
  match s with
  | EmptyString => EmptyString
  | String c r => String (lower_ascii c) (toLowerCase r)
  end.

(** [Array.prototype.includes] on an array of strings. *)
Definition includes (l : list string) (s : string) : bool :=
  existsb (String.eqb s) l.

(** [Array.prototype.join]. *)
Definition join (sep : string) (l : list string) : string :=
  String.concat sep l.

(** A string property that may be missing or [null]. *)
Inductive strfield : Type :=
  | undefined
  | null
  | str (s : string).

(** [ToBoolean] on such a property: only a non-empty string is truthy. *)
Definition truthy_str (f : strfield) : bool :=
  match f with
  | str s => negb (String.eqb s "")
  | _ => false
  end.

(** [f || d] on strings. *)
Definition or_str (f : option string) (d : string) : string :=
  match f with
  | Some s => if String.eqb s "" then d else s
  | None => d
  end.

(** The string a property key is coerced to. *)
Definition to_key (f : strfield) : string :=
  match f with
  | undefined => "undefined"
  | null => "null"
  | str s => s
  end.

(** *** The runtime *)

Record Runtime : Type := {
  (** [new Date()], milliseconds since the epoch *)
  Date_now : float;
  (** the time value of [new Date(s)], [NaN] when [s] does not parse *)
  Date_parse : string -> float;
  (** the text a template literal prints for a number *)
  Number_toString : float -> string;
  (** [d = new Date(now); d.setMonth(d.getMonth() + k);
      d.toISOString().split('T')[0]] for an integer [k] *)
  Date_plusMonths : Z -> string
}.

(** The time value of [new Date(f)]. *)
Definition new_Date (rt : Runtime) (f : strfield) : float :=
  match f with
  | undefined => nan
  | null => 0%float
  | str s => Date_parse rt s
  end.

Definition msPerDay : float := 86400000%float.

(** *** Stable sort

    [Array.prototype.sort] with a comparator: [later a b] says that the
    comparator is positive on [(a, b)], so [a] has to come after [b]; a
    comparator value of [NaN] counts as 0.  Where the comparator orders the
    elements consistently, this is the order the language prescribes. *)

Section Sort.
Context {A : Type} (later : A -> A -> bool).

Fixpoint sort_insert (x : A) (l : list A) : list A :=
  match l with
  | [] => [x]
  | y :: r => if later x y then y :: sort_insert x r else x :: y :: r
  end.

Definition sort (l : list A) : list A := foldr sort_insert [] l.
End Sort.

(** The comparator [(a, b) => a - b] on integers. *)
Definition ascending : Z -> Z -> bool := fun a b => 0 <? a - b.

(** *** Insertion-ordered maps

    [Map], and objects used as dictionaries: [set] replaces the value of a
    key that is present, in place, and appends a new key. *)

Module OMap.
Section Defs.
Context {V : Type}.

Definition t : Type := list (string * V).

Definition empty : t := [].

Fixpoint get (k : string) (m : t) : option V :=
  match m with
  | [] => None
  | (k', v) :: r => if String.eqb k' k then Some v else get k r
  end.

Fixpoint set (k : string) (v : V) (m : t) : t :=
  match m with
  | [] => [(k, v)]
  | (k', v') :: r =>
      if String.eqb k' k then (k, v) :: r else (k', v') :: set k v r
  end.

Definition values (m : t) : list V := map snd m.
Definition entries (m : t) : list (string * V) := m.
Definition keys (m : t) : list string := map fst m.
End Defs.
Arguments t : clear implicits.
End OMap.

(** *** Plain objects as dictionaries

    An object written [{}] or as a literal and read with [obj[k]] also
    answers for the properties of [Object.prototype].  Each of these is
    truthy: eleven are functions, and [__proto__] is an accessor that gives
    the prototype itself and ignores an assigned string. *)

Definition prototypeNames : list string :=
  ["constructor"; "__defineGetter__"; "__defineSetter__"; "hasOwnProperty";
   "__lookupGetter__"; "__lookupSetter__"; "isPrototypeOf";
   "propertyIsEnumerable"; "toString"; "valueOf"; "__proto__";
   "toLocaleString"].

Definition inherited (k : string) : bool := includes prototypeNames k.

(** The value of a decimal numeral, [None] on any other text. *)
Fixpoint digits (s : string) (acc : N) : option N :=
  match s with
  | EmptyString => Some acc
  | String c r =>
      let n := N_of_ascii c in
      if ((48 <=? n) && (n <=? 57))%N
      then digits r (acc * 10 + (n - 48))%N
      else None
  end.

(** A key that is an array index: the canonical numeral of an integer
    below 2^32 - 1. *)
Definition arrayIndex (k : string) : option N :=
  match k with
  | EmptyString => None
  | String c r =>
      if Ascii.eqb c "0" && negb (String.eqb r "") then None
      else match digits k 0 with
           | Some n => if (n <? 4294967295)%N then Some n else None
           | None => None
           end
  end.

(** An object whose properties are counted up by
    [obj[k] = (obj[k] || 0) + 1], as the list of its own properties in
    creation order. *)
Module Counter.

(** What a property holds: a count, or the text that [+ 1] makes of what
    was read under an inherited name, which is the text of that inherited
    value followed by as many digits 1 as the name was counted. *)
Inductive Value : Type :=
  | Count (n : nat)
  | Spoiled (name : string) (ones : nat).

Definition t : Type := OMap.t Value.

Definition empty : t := [].

(** [obj[k] = (obj[k] || 0) + 1].  A first assignment under an inherited
    name creates an own property, except under [__proto__], where the
    setter drops the text. *)
Definition increment (k : string) (obj : t) : t :=
  match OMap.get k obj with
  | Some (Count c) =>
      OMap.set k (Count ((if (c =? 0)%nat then 0%nat else c) + 1)) obj
  | Some (Spoiled name ones) => OMap.set k (Spoiled name (S ones)) obj
  | None =>
      if String.eqb k "__proto__" then obj
      else if inherited k then OMap.set k (Spoiled k 1) obj
      else OMap.set k (Count 1) obj
  end.

Definition isIndex (p : string * Value) : bool :=
  match arrayIndex (fst p) with Some _ => true | None => false end.

Definition indexOf (p : string * Value) : N :=
  default 0%N (arrayIndex (fst p)).

(** [Object.entries(obj)]: the array indices in ascending order, then the
    other keys in creation order. *)
Definition entries (obj : t) : list (string * Value) :=
  sort (fun a b => (indexOf b <? indexOf a)%N) (List.filter isIndex obj)
  ++ List.filter (fun p => negb (isIndex p)) obj.

(** [b - a > 0] on two such values; a text is [NaN] as a number. *)
Definition less (a b : Value) : bool :=
  match a, b with
  | Count x, Count y => (x <? y)%nat
  | _, _ => false
  end.

End Counter.

End JS.

(** ** [EpicMetricsService] *)

Module EpicMetricsService.
Import JS.

(** *** Progress and health of one epic *)

(** A child issue as the tracker returns it: [fields.status.statusCategory.key]
    and the story points of [fields.customfield_10061]. *)
Record Issue : Type := {
  issue_key : string;
  issue_statusCategory : option string;
  issue_points : option float
}.

Record Progress : Type := {
  total : nat;
  done : nat;
  inProgress : nat;
  todo : nat;
  totalPoints : float;
  completedPoints : float;
  progress : float
}.

(** One turn of the loop over the children; the accumulator holds the five
    running variables [done], [inProgress], [todo], [totalPoints],
    [completedPoints]. *)
Definition progress_step (acc : nat * nat * nat * float * float) (child : Issue)
  : nat * nat * nat * float * float :=
  let '(d, i, t, tp, cp) := acc in
  let statusCategory := or_str (issue_statusCategory child) "new" in
  let points := or_num (issue_points child) 0%float in
  let tp := (tp + points)%float in
  if String.eqb statusCategory "done" then (S d, i, t, tp, (cp + points)%float)
  else if String.eqb statusCategory "indeterminate" then (d, S i, t, tp, cp)
  else (d, i, S t, tp, cp).

Definition calculateEpicProgress (children : list Issue) : Progress :=
  match children with
  | [] => {| total := 0; done := 0; inProgress := 0; todo := 0;
             totalPoints := 0%float; completedPoints := 0%float;
             progress := 0%float |}
  | _ =>
      let '(d, i, t, tp, cp) :=
        fold_left progress_step children (0, 0, 0, 0%float, 0%float)%nat in
      let n := length children in
      {| total := n; done := d; inProgress := i; todo := t;
         totalPoints := tp; completedPoints := cp;
         progress := if (0 <? n)%nat
                     then Math_round ((of_nat d / of_nat n) * 100)%float
                     else 0%float |}
  end.

(** The epic as the tracker returns it, with the three fields the health
    rules read. *)
Record RawEpic : Type := {
  raw_statusCategory : option string;
  raw_duedate : strfield;
  raw_created : strfield
}.

Record Link : Type := {
  link_key : string;
  link_status : option string
}.

Record Dependencies : Type := {
  blocks : list Link;
  blockedBy : list Link;
  relatesTo : list Link
}.

Record Health : Type := {
  health : string;
  reason : string
}.

Definition closedStatuses : list string := ["done"; "closed"; "resolved"].

(** The filter of [unresolvedBlockers]. *)
Definition unresolved (b : Link) : bool :=
  let status := toLowerCase (or_str (link_status b) "") in
  negb (includes closedStatuses status).

Definition unresolvedBlockers (dependencies : option Dependencies) : list Link :=
  let blockedBy := match dependencies with
                   | Some d => blockedBy d
                   | None => []
                   end in
  List.filter unresolved blockedBy.

Definition calculateEpicHealth (rt : Runtime) (epic : RawEpic)
    (children : list Issue) (dependencies : option Dependencies) : Health :=
  let show := Number_toString rt in
  if bool_decide (raw_statusCategory epic = Some "done") then
    {| health := "done"; reason := "Completed" |}
  else
  let blockers := unresolvedBlockers dependencies in
  if (0 <? length blockers)%nat then
    {| health := "blocked";
       reason := "Blocked by " +:+ join ", " (map link_key blockers) |}
  else
  let dueDate := raw_duedate epic in
  let created := raw_created epic in
  let childProgress := calculateEpicProgress children in
  let pct := progress childProgress in
  if negb (truthy_str dueDate) then
    if (total childProgress =? 0)%nat then
      {| health := "no-data"; reason := "No child issues" |}
    else if geb pct 70 then
      {| health := "on-track"; reason := show pct +:+ "% done" |}
    else if geb pct 30 then
      {| health := "on-track"; reason := show pct +:+ "% done" |}
    else
      {| health := "on-track"; reason := show pct +:+ "% done (no due date)" |}
  else
  let now := Date_now rt in
  let start := new_Date rt created in
  let end_ := new_Date rt dueDate in
  let totalTime := (end_ - start)%float in
  let elapsed := (now - start)%float in
  let timeProgress := if gtb totalTime 0
                      then Math_round ((elapsed / totalTime) * 100)%float
                      else 100%float in
  if gtb now end_ && (pct <? 100)%float then
    {| health := "at-risk"; reason := "Overdue (" +:+ show pct +:+ "% done)" |}
  else if gtb timeProgress 0 && (pct <? timeProgress - 15)%float then
    {| health := "at-risk";
       reason := show pct +:+ "% done, " +:+ show timeProgress
                 +:+ "% time elapsed" |}
  else
    {| health := "on-track"; reason := show pct +:+ "% done" |}.

(** *** Roll-up by initiative *)

(** An evaluated epic, as [buildEpicData] produces it. *)
Record EpicData : Type := {
  e_key : string;
  e_summary : string;
  e_status : string;
  e_statusCategory : string;
  e_priority : string;
  e_assignee : string;
  e_created : strfield;
  e_dueDate : strfield;
  e_resolutionDate : strfield;
  e_storyPoints : float;
  e_parentKey : strfield;
  e_children : Progress;
  e_progress : float;
  e_health : string;
  (** the numeric custom fields of [_rawFields], when the caller attached them *)
  e_rawFields : option (gmap string float)
}.

(** An initiative as the tracker returns it. *)
Record RawInitiative : Type := {
  init_key : string;
  init_summary : option string;
  init_status : option string;
  init_statusCategory : option string;
  init_assignee : option string;
  init_duedate : strfield
}.

Record EpicSummary : Type := {
  s_key : string;
  s_summary : string;
  s_status : string;
  s_progress : float;
  s_health : string;
  s_storyPoints : float;
  s_completedPoints : float
}.

(** A bucket of the initiative map; [i_health] is absent until the last loop
    sets it. *)
Record Initiative : Type := {
  i_key : string;
  i_summary : string;
  i_status : string;
  i_statusCategory : string;
  i_assignee : string;
  i_dueDate : strfield;
  i_epics : list EpicSummary;
  i_totalEpics : nat;
  i_completedEpics : nat;
  i_progress : float;
  i_totalStoryPoints : float;
  i_completedStoryPoints : float;
  i_health : option string
}.

Definition unlinkedKey : string := "_unlinked".

Definition or_null (f : strfield) : strfield :=
  if truthy_str f then f else null.

Definition newBucket (init : RawInitiative) : Initiative :=
  {| i_key := init_key init;
     i_summary := or_str (init_summary init) "";
     i_status := or_str (init_status init) "Unknown";
     i_statusCategory := or_str (init_statusCategory init) "new";
     i_assignee := or_str (init_assignee init) "Unassigned";
     i_dueDate := or_null (init_duedate init);
     i_epics := [];
     i_totalEpics := 0;
     i_completedEpics := 0;
     i_progress := 0%float;
     i_totalStoryPoints := 0%float;
     i_completedStoryPoints := 0%float;
     i_health := None |}.

Definition unlinkedBucket : Initiative :=
  {| i_key := unlinkedKey;
     i_summary := "Epics without Initiative";
     i_status := "-";
     i_statusCategory := "new";
     i_assignee := "-";
     i_dueDate := null;
     i_epics := [];
     i_totalEpics := 0;
     i_completedEpics := 0;
     i_progress := 0%float;
     i_totalStoryPoints := 0%float;
     i_completedStoryPoints := 0%float;
     i_health := None |}.

(** The map after the first loop and the [set] of the unlinked bucket. *)
Definition seedBuckets (initiatives : list RawInitiative) : OMap.t Initiative :=
  OMap.set unlinkedKey unlinkedBucket
    (fold_left (fun m init => OMap.set (init_key init) (newBucket init) m)
               initiatives OMap.empty).

(** The body of the second loop, on the bucket it found. *)
Definition addEpic (initiative : Initiative) (epic : EpicData) : Initiative :=
  {| i_key := i_key initiative;
     i_summary := i_summary initiative;
     i_status := i_status initiative;
     i_statusCategory := i_statusCategory initiative;
     i_assignee := i_assignee initiative;
     i_dueDate := i_dueDate initiative;
     i_epics := i_epics initiative ++
       [ {| s_key := e_key epic;
            s_summary := e_summary epic;
            s_status := e_status epic;
            s_progress := e_progress epic;
            s_health := e_health epic;
            s_storyPoints := totalPoints (e_children epic);
            s_completedPoints := completedPoints (e_children epic) |} ];
     i_totalEpics := S (i_totalEpics initiative);
     i_completedEpics :=
       if String.eqb (e_statusCategory epic) "done"
       then S (i_completedEpics initiative) else i_completedEpics initiative;
     i_progress := i_progress initiative;
     i_totalStoryPoints :=
       (i_totalStoryPoints initiative + totalPoints (e_children epic))%float;
     i_completedStoryPoints :=
       (i_completedStoryPoints initiative
        + completedPoints (e_children epic))%float;
     i_health := i_health initiative |}.

Definition or_strfield (f : strfield) (d : string) : string :=
  match f with
  | str s => if String.eqb s "" then d else s
  | _ => d
  end.

(** One turn of the second loop.  The bucket object is shared with the map,
    so the update lands on the entry it was read from; [None] is the
    [TypeError] of a lookup that finds neither bucket. *)
Definition assignEpic (m : OMap.t Initiative) (epic : EpicData)
  : option (OMap.t Initiative) :=
  let parentKey := or_strfield (e_parentKey epic) unlinkedKey in
  match OMap.get parentKey m with
  | Some initiative => Some (OMap.set parentKey (addEpic initiative epic) m)
  | None =>
      match OMap.get unlinkedKey m with
      | Some initiative => Some (OMap.set unlinkedKey (addEpic initiative epic) m)
      | None => None
      end
  end.

Fixpoint assignEpics (m : OMap.t Initiative) (epics : list EpicData)
  : option (OMap.t Initiative) :=
  match epics with
  | [] => Some m
  | epic :: rest =>
      match assignEpic m epic with
      | Some m' => assignEpics m' rest
      | None => None
      end
  end.

Definition countHealth (h : string) (l : list EpicSummary) : nat :=
  length (List.filter (fun e => String.eqb (s_health e) h) l).

(** The body of the third loop. *)
Definition deriveHealth (init : Initiative) : Initiative :=
  {| i_key := i_key init;
     i_summary := i_summary init;
     i_status := i_status init;
     i_statusCategory := i_statusCategory init;
     i_assignee := i_assignee init;
     i_dueDate := i_dueDate init;
     i_epics := i_epics init;
     i_totalEpics := i_totalEpics init;
     i_completedEpics := i_completedEpics init;
     i_progress :=
       if (0 <? i_totalEpics init)%nat
       then Math_round ((of_nat (i_completedEpics init)
                         / of_nat (i_totalEpics init)) * 100)%float
       else 0%float;
     i_totalStoryPoints := i_totalStoryPoints init;
     i_completedStoryPoints := i_completedStoryPoints init;
     i_health := Some (
       if (i_totalEpics init =? 0)%nat then "no-data"
       else if String.eqb (i_statusCategory init) "done"
               || (i_completedEpics init =? i_totalEpics init)%nat then "done"
       else if (0 <? countHealth "blocked" (i_epics init))%nat then "blocked"
       else if (0 <? countHealth "at-risk" (i_epics init))%nat then "at-risk"
       else "on-track") |}.

(** [Array.from(initiativeMap.values())] after the three loops. *)
Definition aggregateBuckets (initiatives : list RawInitiative)
    (epics : list EpicData) : option (list Initiative) :=
  match assignEpics (seedBuckets initiatives) epics with
  | Some m => Some (map deriveHealth (OMap.values m))
  | None => None
  end.

Definition keepBucket (i : Initiative) : bool :=
  negb (String.eqb (i_key i) unlinkedKey) || (0 <? length (i_epics i))%nat.

Definition aggregateByInitiative (initiatives : list RawInitiative)
    (epics : list EpicData) : option (list Initiative) :=
  match aggregateBuckets initiatives epics with
  | Some result => Some (List.filter keepBucket result)
  | None => None
  end.

(** *** WSJF *)

(** The custom-field ids the caller mapped; an entry may be missing or
    [null]. *)
Record FieldMappings : Type := {
  fm_businessValue : strfield;
  fm_timeCriticality : strfield;
  fm_riskReduction : strfield;
  fm_jobSize : strfield
}.

Record WSJF : Type := {
  businessValue : float;
  timeCriticality : float;
  riskReduction : float;
  jobSize : float;
  costOfDelay : float;
  wsjfScore : float
}.

(** [epic._rawFields?.[id]] *)
Definition rawField (epic : EpicData) (id : strfield) : option float :=
  match e_rawFields epic with
  | Some fields => fields !! to_key id
  | None => None
  end.

Definition priorityScores : gmap string float :=
  list_to_map [("Highest", 5%float); ("High", 4%float); ("Medium", 3%float);
               ("Low", 2%float); ("Lowest", 1%float)].

(** [priorityScores[p] || 3].  The lookup also finds the properties of
    [Object.prototype]: under one of their names it gives a function or the
    prototype, which is truthy, and the sums and products the source then
    forms with it are a text and [NaN].  The source compares such a score
    or multiplies it, where it counts as [NaN]: it is [NaN] here. *)
Definition priorityScore (p : string) : float :=
  if inherited p then nan else or_num (priorityScores !! p) 3.

(** The four inputs in mapped mode. *)
Definition mappedInputs (epic : EpicData) (fieldMappings : FieldMappings)
  : float * float * float * float :=
  let businessValue := or_num (rawField epic (fm_businessValue fieldMappings)) 0 in
  let timeCriticality := or_num (rawField epic (fm_timeCriticality fieldMappings)) 0 in
  let riskReduction := or_num (rawField epic (fm_riskReduction fieldMappings)) 0 in
  let jobSize := or_num (rawField epic (fm_jobSize fieldMappings))
                   (or_num (Some (totalPoints (e_children epic))) 1) in
  (businessValue, timeCriticality, riskReduction, jobSize).

(** The four inputs in fallback mode. *)
Definition fallbackInputs (rt : Runtime) (epic : EpicData)
  : float * float * float * float :=
  let basePriority := priorityScore (e_priority epic) in
  let childCount := total (e_children epic) in
  let childBonus := if (20 <=? childCount)%nat then 2%float
                    else if (10 <=? childCount)%nat then 1.5%float
                    else if (5 <=? childCount)%nat then 1%float
                    else 0.5%float in
  let progressBonus := if gtb (or_num (Some (e_progress epic)) 0) 50
                       then 0.5%float else 0%float in
  let healthBonus := if String.eqb (e_health epic) "blocked" then 1%float
                     else if String.eqb (e_health epic) "at-risk" then 0.5%float
                     else 0%float in
  let businessValue :=
    Math_min 8 (Math_round ((basePriority + childBonus + progressBonus
                             + healthBonus) * 10) / 10)%float in
  let timeCriticality :=
    if truthy_str (e_dueDate epic) then
      let daysUntilDue :=
        ((new_Date rt (e_dueDate epic) - Date_now rt) / msPerDay)%float in
      if (daysUntilDue <? 14)%float then 5%float
      else if (daysUntilDue <? 30)%float then 4%float
      else if (daysUntilDue <? 60)%float then 3%float
      else if (daysUntilDue <? 90)%float then 2%float
      else 1%float
    else 2%float in
  let riskReduction := if String.eqb (e_health epic) "blocked" then 4%float
                       else if String.eqb (e_health epic) "at-risk" then 3%float
                       else 2%float in
  let jobSize := or_num (Some (totalPoints (e_children epic)))
                   (or_num (Some (e_storyPoints epic)) 1) in
  (businessValue, timeCriticality, riskReduction, jobSize).

Definition calculateWSJF (rt : Runtime) (epic : EpicData)
    (fieldMappings : option FieldMappings) : WSJF :=
  let '(businessValue, timeCriticality, riskReduction, jobSize) :=
    match fieldMappings with
    | Some fm => mappedInputs epic fm
    | None => fallbackInputs rt epic
    end in
  let jobSize := Math_max jobSize 0.5 in
  let costOfDelay := (businessValue + timeCriticality + riskReduction)%float in
  let wsjfScore := (Math_round ((costOfDelay / jobSize) * 100) / 100)%float in
  {| businessValue := businessValue;
     timeCriticality := timeCriticality;
     riskReduction := riskReduction;
     jobSize := jobSize;
     costOfDelay := costOfDelay;
     wsjfScore := wsjfScore |}.

(** *** Lead time *)

(** The helper [percentile] of [calculateEpicLeadCycleTime]; [None] is the
    [undefined] an index past the end reads. *)
Definition percentile (arr : list Z) (p : Z) : option Z :=
  if (length arr =? 0)%nat then Some 0
  else
    let idx := ceil_div100 (Z.of_nat (length arr) * p) - 1 in
    arr !! Z.to_nat (Z.max 0 idx).

Record LeadDetail : Type := {
  ld_key : string;
  ld_summary : string;
  ld_created : strfield;
  ld_resolved : strfield;
  ld_leadTimeDays : Z
}.

Record Bucket : Type := {
  b_range : string;
  b_start : Z;
  b_end : Z;
  b_count : nat
}.

Record Percentiles : Type := {
  p50 : option Z;
  p70 : option Z;
  p85 : option Z;
  p95 : option Z
}.

Record LeadTimeReport : Type := {
  totalResolved : nat;
  average : float;
  percentiles : Percentiles;
  histogram : list Bucket;
  lt_epics : list LeadDetail
}.

(** The filter of [resolvedEpics]. *)
Definition isResolved (e : EpicData) : bool :=
  String.eqb (e_statusCategory e) "done"
  && truthy_str (e_resolutionDate e) && truthy_str (e_created e).

Definition leadTimeDays (rt : Runtime) (epic : EpicData) : float :=
  let created := new_Date rt (e_created epic) in
  let resolved := new_Date rt (e_resolutionDate epic) in
  Math_round ((resolved - created) / msPerDay)%float.

(** The loop over [resolvedEpics]: what it pushes for one epic.  A lead time
    that passed [>= 0] is a non-negative integer and is kept as such. *)
Definition leadDetail (rt : Runtime) (epic : EpicData) : option LeadDetail :=
  let days := leadTimeDays rt epic in
  if geb days 0 then
    Some {| ld_key := e_key epic;
            ld_summary := e_summary epic;
            ld_created := e_created epic;
            ld_resolved := e_resolutionDate epic;
            ld_leadTimeDays := to_Z days |}
  else None.

Definition epicDetails (rt : Runtime) (epics : list EpicData) : list LeadDetail :=
  omap (leadDetail rt) (List.filter isResolved epics).

Definition bucketSize : Z := 7.

Definition countIn (sorted : list Z) (lo hi : Z) : nat :=
  length (List.filter (fun d => (lo <=? d) && (d <? hi)) sorted).

(** [for (let start = 0; start <= maxDays; start += bucketSize)] *)
Equations? histogramFrom (rt : Runtime) (sorted : list Z) (maxDays : Z)
    (start : Z) : list Bucket by wf (Z.to_nat (maxDays - start + 1)) lt :=
histogramFrom rt sorted maxDays start with Z_le_dec start maxDays := {
  | left _ =>
      let end_ := start + bucketSize in
      {| b_range := Number_toString rt (of_Z start) +:+ "-"
                    +:+ Number_toString rt (of_Z end_) +:+ "d";
         b_start := start;
         b_end := end_;
         b_count := countIn sorted start end_ |}
      :: histogramFrom rt sorted maxDays (start + bucketSize)
  | right _ => [] }.
Proof. unfold bucketSize. lia. Qed.

Definition calculateEpicLeadCycleTime (rt : Runtime) (epics : list EpicData)
  : LeadTimeReport :=
  let resolvedEpics := List.filter isResolved epics in
  let details := epicDetails rt epics in
  let leadTimes := map ld_leadTimeDays details in
  let sorted := sort ascending leadTimes in
  let avg := if (0 <? length sorted)%nat
             then Math_round (of_Z (fold_left Z.add sorted 0%Z)
                              / of_nat (length sorted))%float
             else 0%float in
  let histogram := match last sorted with
                   | Some maxDays => histogramFrom rt sorted maxDays 0
                   | None => []
                   end in
  {| totalResolved := length resolvedEpics;
     average := avg;
     percentiles := {| p50 := percentile sorted 50; p70 := percentile sorted 70;
                       p85 := percentile sorted 85; p95 := percentile sorted 95 |};
     histogram := histogram;
     lt_epics := sort (fun a b => 0 <? ld_leadTimeDays b - ld_leadTimeDays a)
                      details |}.

(** *** Work in progress *)

Record NameCount : Type := {
  nc_name : string;
  nc_count : Counter.Value
}.

Record WipAge : Type := {
  wa_key : string;
  wa_summary : string;
  wa_assignee : string;
  wa_ageDays : float;
  wa_health : string
}.

Record WIPReport : Type := {
  totalWIP : nat;
  wipByAssignee : list NameCount;
  wipByInitiative : list NameCount;
  wipAge : list WipAge;
  avgAge : float
}.

Definition isWip (e : EpicData) : bool :=
  String.eqb (e_statusCategory e) "indeterminate".

(** [m.set(k, (m.get(k) || 0) + 1)] on a [Map], and
    [obj[k] = (obj[k] || 0) + 1] on an object that has [k] as an own
    property with a count. *)
Definition increment (k : string) (obj : OMap.t nat) : OMap.t nat :=
  let old := match OMap.get k obj with
             | Some c => if (c =? 0)%nat then 0%nat else c
             | None => 0%nat
             end in
  OMap.set k (old + 1)%nat obj.

(** [initiatives?.find(i => i.key === parentKey)?.summary || 'Unlinked'] *)
Definition initiativeName (initiatives : option (list Initiative))
    (parentKey : string) : string :=
  let found := match initiatives with
               | Some l => List.find (fun i => String.eqb (i_key i) parentKey) l
               | None => None
               end in
  or_str (option_map i_summary found) "Unlinked".

(** One turn of the loop over [wipEpics], on the two objects. *)
Definition wipStep (initiatives : option (list Initiative))
    (acc : Counter.t * Counter.t) (epic : EpicData)
  : Counter.t * Counter.t :=
  let '(wipByAssignee, wipByInitiative) := acc in
  let assignee := or_str (Some (e_assignee epic)) "Unassigned" in
  let parentKey := or_strfield (e_parentKey epic) unlinkedKey in
  let initName := initiativeName initiatives parentKey in
  (Counter.increment assignee wipByAssignee,
   Counter.increment initName wipByInitiative).

Definition wipAgeOf (rt : Runtime) (epic : EpicData) : WipAge :=
  let created := new_Date rt (e_created epic) in
  {| wa_key := e_key epic;
     wa_summary := e_summary epic;
     wa_assignee := e_assignee epic;
     wa_ageDays := Math_round ((Date_now rt - created) / msPerDay)%float;
     wa_health := e_health epic |}.

(** [Object.entries(obj).map(([name, count]) => ({ name, count }))
    .sort((a, b) => b.count - a.count)].  With a spoiled count among them
    the comparator orders the entries inconsistently, and the language
    leaves the order of the result to the implementation. *)
Definition byCount (obj : Counter.t) : list NameCount :=
  sort (fun a b => Counter.less (nc_count a) (nc_count b))
       (map (fun '(name, count) => {| nc_name := name; nc_count := count |})
            (Counter.entries obj)).

Definition calculateWIPMetrics (rt : Runtime) (epics : list EpicData)
    (initiatives : option (list Initiative)) : WIPReport :=
  let wipEpics := List.filter isWip epics in
  let '(wipByAssignee, wipByInitiative) :=
    fold_left (wipStep initiatives) wipEpics (Counter.empty, Counter.empty) in
  let wipAge := sort (fun a b => gtb (wa_ageDays b - wa_ageDays a) 0)
                     (map (wipAgeOf rt) wipEpics) in
  {| totalWIP := length wipEpics;
     wipByAssignee := byCount wipByAssignee;
     wipByInitiative := byCount wipByInitiative;
     wipAge := wipAge;
     avgAge := if (0 <? length wipAge)%nat
               then Math_round (fold_left (fun sum e => sum + wa_ageDays e)
                                          wipAge 0
                                / of_nat (length wipAge))%float
               else 0%float |}.

End EpicMetricsService.

(** ** [ForecastService] *)

Module ForecastService.
Import JS.

(** *** The random source

    The [k]-th element of a source is the value of
    [Math.floor(Math.random() * throughputValues.length)] at the [k]-th draw.
    A computation in [Rand] threads the number of draws made so far and,
    as a ghost counter, the number of simulation trials started. *)

Definition RandomSource : Type := nat -> nat.

Record RandState : Type := {
  draws : nat;
  trials : nat
}.

Definition Rand (A : Type) : Type := RandState -> A * RandState.

Definition ret {A : Type} (a : A) : Rand A := fun s => (a, s).

Definition bind {A B : Type} (c : Rand A) (f : A -> Rand B) : Rand B :=
  fun s => let '(a, s') := c s in f a s'.

Notation "'let*' x ':=' c 'in' f" := (bind c (fun x => f))
  (at level 10, x name, c at level 100, f at level 200).

Definition draw (src : RandomSource) : Rand nat :=
  fun s => (src (draws s), {| draws := S (draws s); trials := trials s |}).

Definition startTrial : Rand unit :=
  fun s => (tt, {| draws := draws s; trials := S (trials s) |}).

(** *** The forecast *)

Record ThroughputPoint : Type := {
  period : string;
  count : float
}.

Record PercentileEntry : Type := {
  pe_periods : Z;
  pe_date : string;
  pe_confidence : string
}.

Record DistPoint : Type := {
  d_periods : Z;
  d_date : string;
  d_probability : float
}.

Record Forecast : Type := {
  remainingItems : float;
  simulations : Z;
  avgThroughput : option float;
  percentiles : gmap string PercentileEntry;
  distribution : list DistPoint;
  message : option string
}.

(** How a call ends: with a value or with a thrown error. *)
Inductive Outcome (A : Type) : Type :=
  | Returns (a : A)
  | Throws (error : string).
Arguments Returns {A} a.
Arguments Throws {A} error.

Definition periodCap : Z := 100.

(** The [while] loop of one trial, given [fuel] turns; [None] when the fuel
    runs out before the loop condition fails.  A sampled index past the end
    reads [undefined], which turns [itemsLeft] into [NaN]. *)
Fixpoint trial (src : RandomSource) (throughputValues : list float)
    (fuel : nat) (itemsLeft : float) (periods : Z) : Rand (option Z) :=
  match fuel with
  | O => ret None
  | S fuel' =>
      if gtb itemsLeft 0 && (periods <? periodCap) then
        let* randomIdx := draw src in
        let throughput := default nan (throughputValues !! randomIdx) in
        trial src throughputValues fuel' (itemsLeft - throughput)%float
              (periods + 1)
      else ret (Some periods)
  end.

(** The [for] loop over the simulations: [n] trials still to run,
    [completionDays] filled so far. *)
Fixpoint simulate (src : RandomSource) (throughputValues : list float)
    (fuel : nat) (remainingItems : float) (n : nat) (completionDays : list Z)
  : Rand (option (list Z)) :=
  match n with
  | O => ret (Some completionDays)
  | S n' =>
      let* started := startTrial in
      let* r := trial src throughputValues fuel remainingItems 0 in
      match r with
      | Some periods =>
          simulate src throughputValues fuel remainingItems n'
                   (completionDays ++ [periods])
      | None => ret None
      end
  end.

(** The helper [percentile] of [monteCarloForecast]. *)
Definition percentile (arr : list Z) (p : Z) : option Z :=
  let idx := ceil_div100 (Z.of_nat (length arr) * p) - 1 in
  arr !! Z.to_nat (Z.max 0 idx).

(** [periodToDate] on a period count. *)
Definition periodToDate (rt : Runtime) (periods : Z) : string :=
  Date_plusMonths rt periods.

(** One entry of [percentiles].  On a period count of [undefined],
    [periodToDate] makes the date invalid and [toISOString] throws. *)
Definition percentileEntry (rt : Runtime) (periods : option Z)
    (confidence : string) : Outcome PercentileEntry :=
  match periods with
  | Some k => Returns {| pe_periods := k;
                         pe_date := periodToDate rt k;
                         pe_confidence := confidence |}
  | None => Throws "RangeError: Invalid time value"
  end.

(** [for (let p = 1; p <= Math.min(maxPeriods, 24); p++)], from [p] on. *)
Equations? distributionFrom (rt : Runtime) (completionDays : list Z)
    (simulations : Z) (bound : Z) (p : Z) : list DistPoint
    by wf (Z.to_nat (bound - p + 1)) lt :=
distributionFrom rt completionDays simulations bound p with Z_le_dec p bound := {
  | left _ =>
      let count := length (List.filter (fun d => d <=? p) completionDays) in
      let probability :=
        Math_round ((of_nat count / of_Z simulations) * 100)%float in
      {| d_periods := p;
         d_date := periodToDate rt p;
         d_probability := probability |}
      :: distributionFrom rt completionDays simulations bound (p + 1)
  | right _ => [] }.
Proof. lia. Qed.

Definition insufficient (remainingItems : float) : Forecast :=
  {| remainingItems := remainingItems;
     simulations := 0;
     avgThroughput := None;
     percentiles := ∅;
     distribution := [];
     message := Some "Insufficient data for forecast" |}.

(** What follows the simulation loop. *)
Definition summarize (rt : Runtime) (throughputValues : list float)
    (remainingItems : float) (simulations : Z) (completionDays : list Z)
  : Outcome Forecast :=
  let completionDays := sort ascending completionDays in
  let p50 := percentile completionDays 50 in
  let p85 := percentile completionDays 85 in
  let p95 := percentile completionDays 95 in
  let distribution :=
    match last completionDays with
    | Some maxPeriods =>
        distributionFrom rt completionDays simulations (Z.min maxPeriods 24) 1
    | None => []
    end in
  let avgThroughput :=
    (Math_round (sum_num throughputValues
                 / of_nat (length throughputValues) * 10) / 10)%float in
  match percentileEntry rt p50 "50%", percentileEntry rt p85 "85%",
        percentileEntry rt p95 "95%" with
  | Returns e50, Returns e85, Returns e95 =>
      Returns
        {| remainingItems := remainingItems;
           simulations := simulations;
           avgThroughput := Some avgThroughput;
           percentiles := {[ "p50" := e50; "p85" := e85; "p95" := e95 ]};
           distribution := distribution;
           message := None |}
  | Throws e, _, _ => Throws e
  | _, Throws e, _ => Throws e
  | _, _, Throws e => Throws e
  end.

(** [monteCarloForecast(historicalThroughput, remainingItems, simulations)];
    a missing third argument is the default of 10000. *)
Definition monteCarloForecast (rt : Runtime) (src : RandomSource) (fuel : nat)
    (historicalThroughput : option (list ThroughputPoint))
    (remainingItems : float) (simulations : option Z)
  : Rand (option (Outcome Forecast)) :=
  let simulations := default 10000 simulations in
  let history := default [] historicalThroughput in
  if (length history =? 0)%nat || (remainingItems <=? 0)%float then
    ret (Some (Returns (insufficient remainingItems)))
  else
    let throughputValues := map count history in
    let* r := simulate src throughputValues fuel remainingItems
                       (Z.to_nat simulations) [] in
    match r with
    | Some completionDays =>
        ret (Some (summarize rt throughputValues remainingItems simulations
                             completionDays))
    | None => ret None
    end.

End ForecastService.


(** ** [EpicMetricsService], the other methods

    [buildEpicData], [calculateThroughput], [categorizeMoSCoW],
    [buildPrioritizationData], [buildCumulativeFlow] and [buildSummary].

    The calendar methods of [Date] are a [Calendar] record beside the
    [Runtime]; [toISOString], which throws on an invalid date, returns an
    [Outcome], and so do the two methods that call it.  Labels, names and
    keys are strings, and the number of weeks is an integer.  Strings are
    sequences of bytes: a search for an ASCII word gives the same answer on
    the bytes of the UTF-8 form as on the characters, and no character
    outside ASCII lower-cases to a letter of [must], [should], [could] or
    [wont]. *)

Module EpicMetricsRest.
Import JS EpicMetricsService.
Import ForecastService (Outcome, Returns, Throws).

(** *** More of the prelude *)

(** [Math.ceil], computed exactly on the mantissa; a result of zero below a
    negative argument is the negative zero. *)
Definition Math_ceil (x : float) : float :=
  match Prim2SF x with
  | S754_finite s m e =>
      if (0 <=? e) then x
      else
        let den := 2 ^ (- e) in
        let num := if s then Zneg m else Zpos m in
        let n := - ((- num) / den) in
        if (n =? 0) then (- 0)%float else of_Z n
  | _ => x
  end.

(** [String.prototype.includes] *)
Fixpoint str_includes (s sub : string) : bool :=
  String.prefix sub s
  || match s with
     | EmptyString => false
     | String _ r => str_includes r sub
     end.

(** [s.padStart(n, '0')] *)
Definition padStart0 (n : nat) (s : string) : string :=
  String.concat "" (repeat "0"%string (n - String.length s)) +:+ s.

(** [a || b || null] and [a || null] on string properties. *)
Definition or_field (a b : strfield) : strfield :=
  if truthy_str a then a else b.

(** The calendar the runtime supplies, on time values. *)
Record Calendar : Type := {
  (** [date.getFullYear()], [NaN] on an invalid date *)
  Date_getFullYear : float -> float;
  (** [date.getMonth()], [NaN] on an invalid date *)
  Date_getMonth : float -> float;
  (** the time value of [d = new Date(date); d.setDate(date.getDate() -
      date.getDay())] *)
  Date_startOfWeek : float -> float;
  (** the time value of [d = new Date(now); d.setDate(d.getDate() - i * 7);
      d.setHours(23, 59, 59, 999)] *)
  Date_endOfDayWeeksAgo : Z -> float;
  (** [date.toISOString().split('T')[0]], which throws on an invalid date *)
  Date_isoDay : float -> Outcome string;
  (** [a.localeCompare(b)] *)
  String_localeCompare : string -> string -> float
}.

(** *** [buildEpicData] *)

(** A child issue as the tracker returns it, in full. *)
Record JiraIssue : Type := {
  ji_key : string;
  ji_summary : option string;
  ji_statusName : option string;
  ji_statusCategory : option string;
  ji_type : option string;
  ji_assignee : option string;
  ji_points : option float
}.

(** The fields of a child the progress and health rules read. *)
Definition issueOf (c : JiraIssue) : Issue :=
  {| issue_key := ji_key c;
     issue_statusCategory := ji_statusCategory c;
     issue_points := ji_points c |}.

(** An epic as the tracker returns it, in full. *)
Record JiraEpic : Type := {
  je_key : string;
  je_id : string;
  je_summary : option string;
  je_statusName : option string;
  je_statusCategory : option string;
  je_priority : option string;
  je_labels : option (list string);
  (** the names of [fields.components] and [fields.fixVersions] *)
  je_components : option (list string);
  je_fixVersions : option (list string);
  je_assignee : option string;
  je_created : strfield;
  je_updated : strfield;
  je_duedate : strfield;
  je_resolutiondate : strfield;
  je_customfield_10015 : strfield;
  je_customfield_10011 : strfield;
  je_customfield_10016 : strfield;
  je_customfield_10061 : option float;
  je_parentKey : strfield
}.

(** The fields of an epic the health rules read. *)
Definition rawOf (epic : JiraEpic) : RawEpic :=
  {| raw_statusCategory := je_statusCategory epic;
     raw_duedate := je_duedate epic;
     raw_created := je_created epic |}.

Record ChildView : Type := {
  cv_key : string;
  cv_summary : string;
  cv_status : string;
  cv_statusCategory : string;
  cv_type : string;
  cv_assignee : string;
  cv_storyPoints : float
}.

(** The object [buildEpicData] returns: [ev_data] holds the properties the
    analytics read, the other fields the rest.  [ev_textFields] are the
    string-valued entries of [_rawFields], which a caller may attach. *)
Record EpicView : Type := {
  ev_data : EpicData;
  ev_id : string;
  ev_labels : list string;
  ev_components : list string;
  ev_fixVersions : list string;
  ev_updated : strfield;
  ev_targetStart : strfield;
  ev_targetEnd : strfield;
  ev_issues : list ChildView;
  ev_healthReason : string;
  ev_dependencies : Dependencies;
  ev_textFields : gmap string string
}.

Definition childView (c : JiraIssue) : ChildView :=
  {| cv_key := ji_key c;
     cv_summary := or_str (ji_summary c) "";
     cv_status := or_str (ji_statusName c) "Unknown";
     cv_statusCategory := or_str (ji_statusCategory c) "new";
     cv_type := or_str (ji_type c) "Unknown";
     cv_assignee := or_str (ji_assignee c) "Unassigned";
     cv_storyPoints := or_num (ji_points c) 0 |}.

Definition buildEpicData (rt : Runtime) (epic : JiraEpic)
    (children : list JiraIssue) (dependencies : option Dependencies)
  : EpicView :=
  let childProgress := calculateEpicProgress (map issueOf children) in
  let healthInfo :=
    calculateEpicHealth rt (rawOf epic) (map issueOf children) dependencies in
  {| ev_data :=
       {| e_key := je_key epic;
          e_summary := or_str (je_summary epic) "";
          e_status := or_str (je_statusName epic) "Unknown";
          e_statusCategory := or_str (je_statusCategory epic) "new";
          e_priority := or_str (je_priority epic) "None";
          e_assignee := or_str (je_assignee epic) "Unassigned";
          e_created := je_created epic;
          e_dueDate := or_field (je_duedate epic) null;
          e_resolutionDate := or_field (je_resolutiondate epic) null;
          e_storyPoints := or_num (je_customfield_10061 epic) 0;
          e_parentKey := or_field (je_parentKey epic) null;
          e_children := childProgress;
          e_progress := progress childProgress;
          e_health := health healthInfo;
          e_rawFields := None |};
     ev_id := je_id epic;
     ev_labels := default [] (je_labels epic);
     ev_components := default [] (je_components epic);
     ev_fixVersions := default [] (je_fixVersions epic);
     ev_updated := je_updated epic;
     ev_targetStart :=
       or_field (je_customfield_10015 epic)
                (or_field (je_customfield_10011 epic) null);
     ev_targetEnd := or_field (je_customfield_10016 epic) null;
     ev_issues := map childView children;
     ev_healthReason := reason healthInfo;
     ev_dependencies :=
       default {| blocks := []; blockedBy := []; relatesTo := [] |}
               dependencies;
     ev_textFields := ∅ |}.

(** *** [calculateThroughput] *)

Record PeriodCount : Type := {
  pc_period : string;
  pc_count : nat
}.

(** The filter of [completed]. *)
Definition isCompleted (e : EpicData) : bool :=
  String.eqb (e_statusCategory e) "done" && truthy_str (e_resolutionDate e).

(** The key of the period a resolution date falls in. *)
Definition periodKey (rt : Runtime) (cal : Calendar) (periodType : string)
    (date : float) : Outcome string :=
  if String.eqb periodType "month" then
    Returns (Number_toString rt (Date_getFullYear cal date) +:+ "-"
             +:+ padStart0 2 (Number_toString rt (Date_getMonth cal date + 1)))
  else if String.eqb periodType "quarter" then
    let quarter := Math_ceil ((Date_getMonth cal date + 1) / 3)%float in
    Returns (Number_toString rt (Date_getFullYear cal date) +:+ " Q"
             +:+ Number_toString rt quarter)
  else
    Date_isoDay cal (Date_startOfWeek cal date).

(** The loop over [completed], on the period map; it ends at the first key
    that throws. *)
Fixpoint countPeriods (rt : Runtime) (cal : Calendar) (periodType : string)
    (completed : list EpicData) (periodMap : OMap.t nat)
  : Outcome (OMap.t nat) :=
  match completed with
  | [] => Returns periodMap
  | epic :: rest =>
      let date := new_Date rt (e_resolutionDate epic) in
      match periodKey rt cal periodType date with
      | Returns key =>
          countPeriods rt cal periodType rest (increment key periodMap)
      | Throws e => Throws e
      end
  end.

(** [calculateThroughput(epics, periodType)]; a missing second argument is
    ['month']. *)
Definition calculateThroughput (rt : Runtime) (cal : Calendar)
    (epics : list EpicData) (periodType : option string)
  : Outcome (list PeriodCount) :=
  let periodType := default "month" periodType in
  let completed := List.filter isCompleted epics in
  match countPeriods rt cal periodType completed OMap.empty with
  | Returns periodMap =>
      let sorted :=
        sort (fun a b => gtb (String_localeCompare cal (fst a) (fst b)) 0)
             (OMap.entries periodMap) in
      Returns (map (fun '(period, count) =>
                      {| pc_period := period; pc_count := count |}) sorted)
  | Throws e => Throws e
  end.

(** *** [categorizeMoSCoW] *)

(** The mapping object with its fifth entry. *)
Record Mappings : Type := {
  numeric : FieldMappings;
  fm_moscow : strfield
}.

Definition moscowOfText (text : string) : option string :=
  if str_includes text "must" then Some "Must Have"
  else if str_includes text "should" then Some "Should Have"
  else if str_includes text "could" then Some "Could Have"
  else if str_includes text "wont" || str_includes text "won't"
  then Some "Won't Have"
  else None.

(** The category the labels name, if any: the first of must, should, could,
    won't that some label mentions. *)
Definition moscowOfLabels (labels : list string) : option string :=
  if existsb (fun l => str_includes l "must") labels then Some "Must Have"
  else if existsb (fun l => str_includes l "should") labels
  then Some "Should Have"
  else if existsb (fun l => str_includes l "could") labels
  then Some "Could Have"
  else if existsb (fun l => str_includes l "wont" || str_includes l "won't")
                  labels
  then Some "Won't Have"
  else None.

(** [fieldMappings?.moscow && epic._rawFields?.[fieldMappings.moscow]], when
    it is a non-empty string. A mapped value that is not a string prints
    without any of the four words and is passed over like a missing one. *)
Definition mappedMoscow (epic : EpicView) (fieldMappings : option Mappings)
  : option string :=
  match fieldMappings with
  | Some fm =>
      if truthy_str (fm_moscow fm) then
        match ev_textFields epic !! to_key (fm_moscow fm) with
        | Some val => if String.eqb val "" then None else Some val
        | None => None
        end
      else None
  | None => None
  end.

(** The composite score of the fallback. *)
Definition moscowScore (rt : Runtime) (epic : EpicData) : float :=
  let priorityScore := priorityScore (e_priority epic) in
  let childCount := total (e_children epic) in
  let hasBlockers := String.eqb (e_health epic) "blocked" in
  let isAtRisk := String.eqb (e_health epic) "at-risk" in
  let hasDueDate := truthy_str (e_dueDate epic) in
  let daysUntilDue :=
    if hasDueDate
    then ((new_Date rt (e_dueDate epic) - Date_now rt) / msPerDay)%float
    else 999%float in
  let score := priorityScore in
  let score := if hasBlockers then (score + 1.5)%float else score in
  let score := if isAtRisk then (score + 1)%float else score in
  let score := if (15 <=? childCount)%nat then (score + 1)%float else score in
  let score := if (daysUntilDue <? 30)%float then (score + 1.5)%float
               else if (daysUntilDue <? 60)%float then (score + 0.5)%float
               else score in
  let score := if (childCount <=? 2)%nat && negb hasDueDate
               then (score - 1)%float else score in
  score.

Definition categorizeMoSCoW (rt : Runtime) (epic : EpicView)
    (fieldMappings : option Mappings) : string :=
  let labels := map toLowerCase (ev_labels epic) in
  match moscowOfLabels labels with
  | Some category => category
  | None =>
      let fromField :=
        match mappedMoscow epic fieldMappings with
        | Some val => moscowOfText (toLowerCase val)
        | None => None
        end in
      match fromField with
      | Some category => category
      | None =>
          let score := moscowScore rt (ev_data epic) in
          if geb score 6 then "Must Have"
          else if geb score 4.5 then "Should Have"
          else if geb score 3 then "Could Have"
          else "Won't Have"
      end
  end.

(** *** [buildPrioritizationData] *)

Record Prioritized : Type := {
  pr_key : string;
  pr_summary : string;
  pr_status : string;
  pr_statusCategory : string;
  pr_priority : string;
  pr_health : string;
  pr_assignee : string;
  pr_progress : float;
  pr_labels : list string;
  pr_effort : float;
  pr_effortSource : string;
  pr_value : float;
  pr_wsjf : WSJF;
  pr_moscow : string
}.

Record Quadrants : Type := {
  quickWins : nat;
  bigBets : nat;
  fillIns : nat;
  moneyPit : nat
}.

Record Prioritization : Type := {
  pz_epics : list Prioritized;
  moscowDistribution : OMap.t nat;
  quadrants : Quadrants;
  medianEffort : option float;
  medianValue : option float
}.

(** The callback of [map]. *)
Definition prioritize (rt : Runtime) (fieldMappings : option Mappings)
    (epic : EpicView) : Prioritized :=
  let data := ev_data epic in
  let wsjf := calculateWSJF rt data (option_map numeric fieldMappings) in
  let moscow := categorizeMoSCoW rt epic fieldMappings in
  let spEffort := or_num (Some (totalPoints (e_children data)))
                         (or_num (Some (e_storyPoints data)) 0) in
  let childCount := total (e_children data) in
  let effort := if gtb spEffort 0 then spEffort
                else (of_nat childCount * 2)%float in
  {| pr_key := e_key data;
     pr_summary := e_summary data;
     pr_status := e_status data;
     pr_statusCategory := e_statusCategory data;
     pr_priority := e_priority data;
     pr_health := e_health data;
     pr_assignee := e_assignee data;
     pr_progress := e_progress data;
     pr_labels := ev_labels epic;
     pr_effort := effort;
     pr_effortSource := if gtb spEffort 0 then "story_points" else "child_count";
     pr_value := businessValue wsjf;
     pr_wsjf := wsjf;
     pr_moscow := moscow |}.

(** The comparator [(a, b) => a - b] on numbers. *)
Definition ascendingNum : float -> float -> bool :=
  fun a b => gtb (a - b) 0.

(** [values.length > 0 ? values.sort((a, b) => a - b)[Math.floor(values.length
    / 2)] : fallback]; an index outside the array reads [undefined]. *)
Definition medianOr (fallback : float) (values : list float) : option float :=
  if (0 <? length values)%nat
  then sort ascendingNum values !! (length values / 2)%nat
  else Some fallback.

(** The number a comparison makes of its operand: [undefined] is [NaN]. *)
Definition toNumber (x : option float) : float := default nan x.

Definition initialDistribution : OMap.t nat :=
  [("Must Have", 0%nat); ("Should Have", 0%nat); ("Could Have", 0%nat);
   ("Won't Have", 0%nat)].

Definition buildPrioritizationData (rt : Runtime) (epics : list EpicView)
    (fieldMappings : option Mappings) : Prioritization :=
  let prioritizedEpics :=
    map (prioritize rt fieldMappings)
        (List.filter (fun e => negb (String.eqb (e_statusCategory (ev_data e))
                                                "done")) epics) in
  let prioritizedEpics :=
    sort (fun a b => gtb (wsjfScore (pr_wsjf b) - wsjfScore (pr_wsjf a)) 0)
         prioritizedEpics in
  let moscowDistribution :=
    fold_left (fun obj epic => increment (pr_moscow epic) obj)
              prioritizedEpics initialDistribution in
  let effortValues :=
    map pr_effort (List.filter (fun e => gtb (pr_effort e) 0) prioritizedEpics) in
  let valueValues :=
    map pr_value (List.filter (fun e => gtb (pr_value e) 0) prioritizedEpics) in
  let medianEffort := medianOr 5 effortValues in
  let medianValue := medianOr 3 valueValues in
  let atLeast x m := geb x (toNumber m) in
  let below x m := (x <? toNumber m)%float in
  let count f := length (List.filter f prioritizedEpics) in
  {| pz_epics := prioritizedEpics;
     moscowDistribution := moscowDistribution;
     quadrants :=
       {| quickWins := count (fun e => atLeast (pr_value e) medianValue
                                       && below (pr_effort e) medianEffort);
          bigBets := count (fun e => atLeast (pr_value e) medianValue
                                     && atLeast (pr_effort e) medianEffort);
          fillIns := count (fun e => below (pr_value e) medianValue
                                     && below (pr_effort e) medianEffort);
          moneyPit := count (fun e => below (pr_value e) medianValue
                                      && atLeast (pr_effort e) medianEffort) |};
     medianEffort := medianEffort;
     medianValue := medianValue |}.

(** *** [buildCumulativeFlow] *)

Record Snapshot : Type := {
  week : string;
  cf_done : nat;
  cf_inProgress : nat;
  cf_todo : nat
}.

(** The state of one epic at a week's end; [None] when it did not exist
    yet. *)
Inductive FlowState : Type := FlowDone | FlowInProgress | FlowToDo.

Definition flowState (rt : Runtime) (weekEnd : float) (epic : EpicData)
  : option FlowState :=
  if negb (truthy_str (e_created epic))
     || gtb (new_Date rt (e_created epic)) weekEnd
  then None
  else
    let resolved := truthy_str (e_resolutionDate epic) in
    let resolutionDate := new_Date rt (e_resolutionDate epic) in
    if resolved && (resolutionDate <=? weekEnd)%float then Some FlowDone
    else if String.eqb (e_statusCategory epic) "indeterminate"
    then Some FlowInProgress
    else if String.eqb (e_statusCategory epic) "done"
            && (negb resolved || gtb resolutionDate weekEnd)
    then Some FlowInProgress
    else Some FlowToDo.

(** One turn of the loop over the epics, on [done], [inProgress], [todo]. *)
Definition flowStep (rt : Runtime) (weekEnd : float)
    (acc : nat * nat * nat) (epic : EpicData) : nat * nat * nat :=
  let '(d, i, t) := acc in
  match flowState rt weekEnd epic with
  | None => (d, i, t)
  | Some FlowDone => (S d, i, t)
  | Some FlowInProgress => (d, S i, t)
  | Some FlowToDo => (d, i, S t)
  end.

(** The body of the loop over the weeks, for the week [i] weeks back. *)
Definition snapshotAt (rt : Runtime) (cal : Calendar) (epics : list EpicData)
    (i : Z) : Outcome Snapshot :=
  let weekEnd := Date_endOfDayWeeksAgo cal i in
  match Date_isoDay cal weekEnd with
  | Returns weekLabel =>
      let '(d, p, t) := fold_left (flowStep rt weekEnd) epics (0, 0, 0)%nat in
      Returns {| week := weekLabel; cf_done := d; cf_inProgress := p;
                 cf_todo := t |}
  | Throws e => Throws e
  end.

(** [for (let i = weeks - 1; i >= 0; i--)], with [n] turns to go: the next
    one is for [i = n - 1]. *)
Fixpoint snapshotsFrom (rt : Runtime) (cal : Calendar) (epics : list EpicData)
    (n : nat) : Outcome (list Snapshot) :=
  match n with
  | O => Returns []
  | S i =>
      match snapshotAt rt cal epics (Z.of_nat i) with
      | Returns snapshot =>
          match snapshotsFrom rt cal epics i with
          | Returns rest => Returns (snapshot :: rest)
          | Throws e => Throws e
          end
      | Throws e => Throws e
      end
  end.

(** [buildCumulativeFlow(epics, weeks)]; a missing second argument is 12,
    and a number of weeks below 1 gives no snapshot. *)
Definition buildCumulativeFlow (rt : Runtime) (cal : Calendar)
    (epics : list EpicData) (weeks : option Z) : Outcome (list Snapshot) :=
  snapshotsFrom rt cal epics (Z.to_nat (default 12 weeks)).

(** *** [buildSummary] *)

Record Summary : Type := {
  sm_total : nat;
  sm_done : nat;
  sm_inProgress : nat;
  sm_todo : nat;
  sm_atRisk : nat;
  sm_blocked : nat;
  sm_totalStoryPoints : float;
  sm_completedStoryPoints : float
}.

Definition buildSummary (epics : list EpicData) : Summary :=
  let count f := length (List.filter f epics) in
  {| sm_total := length epics;
     sm_done := count (fun e => String.eqb (e_statusCategory e) "done");
     sm_inProgress :=
       count (fun e => String.eqb (e_statusCategory e) "indeterminate");
     sm_todo := count (fun e => String.eqb (e_statusCategory e) "new"
                                || String.eqb (e_statusCategory e) "undefined");
     sm_atRisk := count (fun e => String.eqb (e_health e) "at-risk");
     sm_blocked := count (fun e => String.eqb (e_health e) "blocked");
     sm_totalStoryPoints :=
       fold_left (fun sum e =>
                    (sum + or_num (Some (totalPoints (e_children e))) 0)%float)
                 epics 0%float;
     sm_completedStoryPoints :=
       fold_left (fun sum e =>
                    (sum + or_num (Some (completedPoints (e_children e))) 0)%float)
                 epics 0%float |}.

End EpicMetricsRest.

(** ** The specification's formulas *)

Module Spec.
Import JS.

(** The WSJF score as section 4.4 words it: the cost of delay over the job
    size, the latter raised to 0.5, rounded to two decimals the way the
    source rounds. *)
Definition wsjfFormula (bv tc rr js : float) : float :=
  (Math_round (((bv + tc + rr) / Math_max js 0.5) * 100) / 100)%float.

(** An epic whose lead time enters the report: resolved, with both dates,
    and a rounded lead time that is not negative. *)
Definition counted (rt : Runtime) (e : EpicMetricsService.EpicData) : bool :=
  EpicMetricsService.isResolved e
  && geb (EpicMetricsService.leadTimeDays rt e) 0.

(** A lead time of [d] days lies in the bucket [b]. *)
Definition inBucket (d : Z) (b : EpicMetricsService.Bucket) : bool :=
  (EpicMetricsService.b_start b <=? d) && (d <? EpicMetricsService.b_end b).




(** The status category a child is counted under. *)
Definition childCategory (child : EpicMetricsService.Issue) : string :=
  or_str (EpicMetricsService.issue_statusCategory child) "new".

(** The children counted under a category. *)
Definition childrenIn (category : string)
    (children : list EpicMetricsService.Issue) : list EpicMetricsService.Issue :=
  List.filter (fun c => String.eqb (childCategory c) category) children.

(** The children counted as to do: neither done nor in progress. *)
Definition childrenToDo (children : list EpicMetricsService.Issue)
  : list EpicMetricsService.Issue :=
  List.filter (fun c => negb (String.eqb (childCategory c) "done")
                        && negb (String.eqb (childCategory c) "indeterminate"))
              children.

(** The five health verdicts. *)
Definition verdicts : list string :=
  ["done"; "blocked"; "no-data"; "on-track"; "at-risk"].

(** What the roll-up lists for an epic in its bucket. *)
Definition epicSummary (epic : EpicMetricsService.EpicData)
  : EpicMetricsService.EpicSummary :=
  {| EpicMetricsService.s_key := EpicMetricsService.e_key epic;
     EpicMetricsService.s_summary := EpicMetricsService.e_summary epic;
     EpicMetricsService.s_status := EpicMetricsService.e_status epic;
     EpicMetricsService.s_progress := EpicMetricsService.e_progress epic;
     EpicMetricsService.s_health := EpicMetricsService.e_health epic;
     EpicMetricsService.s_storyPoints :=
       EpicMetricsService.totalPoints (EpicMetricsService.e_children epic);
     EpicMetricsService.s_completedPoints :=
       EpicMetricsService.completedPoints (EpicMetricsService.e_children epic) |}.

(** The bucket an epic belongs to: the one of its parent key when that key
    is the key of a given initiative, the unlinked one otherwise. *)
Definition bucketKey (initiatives : list EpicMetricsService.RawInitiative)
    (epic : EpicMetricsService.EpicData) : string :=
  let parentKey :=
    EpicMetricsService.or_strfield (EpicMetricsService.e_parentKey epic)
                                   EpicMetricsService.unlinkedKey in
  if existsb (String.eqb parentKey)
             (map EpicMetricsService.init_key initiatives)
  then parentKey else EpicMetricsService.unlinkedKey.

(** The epics of a bucket, in input order. *)
Definition routed (initiatives : list EpicMetricsService.RawInitiative)
    (key : string) (epics : list EpicMetricsService.EpicData)
  : list EpicMetricsService.EpicData :=
  List.filter (fun e => String.eqb (bucketKey initiatives e) key) epics.

Definition isDoneEpic (e : EpicMetricsService.EpicData) : bool :=
  String.eqb (EpicMetricsService.e_statusCategory e) "done".

(** An entry of the initiative map before any epic is added: the bucket
    carries the key it is stored under and is empty. *)
Definition seeded (p : string * EpicMetricsService.Initiative) : Prop :=
  EpicMetricsService.i_key (snd p) = fst p /\
  EpicMetricsService.i_epics (snd p) = [] /\
  EpicMetricsService.i_totalEpics (snd p) = 0%nat /\
  EpicMetricsService.i_completedEpics (snd p) = 0%nat.

(** The lead times, in days, that enter the report, in input order. *)
Definition leadTimesOf (rt : Runtime)
    (epics : list EpicMetricsService.EpicData) : list Z :=
  map (fun e => to_Z (EpicMetricsService.leadTimeDays rt e))
      (List.filter (counted rt) epics).

(** The name an epic in progress is counted under in [wipByAssignee]. *)
Definition assigneeName (e : EpicMetricsService.EpicData) : string :=
  or_str (Some (EpicMetricsService.e_assignee e)) "Unassigned".

(** An epic in progress: its status category is [indeterminate]. *)
Definition epicInProgress (e : EpicMetricsService.EpicData) : bool :=
  String.eqb (EpicMetricsService.e_statusCategory e) "indeterminate".

(** The key an epic looks its initiative up under: its parent key, and
    [_unlinked] when it has none. *)
Definition parentKeyOf (e : EpicMetricsService.EpicData) : string :=
  match EpicMetricsService.e_parentKey e with
  | str s => if String.eqb s "" then "_unlinked" else s
  | _ => "_unlinked"
  end.

(** The name an epic in progress is counted under in [wipByInitiative]: the
    summary of the first initiative whose key is the epic's parent key, and
    Unlinked when there is none or its summary is empty. *)
Definition initiativeNameOf
    (initiatives : option (list EpicMetricsService.Initiative))
    (e : EpicMetricsService.EpicData) : string :=
  match List.find (fun i => String.eqb (EpicMetricsService.i_key i)
                                       (parentKeyOf e))
                  (default [] initiatives) with
  | Some i => if String.eqb (EpicMetricsService.i_summary i) ""
              then "Unlinked" else EpicMetricsService.i_summary i
  | None => "Unlinked"
  end.

(** The epics in progress that [name] stands for under the naming [f]. *)
Definition wipNamed (f : EpicMetricsService.EpicData -> string)
    (name : string) (epics : list EpicMetricsService.EpicData)
  : list EpicMetricsService.EpicData :=
  List.filter (fun e => epicInProgress e && String.eqb (f e) name) epics.

(** No epic in progress goes by a name that [Object.prototype] has a
    property for, under either naming. *)
Definition ownNames (initiatives : option (list EpicMetricsService.Initiative))
    (epics : list EpicMetricsService.EpicData) : bool :=
  forallb (fun e => negb (epicInProgress e)
                    || (negb (inherited (assigneeName e))
                        && negb (inherited (initiativeNameOf initiatives e))))
          epics.

(** The number a count stands for; a spoiled count stands for none. *)
Definition countOf (v : Counter.Value) : option nat :=
  match v with
  | Counter.Count n => Some n
  | Counter.Spoiled _ _ => None
  end.

(** A resolved epic: status category [done], with a resolution date and a
    creation date. *)
Definition resolvedEpic (e : EpicMetricsService.EpicData) : bool :=
  String.eqb (EpicMetricsService.e_statusCategory e) "done"
  && truthy_str (EpicMetricsService.e_resolutionDate e)
  && truthy_str (EpicMetricsService.e_created e).

(** The lead time of an epic in days, rounded: from its creation to its
    resolution, a day being 86 400 000 ms. *)
Definition roundedLeadTime (rt : Runtime) (e : EpicMetricsService.EpicData)
  : float :=
  Math_round ((new_Date rt (EpicMetricsService.e_resolutionDate e)
               - new_Date rt (EpicMetricsService.e_created e))
              / 86400000)%float.

Definition leadDays (rt : Runtime) (e : EpicMetricsService.EpicData) : Z :=
  to_Z (roundedLeadTime rt e).

(** A resolved epic whose rounded lead time is not negative. *)
Definition entersReport (rt : Runtime) (e : EpicMetricsService.EpicData)
  : bool :=
  resolvedEpic e && (0 <=? roundedLeadTime rt e)%float.

(** The entry the lead-time report lists for an epic. *)
Definition leadEntry (rt : Runtime) (e : EpicMetricsService.EpicData)
  : EpicMetricsService.LeadDetail :=
  {| EpicMetricsService.ld_key := EpicMetricsService.e_key e;
     EpicMetricsService.ld_summary := EpicMetricsService.e_summary e;
     EpicMetricsService.ld_created := EpicMetricsService.e_created e;
     EpicMetricsService.ld_resolved := EpicMetricsService.e_resolutionDate e;
     EpicMetricsService.ld_leadTimeDays := leadDays rt e |}.

(** A priority whose name [Object.prototype] has no property for. *)
Definition ownPriority (e : EpicMetricsService.EpicData) : bool :=
  negb (inherited (EpicMetricsService.e_priority e)).

(** Counting the elements of a list under string keys, one [increment] at a
    time. *)
Definition tallyBy {A : Type} (f : A -> string) (l : list A)
    (obj : OMap.t nat) : OMap.t nat :=
  fold_left (fun m x => EpicMetricsService.increment (f x) m) l obj.

(** The object that holds the counts of a tally, none of them spoiled. *)
Definition counts (m : OMap.t nat) : Counter.t :=
  map (fun p => (fst p, Counter.Count (snd p))) m.

(** The status categories [buildSummary] has a count for. *)
Definition summarized (e : EpicMetricsService.EpicData) : bool :=
  includes ["done"; "indeterminate"; "new"; "undefined"]
           (EpicMetricsService.e_statusCategory e).

(** The completed epics of a period, under a naming [k] of the periods. *)
Definition completedIn (k : EpicMetricsService.EpicData -> string)
    (period : string) (epics : list EpicMetricsService.EpicData)
  : list EpicMetricsService.EpicData :=
  List.filter (fun e => EpicMetricsRest.isCompleted e
                        && String.eqb (k e) period) epics.

(** The period type is one of the two whose key is built from numbers. *)
Definition calendarPeriod (periodType : option string) : bool :=
  String.eqb (default "month" periodType) "month"
  || String.eqb (default "month" periodType) "quarter".

(** The week of an epic's resolution date cannot be printed. *)
Definition weekUnprintable (rt : Runtime) (cal : EpicMetricsRest.Calendar)
    (e : EpicMetricsService.EpicData) : bool :=
  match EpicMetricsRest.Date_isoDay cal
          (EpicMetricsRest.Date_startOfWeek cal
             (new_Date rt (EpicMetricsService.e_resolutionDate e))) with
  | ForecastService.Returns _ => false
  | ForecastService.Throws _ => true
  end.

(** An epic that existed at a week's end: it has a creation date that is
    not after it. *)
Definition existedBy (rt : Runtime) (weekEnd : float)
    (e : EpicMetricsService.EpicData) : bool :=
  truthy_str (EpicMetricsService.e_created e)
  && negb (gtb (new_Date rt (EpicMetricsService.e_created e)) weekEnd).

(** An epic resolved by a week's end. *)
Definition resolvedBy (rt : Runtime) (weekEnd : float)
    (e : EpicMetricsService.EpicData) : bool :=
  truthy_str (EpicMetricsService.e_resolutionDate e)
  && (new_Date rt (EpicMetricsService.e_resolutionDate e) <=? weekEnd)%float.

(** The four MoSCoW categories. *)
Definition categories : list string :=
  ["Must Have"; "Should Have"; "Could Have"; "Won't Have"].

(** An epic that is not done. *)
Definition openEpic (e : EpicMetricsRest.EpicView) : bool :=
  negb (String.eqb
          (EpicMetricsService.e_statusCategory (EpicMetricsRest.ev_data e))
          "done").

(** A coordinate that compares with a median: neither is [NaN], and the
    median is not [undefined]. *)
Definition comparable (x : float) (m : option float) : bool :=
  geb x (EpicMetricsRest.toNumber m) || (x <? EpicMetricsRest.toNumber m)%float.

End Spec.

(** ** Worked inputs *)

Module Samples.
Import JS EpicMetricsService ForecastService.

(** The date, as [YYYY-MM-DD], of the 10th of the month [k] months after
    June 2024. *)
Definition plusMonthsFromJune2024 (k : Z) : string :=
  let m := 5 + k in
  let month := m mod 12 + 1 in
  pretty (2024 + m / 12) +:+ "-"
  +:+ (if month <? 10 then "0" +:+ pretty month else pretty month) +:+ "-10".

(** A runtime on 2024-06-10 at 00:00 UTC that knows the dates the examples
    use and prints integers in decimal. *)
Definition runtime : Runtime :=
  {| Date_now := 1717977600000%float;
     Date_parse := fun s =>
       if String.eqb s "2024-01-01" then 1704067200000%float
       else if String.eqb s "2024-01-09" then 1704758400000%float
       else if String.eqb s "2024-01-31" then 1706659200000%float
       else if String.eqb s "2024-03-01" then 1709251200000%float
       else if String.eqb s "2024-12-01" then 1733011200000%float
       else nan;
     Number_toString := fun x => pretty (to_Z x);
     Date_plusMonths := plusMonthsFromJune2024 |}.

(** An open epic created on 2024-01-01 and due on 2024-03-01. *)
Definition overdueEpic : RawEpic :=
  {| raw_statusCategory := Some "indeterminate";
     raw_duedate := str "2024-03-01";
     raw_created := str "2024-01-01" |}.

(** The same epic without a due date. *)
Definition undatedEpic : RawEpic :=
  {| raw_statusCategory := Some "indeterminate";
     raw_duedate := null;
     raw_created := str "2024-01-01" |}.

Definition someLinks : Dependencies :=
  {| blocks := [];
     blockedBy := [ {| link_key := "PAY-1"; link_status := Some "Done" |};
                    {| link_key := "PAY-2"; link_status := Some "In Progress" |};
                    {| link_key := "PAY-3"; link_status := Some "RESOLVED" |};
                    {| link_key := "PAY-4"; link_status := None |} ];
     relatesTo := [] |}.

Definition noChildren : Progress := calculateEpicProgress [].

Definition mkEpic (key statusCategory assignee : string)
    (created resolutionDate parentKey : strfield)
    (rawFields : option (gmap string float)) : EpicData :=
  {| e_key := key;
     e_summary := "";
     e_status := "";
     e_statusCategory := statusCategory;
     e_priority := "Medium";
     e_assignee := assignee;
     e_created := created;
     e_dueDate := null;
     e_resolutionDate := resolutionDate;
     e_storyPoints := 0%float;
     e_parentKey := parentKey;
     e_children := noChildren;
     e_progress := 0%float;
     e_health := "no-data";
     e_rawFields := rawFields |}.

Definition mappings : FieldMappings :=
  {| fm_businessValue := str "cf_bv";
     fm_timeCriticality := str "cf_tc";
     fm_riskReduction := str "cf_rr";
     fm_jobSize := str "cf_js" |}.

(** The epic of the specification's WSJF example. *)
Definition scoredEpic : EpicData :=
  mkEpic "PAY-10" "new" "ana" (str "2024-01-01") null null
    (Some {[ "cf_bv" := 5%float; "cf_tc" := 3%float; "cf_rr" := 2%float;
             "cf_js" := 2%float ]}).

(** The same epic with a job size of 0. *)
Definition zeroSizeEpic : EpicData :=
  mkEpic "PAY-11" "new" "ana" (str "2024-01-01") null null
    (Some {[ "cf_bv" := 5%float; "cf_tc" := 3%float; "cf_rr" := 2%float;
             "cf_js" := 0%float ]}).

(** Three months of throughput, one of them idle. *)
Definition history : list ThroughputPoint :=
  [ {| period := "2024-03"; count := 5%float |};
    {| period := "2024-04"; count := 0%float |};
    {| period := "2024-05"; count := 3%float |} ].

(** Two months of five epics each. *)
Definition constantHistory : list ThroughputPoint :=
  [ {| period := "2024-04"; count := 5%float |};
    {| period := "2024-05"; count := 5%float |} ].

Definition child (key : string) (statusCategory : option string)
    (points : option float) : Issue :=
  {| issue_key := key;
     issue_statusCategory := statusCategory;
     issue_points := points |}.

Definition threeChildren : list Issue :=
  [ child "PAY-21" (Some "done") (Some 3%float);
    child "PAY-22" (Some "indeterminate") None;
    child "PAY-23" None (Some 2%float) ].

Definition initiative (key summary : string) : RawInitiative :=
  {| init_key := key;
     init_summary := Some summary;
     init_status := Some "In Progress";
     init_statusCategory := Some "indeterminate";
     init_assignee := None;
     init_duedate := undefined |}.

Definition twoInitiatives : list RawInitiative :=
  [ initiative "INI-1" "Payments"; initiative "INI-2" "Onboarding" ].

(** Four epics: two under INI-1, one under a parent the map does not know,
    one without a parent. The first is done; the other three are in
    progress, assigned to ana, to nobody and to ana. *)
Definition fourEpics : list EpicData :=
  [ mkEpic "PAY-1" "done" "ana" (str "2024-01-01") (str "2024-01-09")
           (str "INI-1") None;
    mkEpic "PAY-2" "indeterminate" "ana" (str "2024-01-01") null
           (str "INI-1") None;
    mkEpic "PAY-3" "indeterminate" "" (str "2024-01-09") null
           (str "INI-9") None;
    mkEpic "PAY-4" "indeterminate" "ana" (str "2024-03-01") null null None ].

(** Four epics marked done, resolved after 8 days, after 30 days, 30 days
    before their creation and on a date that does not parse; and one that is
    still open. *)
Definition resolvedEpics : list EpicData :=
  [ mkEpic "PAY-1" "done" "ana" (str "2024-01-01") (str "2024-01-09") null None;
    mkEpic "PAY-5" "done" "ana" (str "2024-01-01") (str "2024-01-31") null None;
    mkEpic "PAY-6" "done" "ana" (str "2024-01-31") (str "2024-01-01") null None;
    mkEpic "PAY-7" "done" "ana" (str "2024-01-01") (str "yesterday") null None;
    mkEpic "PAY-8" "new" "ana" (str "2024-01-01") null null None ].

(** Two months in which nothing was completed. *)
Definition idleHistory : list ThroughputPoint :=
  [ {| period := "2024-04"; count := 0%float |};
    {| period := "2024-05"; count := 0%float |} ].

(** A calendar in UTC for the dates of the examples and the three week ends
    up to 2024-06-10; any other time value is an invalid date to it. *)
Definition calendar : EpicMetricsRest.Calendar :=
  {| EpicMetricsRest.Date_getFullYear := fun d =>
       if (d =? 1704067200000)%float || (d =? 1704758400000)%float
          || (d =? 1706659200000)%float || (d =? 1709251200000)%float
          || (d =? 1733011200000)%float
       then 2024%float else nan;
     EpicMetricsRest.Date_getMonth := fun d =>
       if (d =? 1704067200000)%float || (d =? 1704758400000)%float
          || (d =? 1706659200000)%float then 0%float
       else if (d =? 1709251200000)%float then 2%float
       else if (d =? 1733011200000)%float then 11%float
       else nan;
     EpicMetricsRest.Date_startOfWeek := fun d =>
       if (d =? 1704067200000)%float then 1703980800000%float
       else if (d =? 1704758400000)%float then 1704585600000%float
       else if (d =? 1706659200000)%float then 1706400000000%float
       else nan;
     EpicMetricsRest.Date_endOfDayWeeksAgo := fun i =>
       of_Z (1718063999999 - i * 604800000);
     EpicMetricsRest.Date_isoDay := fun d =>
       if (d =? 1703980800000)%float then ForecastService.Returns "2023-12-31"
       else if (d =? 1704585600000)%float
       then ForecastService.Returns "2024-01-07"
       else if (d =? 1706400000000)%float
       then ForecastService.Returns "2024-01-28"
       else if (d =? 1718063999999)%float
       then ForecastService.Returns "2024-06-10"
       else if (d =? 1717459199999)%float
       then ForecastService.Returns "2024-06-03"
       else if (d =? 1716854399999)%float
       then ForecastService.Returns "2024-05-27"
       else ForecastService.Throws "RangeError: Invalid time value";
     EpicMetricsRest.String_localeCompare := fun a b =>
       match String.compare a b with
       | Lt => (-1)%float
       | Eq => 0%float
       | Gt => 1%float
       end |}.

(** Three epics resolved in January 2024, the first two in the same week. *)
Definition januaryEpics : list EpicData :=
  [ mkEpic "PAY-1" "done" "ana" (str "2024-01-01") (str "2024-01-09") null None;
    mkEpic "PAY-5" "done" "ana" (str "2024-01-01") (str "2024-01-31") null None;
    mkEpic "PAY-9" "done" "ana" (str "2024-01-01") (str "2024-01-09") null None ].

(** An evaluated epic with its labels and the text entries of its raw
    fields. *)
Definition view (data : EpicData) (labels : list string)
    (textFields : gmap string string) : EpicMetricsRest.EpicView :=
  {| EpicMetricsRest.ev_data := data;
     EpicMetricsRest.ev_id := "10001";
     EpicMetricsRest.ev_labels := labels;
     EpicMetricsRest.ev_components := [];
     EpicMetricsRest.ev_fixVersions := [];
     EpicMetricsRest.ev_updated := undefined;
     EpicMetricsRest.ev_targetStart := null;
     EpicMetricsRest.ev_targetEnd := null;
     EpicMetricsRest.ev_issues := [];
     EpicMetricsRest.ev_healthReason := "";
     EpicMetricsRest.ev_dependencies :=
       {| blocks := []; blockedBy := []; relatesTo := [] |};
     EpicMetricsRest.ev_textFields := textFields |}.

(** The roll-up of an initiative called Payments, with key INI-1. *)
Definition namedInitiatives : list Initiative :=
  [ {| i_key := "INI-1";
       i_summary := "Payments";
       i_status := "In Progress";
       i_statusCategory := "indeterminate";
       i_assignee := "Unassigned";
       i_dueDate := null;
       i_epics := [];
       i_totalEpics := 0;
       i_completedEpics := 0;
       i_progress := 0%float;
       i_totalStoryPoints := 0%float;
       i_completedStoryPoints := 0%float;
       i_health := Some "no-data" |} ].

(** An epic in progress assigned to somebody called [__proto__], and one
    assigned to somebody called [constructor]. *)
Definition protoEpic : EpicData :=
  mkEpic "PAY-13" "indeterminate" "__proto__" (str "2024-01-01") null null
         None.

Definition constructorEpic : EpicData :=
  mkEpic "PAY-14" "indeterminate" "constructor" (str "2024-01-01") null null
         None.

(** Epics in progress assigned to bo, 10 and 7. *)
Definition numberedEpics : list EpicData :=
  [ mkEpic "PAY-15" "indeterminate" "bo" (str "2024-01-01") null null None;
    mkEpic "PAY-16" "indeterminate" "10" (str "2024-01-01") null null None;
    mkEpic "PAY-17" "indeterminate" "7" (str "2024-01-01") null null None ].

(** A blocked epic without children under a given priority, and the same
    epic due on 2024-03-01. *)
Definition withPriority (priority : string) (dueDate : strfield) : EpicData :=
  {| e_key := "PAY-19";
     e_summary := "";
     e_status := "";
     e_statusCategory := "new";
     e_priority := priority;
     e_assignee := "ana";
     e_created := str "2024-01-01";
     e_dueDate := dueDate;
     e_resolutionDate := null;
     e_storyPoints := 0%float;
     e_parentKey := null;
     e_children := noChildren;
     e_progress := 0%float;
     e_health := "blocked";
     e_rawFields := None |}.

Definition constructorPriority : EpicData := withPriority "constructor" null.

Definition duePriority (priority : string) : EpicData :=
  withPriority priority (str "2024-03-01").

Definition allMappings : EpicMetricsRest.Mappings :=
  {| EpicMetricsRest.numeric := mappings;
     EpicMetricsRest.fm_moscow := str "cf_moscow" |}.

(** An epic in progress whose mapped field says it will not be done, the
    epic of the WSJF example under a label that says it must, and a done
    epic. *)
Definition threeViews : list EpicMetricsRest.EpicView :=
  [ view (mkEpic "PAY-12" "indeterminate" "ana" (str "2024-01-01") null null
                 None)
         ["backend"] {[ "cf_moscow" := "Won't do this year" ]};
    view scoredEpic ["Q3-MUST"] ∅;
    view (mkEpic "PAY-1" "done" "ana" (str "2024-01-01") (str "2024-01-09")
                 null None) [] ∅ ].

End Samples.

(** ** Properties *)

Import JS.

(** *** The definitions at work *)

Section Examples.
Import EpicMetricsService ForecastService.

(** Ties round up, a negative fraction rounds to the negative zero, and
    29/200 of 100 is 14.499999999999998 in doubles. *)
Example Math_round_examples :
  Math_round 2.5 = 3%float /\ Math_round (-2.5) = (-2)%float /\
  Math_round (-0.25) = (-0)%float /\
  Math_round (29 / 200 * 100)%float = 14%float.
Proof. repeat split; reflexivity. Qed.

Example toLowerCase_example : toLowerCase "In Progress" = "in progress".
Proof. reflexivity. Qed.

(** [set] keeps the place of a key it overwrites. *)
Example omap_set_example :
  OMap.set "a" 3 (OMap.set "b" 2 (OMap.set "a" 1 OMap.empty))
    = [("a", 3); ("b", 2)].
Proof. reflexivity. Qed.

(** Equal keys keep their order. *)
Example sort_stable_example :
  sort (fun a b : Z * string => 0 <? fst a - fst b)
       [(2, "x"); (1, "y"); (2, "z"); (1, "w")]
    = [(1, "y"); (1, "w"); (2, "x"); (2, "z")].
Proof. reflexivity. Qed.

Example progress_example :
  calculateEpicProgress Samples.threeChildren
    = {| total := 3; done := 1; inProgress := 1; todo := 1;
         totalPoints := 5; completedPoints := 3; progress := 33 |}.
Proof. vm_compute. reflexivity. Qed.

Example health_on_track_example :
  calculateEpicHealth Samples.runtime Samples.undatedEpic
    Samples.threeChildren None
    = {| health := "on-track"; reason := "33% done" |}.
Proof. vm_compute. reflexivity. Qed.

(** INI-2 has no epic and stays; the unlinked bucket takes the epic with an
    unknown parent and the one without a parent. *)
Example aggregate_example :
  option_map (map (fun b => (i_key b, i_totalEpics b, i_health b)))
             (aggregateByInitiative Samples.twoInitiatives Samples.fourEpics)
    = Some [ ("INI-1", 2%nat, Some "on-track");
             ("INI-2", 0%nat, Some "no-data");
             ("_unlinked", 2%nat, Some "on-track") ].
Proof. vm_compute. reflexivity. Qed.

(** Without epics the unlinked bucket is dropped. *)
Example aggregate_empty_example :
  option_map (map i_key) (aggregateByInitiative Samples.twoInitiatives [])
    = Some ["INI-1"; "INI-2"].
Proof. vm_compute. reflexivity. Qed.

(** Lead times of 8 and 30 days; the epic resolved before its creation and
    the one whose resolution date does not parse are left out. *)
Example lead_time_example :
  let report := calculateEpicLeadCycleTime Samples.runtime Samples.resolvedEpics in
  totalResolved report = 4%nat /\
  map ld_leadTimeDays (lt_epics report) = [30; 8] /\
  EpicMetricsService.percentiles report
    = {| p50 := Some 8; p70 := Some 30; p85 := Some 30; p95 := Some 30 |} /\
  map (fun b => (b_range b, b_count b)) (histogram report)
    = [ ("0-7d", 0%nat); ("7-14d", 1%nat); ("14-21d", 0%nat);
        ("21-28d", 0%nat); ("28-35d", 1%nat) ].
Proof. vm_compute. repeat split; reflexivity. Qed.

Example wip_example :
  let report := calculateWIPMetrics Samples.runtime Samples.fourEpics None in
  totalWIP report = 3%nat /\
  wipByAssignee report
    = [ {| nc_name := "ana"; nc_count := Counter.Count 2 |};
        {| nc_name := "Unassigned"; nc_count := Counter.Count 1 |} ] /\
  wipByInitiative report
    = [ {| nc_name := "Unlinked"; nc_count := Counter.Count 3 |} ] /\
  map wa_ageDays (wipAge report) = [161%float; 153%float; 101%float] /\
  avgAge report = 138%float.
Proof. vm_compute. repeat split; reflexivity. Qed.

(** In fallback mode a Medium epic without children scores 7.5. *)
Example wsjf_fallback_example :
  calculateWSJF Samples.runtime Samples.scoredEpic None
    = {| businessValue := 3.5; timeCriticality := 2; riskReduction := 2;
         jobSize := 1; costOfDelay := 7.5; wsjfScore := 7.5 |}.
Proof. vm_compute. reflexivity. Qed.

(** Five trials over the history 5, 0, 3 with the draws 0, 1, 2, 0, ... *)
Example simulate_example :
  simulate (fun k => k mod 3)%nat (map count Samples.history) 101 10 5 []
           {| draws := 0; trials := 0 |}
    = (Some [4; 5; 4; 5; 4], {| draws := 22; trials := 5 |}).
Proof. vm_compute. reflexivity. Qed.

(** Without any trial the percentiles are undefined and the call throws. *)
Example forecast_no_trial_example :
  fst (monteCarloForecast Samples.runtime (fun k => k) 101
         (Some Samples.history) 10 (Some 0) {| draws := 0; trials := 0 |})
    = Some (Throws "RangeError: Invalid time value").
Proof. vm_compute. reflexivity. Qed.

(** Four trials over two months of five epics each: two periods every
    time, so the whole probability mass sits on the second month. *)
Example forecast_example :
  match fst (monteCarloForecast Samples.runtime (fun k => (k mod 2)%nat) 101
               (Some Samples.constantHistory) 10 (Some 4)
               {| draws := 0; trials := 0 |}) with
  | Some (Returns r) =>
      simulations r = 4 /\
      avgThroughput r = Some 5%float /\
      ForecastService.percentiles r !! "p85"
        = Some {| pe_periods := 2; pe_date := "2024-08-10";
                  pe_confidence := "85%" |} /\
      distribution r
        = [ {| d_periods := 1; d_date := "2024-07-10"; d_probability := 0 |};
            {| d_periods := 2; d_date := "2024-08-10"; d_probability := 100 |} ]
  | _ => False
  end.
Proof. vm_compute. repeat split; reflexivity. Qed.

End Examples.

(** *** Health of an epic *)

Section HealthProps.
Import EpicMetricsService.

Lemma includes_In (l : list string) (s : string) :
  includes l s = true <-> In s l.
Proof.
  unfold includes. rewrite existsb_exists. split.
  - intros (x & Hx & Heq). apply String.eqb_eq in Heq. now subst.
  - intros H. exists s. split; [assumption | apply String.eqb_refl].
Qed.

(** The filter keeps a link exactly when its status, lower-cased, is none of
    the closed statuses. *)
Lemma unresolved_spec (b : Link) :
  unresolved b = true <->
  ~ In (toLowerCase (or_str (link_status b) "")) closedStatuses.
Proof.
  unfold unresolved. rewrite negb_true_iff, <- not_true_iff_false.
  now rewrite includes_In.
Qed.

Lemma not_done_decide (epic : RawEpic) :
  raw_statusCategory epic <> Some "done" ->
  bool_decide (raw_statusCategory epic = Some "done") = false.
Proof. intros H. now apply bool_decide_eq_false. Qed.

(** Once a due date is set, no rule of the evaluator answers [no-data]. *)
Lemma health_due_date_not_no_data rt epic children deps :
  truthy_str (raw_duedate epic) = true ->
  health (calculateEpicHealth rt epic children deps) <> "no-data".
Proof.
  intros Hdue. unfold calculateEpicHealth. rewrite Hdue. simpl negb. cbv iota.
  repeat match goal with
         | |- context [if ?c then _ else _] => destruct c
         end; simpl; discriminate.
Qed.

(** C1, as the claim states it, fails: an open epic without blockers and
    without children, but with a due date, is judged by the due-date rules.
    Here it is overdue. *)
Lemma health_no_children_counterexample :
  raw_statusCategory Samples.overdueEpic <> Some "done" /\
  unresolvedBlockers None = [] /\
  calculateEpicHealth Samples.runtime Samples.overdueEpic [] None
    = {| health := "at-risk"; reason := "Overdue (0% done)" |} /\
  health (calculateEpicHealth Samples.runtime Samples.overdueEpic [] None)
    <> "no-data".
Proof.
  split; [discriminate|]. split; [reflexivity|].
  split; [vm_compute; reflexivity | vm_compute; discriminate].
Qed.

(** C1, amended: for an epic that is not done and has no unresolved
    blocker, an empty list of children gives the verdict [no-data] when no
    due date is set. *)
Theorem health_no_children_no_due_date rt epic deps :
  raw_statusCategory epic <> Some "done" ->
  unresolvedBlockers deps = [] ->
  truthy_str (raw_duedate epic) = false ->
  calculateEpicHealth rt epic [] deps
    = {| health := "no-data"; reason := "No child issues" |}.
Proof.
  intros Hopen Hfree Hdue. unfold calculateEpicHealth.
  rewrite (not_done_decide _ Hopen), Hfree, Hdue. reflexivity.
Qed.

Lemma health_no_children_no_due_date_witness :
  calculateEpicHealth Samples.runtime Samples.undatedEpic [] None
    = {| health := "no-data"; reason := "No child issues" |}.
Proof.
  apply (health_no_children_no_due_date Samples.runtime Samples.undatedEpic None).
  - discriminate.
  - reflexivity.
  - reflexivity.
Defined.

(** C2: an epic that is not done and has a blocker whose status is, up to
    case, none of done, closed, resolved is [blocked]; the reason joins the
    keys of those blockers, in the order of the filtered list, with a comma
    and a space. Neither the children nor the dates play a part. *)
Theorem health_blocked rt epic children (deps : Dependencies) :
  raw_statusCategory epic <> Some "done" ->
  (exists b, In b (blockedBy deps) /\
     ~ In (toLowerCase (or_str (link_status b) "")) closedStatuses) ->
  calculateEpicHealth rt epic children (Some deps)
    = {| health := "blocked";
         reason := "Blocked by "
                   +:+ join ", " (map link_key
                                    (List.filter unresolved (blockedBy deps))) |}.
Proof.
  intros Hopen (b & Hin & Hb). unfold calculateEpicHealth.
  rewrite (not_done_decide _ Hopen). unfold unresolvedBlockers.
  assert (Hmem : In b (List.filter unresolved (blockedBy deps))).
  { apply filter_In. split; [assumption | now apply unresolved_spec]. }
  destruct (List.filter unresolved (blockedBy deps)) as [|b0 rest] eqn:E.
  - destruct Hmem.
  - reflexivity.
Qed.

Lemma health_blocked_witness :
  calculateEpicHealth Samples.runtime Samples.overdueEpic [] (Some Samples.someLinks)
    = {| health := "blocked"; reason := "Blocked by PAY-2, PAY-4" |}.
Proof.
  apply (health_blocked Samples.runtime Samples.overdueEpic [] Samples.someLinks).
  - discriminate.
  - exists {| link_key := "PAY-2"; link_status := Some "In Progress" |}.
    split.
    + simpl. tauto.
    + vm_compute. intros H.
      repeat (destruct H as [H|H]; [discriminate H|]). exact H.
Defined.

End HealthProps.

(** *** Comparisons of doubles *)

Section FloatProps.

Lemma SFcompare_antisym (a b : spec_float) (c : comparison) :
  SFcompare a b = Some c -> SFcompare b a = Some (CompOpp c).
Proof.
  destruct a as [sa|sa| |sa ma ea], b as [sb|sb| |sb mb eb]; simpl;
    try discriminate;
    try (destruct sa; intros [= <-]; reflexivity);
    try (destruct sb; intros [= <-]; reflexivity);
    try (intros [= <-]; reflexivity).
  - destruct sa, sb; intros [= <-]; reflexivity.
  - destruct sa, sb; intros [= <-]; try reflexivity.
    + rewrite (Z.compare_antisym ea eb).
      destruct (ea ?= eb); simpl; try reflexivity.
      now rewrite (Pos.compare_cont_antisym ma mb Eq).
    + rewrite (Z.compare_antisym ea eb).
      destruct (ea ?= eb); simpl; try reflexivity.
      now rewrite (Pos.compare_cont_antisym ma mb Eq).
Qed.

Lemma is_nan_false_Prim2SF (x : float) :
  is_nan x = false -> Prim2SF x <> S754_nan.
Proof.
  unfold is_nan. intros H E. apply negb_false_iff in H.
  rewrite FloatAxioms.eqb_spec in H. unfold SFeqb in H.
  rewrite E in H. discriminate.
Qed.

Lemma truthy_not_nan (x : float) : truthy x = true -> is_nan x = false.
Proof.
  unfold truthy. rewrite negb_true_iff. intros H.
  now apply orb_false_iff in H.
Qed.

Lemma truthy_or_num (x : option float) (d : float) :
  truthy d = true -> truthy (or_num x d) = true.
Proof.
  intros Hd. destruct x as [v|]; simpl; [|assumption].
  destruct (truthy v) eqn:E; assumption.
Qed.

(** A number that is not below 0.5, and is a number, is at least 0.5. *)
Lemma not_below_half (x : float) :
  is_nan x = false -> (x <? 0.5)%float = false -> (0.5 <=? x)%float = true.
Proof.
  intros Hnan Hlt. apply is_nan_false_Prim2SF in Hnan.
  rewrite ltb_spec in Hlt. rewrite leb_spec.
  unfold SFltb in Hlt. unfold SFleb.
  destruct (SFcompare (Prim2SF x) (Prim2SF 0.5)) as [c|] eqn:E.
  - rewrite (SFcompare_antisym _ _ _ E).
    destruct c; simpl; [reflexivity | discriminate | reflexivity].
  - exfalso. destruct (Prim2SF x) as [s|s| |s m e]; simpl in E;
      try discriminate; try (now apply Hnan); destruct s; discriminate.
Qed.

Lemma Math_max_half (x : float) :
  is_nan x = false -> (0.5 <=? Math_max x 0.5)%float = true.
Proof.
  intros Hnan. unfold Math_max. rewrite Hnan. simpl.
  destruct (x <? 0.5)%float eqn:E1; [reflexivity|].
  destruct (0.5 <? x)%float eqn:E2; [now apply not_below_half|].
  destruct (get_sign x); [reflexivity | now apply not_below_half].
Qed.

Lemma gtb_not_leb (x y : float) : gtb x y = true -> (x <=? y)%float = false.
Proof.
  unfold gtb. rewrite ltb_spec, leb_spec. unfold SFltb, SFleb.
  destruct (SFcompare (Prim2SF y) (Prim2SF x)) as [c|] eqn:E; [|discriminate].
  rewrite (SFcompare_antisym _ _ _ E). destruct c; try discriminate. reflexivity.
Qed.

(** A number that is at least 0 denotes a non-negative integer. *)
Lemma to_Z_nonneg (x : float) : (0 <=? x)%float = true -> 0 <= to_Z x.
Proof.
  rewrite leb_spec. unfold SFleb, to_Z.
  destruct (Prim2SF x) as [s|s| |s m e]; simpl; try lia.
  destruct s; [discriminate|]. intros _.
  destruct (0 <=? e) eqn:E.
  - apply Z.mul_nonneg_nonneg; [lia | apply Z.pow_nonneg; lia].
  - apply Z.leb_gt in E.
    apply Z.div_pos; [lia | apply Z.pow_pos_nonneg; lia].
Qed.

End FloatProps.

(** *** WSJF *)

Section WsjfProps.
Import EpicMetricsService.

(** Whatever the mode, the job size the score divides by is at least 0.5. *)
Lemma wsjf_divisor_at_least_half rt epic fieldMappings :
  (0.5 <=? jobSize (calculateWSJF rt epic fieldMappings))%float = true.
Proof.
  unfold calculateWSJF.
  destruct fieldMappings as [fm|]; [unfold mappedInputs | unfold fallbackInputs];
    cbv zeta; cbn [jobSize]; apply Math_max_half, truthy_not_nan;
    repeat apply truthy_or_num; reflexivity.
Qed.

(** In mapped mode a job size of 0 or [NaN] counts as missing: the child
    total points, else 1, stand in for it. *)
Lemma wsjf_mapped_falsy_job_size rt epic fm js :
  rawField epic (fm_jobSize fm) = Some js ->
  truthy js = false ->
  jobSize (calculateWSJF rt epic (Some fm))
    = Math_max (or_num (Some (totalPoints (e_children epic))) 1) 0.5.
Proof.
  intros Hjs Hfalsy. unfold calculateWSJF, mappedInputs. cbn [jobSize].
  rewrite Hjs. cbn [or_num]. now rewrite Hfalsy.
Qed.

(** C3, as the claim states it, fails: a supplied job size of 0 is not
    raised to 0.5 but replaced by 1, so the score is 10 where the formula
    gives 20. *)
Lemma wsjf_zero_job_size_counterexample :
  rawField Samples.zeroSizeEpic (fm_businessValue Samples.mappings) = Some 5%float /\
  rawField Samples.zeroSizeEpic (fm_timeCriticality Samples.mappings) = Some 3%float /\
  rawField Samples.zeroSizeEpic (fm_riskReduction Samples.mappings) = Some 2%float /\
  rawField Samples.zeroSizeEpic (fm_jobSize Samples.mappings) = Some 0%float /\
  wsjfScore (calculateWSJF Samples.runtime Samples.zeroSizeEpic
               (Some Samples.mappings)) = 10%float /\
  Spec.wsjfFormula 5 3 2 0 = 20%float.
Proof. repeat split; vm_compute; reflexivity. Qed.

(** C3, amended: in mapped mode, when the raw field map supplies the
    numbers [bv], [tc], [rr] and a job size [js] that is neither 0 nor
    [NaN], the score is the cost of delay over [max(js, 0.5)] rounded to two
    decimals; the divisor is at least 0.5; and 5, 3, 2 over 2 gives 5. *)
Theorem wsjf_mapped rt epic fm (bv tc rr js : float) :
  rawField epic (fm_businessValue fm) = Some bv ->
  rawField epic (fm_timeCriticality fm) = Some tc ->
  rawField epic (fm_riskReduction fm) = Some rr ->
  rawField epic (fm_jobSize fm) = Some js ->
  kept bv -> kept tc -> kept rr ->
  truthy js = true ->
  let w := calculateWSJF rt epic (Some fm) in
  wsjfScore w = Spec.wsjfFormula bv tc rr js /\
  jobSize w = Math_max js 0.5 /\
  (0.5 <=? jobSize w)%float = true /\
  Spec.wsjfFormula 5 3 2 2 = 5%float.
Proof.
  intros Hbv Htc Hrr Hjs Kbv Ktc Krr Tjs w.
  assert (Hw : mappedInputs epic fm = (bv, tc, rr, js)).
  { unfold mappedInputs. rewrite Hbv, Htc, Hrr, Hjs, Kbv, Ktc, Krr.
    cbn [or_num]. now rewrite Tjs. }
  split; [|split; [|split]].
  - subst w. unfold calculateWSJF. rewrite Hw. reflexivity.
  - subst w. unfold calculateWSJF. rewrite Hw. reflexivity.
  - apply wsjf_divisor_at_least_half.
  - vm_compute. reflexivity.
Qed.

Lemma wsjf_mapped_witness :
  wsjfScore (calculateWSJF Samples.runtime Samples.scoredEpic
               (Some Samples.mappings)) = 5%float.
Proof.
  pose proof (wsjf_mapped Samples.runtime Samples.scoredEpic Samples.mappings
                5 3 2 2) as H.
  destruct H as (Hscore & _).
  - vm_compute; reflexivity.
  - vm_compute; reflexivity.
  - vm_compute; reflexivity.
  - vm_compute; reflexivity.
  - vm_compute; reflexivity.
  - vm_compute; reflexivity.
  - vm_compute; reflexivity.
  - vm_compute; reflexivity.
  - rewrite Hscore. vm_compute. reflexivity.
Defined.

End WsjfProps.

(** *** Sorting and the percentile index *)

Section SortProps.
Context {A : Type} (later : A -> A -> bool).

Lemma sort_insert_perm (x : A) (l : list A) :
  Permutation (sort_insert later x l) (x :: l).
Proof.
  induction l as [|y r IH]; cbn; [reflexivity|].
  destruct (later x y); [|reflexivity].
  rewrite IH. apply perm_swap.
Qed.

Lemma sort_perm (l : list A) : Permutation (sort later l) l.
Proof.
  induction l as [|x r IH]; cbn; [reflexivity|].
  rewrite sort_insert_perm. now constructor.
Qed.

Lemma sort_length (l : list A) : length (sort later l) = length l.
Proof. apply Permutation_length, sort_perm. Qed.

End SortProps.

Section AscendingProps.

Lemma sort_insert_sorted (x : Z) (l : list Z) :
  StronglySorted Z.le l -> StronglySorted Z.le (sort_insert ascending x l).
Proof.
  induction 1 as [|y r Hr IH Hy]; cbn.
  - repeat constructor.
  - unfold ascending at 1. destruct (0 <? x - y) eqn:E.
    + apply Z.ltb_lt in E. constructor; [assumption|].
      rewrite (sort_insert_perm ascending x r). constructor; [lia | assumption].
    + apply Z.ltb_ge in E. constructor.
      * now constructor.
      * constructor; [lia|]. eapply Forall_impl; [exact Hy|].
        cbn. intros; lia.
Qed.

Lemma sort_sorted (l : list Z) : StronglySorted Z.le (sort ascending l).
Proof.
  induction l as [|x r IH]; cbn; [constructor | now apply sort_insert_sorted].
Qed.

(** The last element of an ascending array is its maximum. *)
Lemma sorted_last_max (l : list Z) (m : Z) :
  StronglySorted Z.le l -> last l = Some m -> Forall (fun d => d <= m) l.
Proof.
  induction 1 as [|y r Hr IH Hy]; intros Hlast; [constructor|].
  destruct r as [|z r'].
  - cbn in Hlast. injection Hlast as <-. repeat constructor. lia.
  - assert (Hm : last (z :: r') = Some m) by exact Hlast.
    specialize (IH Hm). constructor; [|assumption].
    inversion Hy as [|? ? Hyz _]; subst. inversion IH; subst. lia.
Qed.

Lemma sort_replicate (v : Z) (n : nat) :
  sort ascending (replicate n v) = replicate n v.
Proof.
  induction n as [|n IH]; cbn; [reflexivity|].
  fold (sort ascending (replicate n v)). rewrite IH.
  destruct n; cbn; [reflexivity|].
  unfold ascending. now rewrite Z.sub_diag.
Qed.

(** For a percentile of at most 100 the index stays inside the array. *)
Lemma percentile_index_in_range (n : nat) (p : Z) :
  (0 < n)%nat -> p <= 100 ->
  (Z.to_nat (Z.max 0 (ceil_div100 (Z.of_nat n * p) - 1)) < n)%nat.
Proof.
  intros Hn Hp. unfold ceil_div100.
  assert (H : - Z.of_nat n <= - (Z.of_nat n * p) / 100).
  { apply Z.div_le_lower_bound; nia. }
  lia.
Qed.

End AscendingProps.

(** *** The forecast *)

Section ForecastProps.
Import ForecastService.

(** C4: without a throughput history, with an empty one, or with nothing
    left to do, the forecast returns the insufficient-data value; the random
    source is not read and no trial is started. *)
Theorem forecast_insufficient_data rt src fuel hist remaining sims s :
  hist = None \/ hist = Some [] \/ (remaining <=? 0)%float = true ->
  monteCarloForecast rt src fuel hist remaining sims s
    = (Some (Returns {| remainingItems := remaining;
                        simulations := 0;
                        avgThroughput := None;
                        percentiles := ∅;
                        distribution := [];
                        message := Some "Insufficient data for forecast" |}),
       s).
Proof.
  intros [-> | [-> | Hrem]]; unfold monteCarloForecast; simpl; try reflexivity.
  rewrite Hrem, orb_true_r. reflexivity.
Qed.

Lemma forecast_insufficient_data_witness :
  monteCarloForecast Samples.runtime (fun k => k) 101 (Some []) 10 None
                     {| draws := 0; trials := 0 |}
    = (Some (Returns {| remainingItems := 10;
                        simulations := 0;
                        avgThroughput := None;
                        percentiles := ∅;
                        distribution := [];
                        message := Some "Insufficient data for forecast" |}),
       {| draws := 0; trials := 0 |}).
Proof.
  apply (forecast_insufficient_data Samples.runtime (fun k => k) 101 (Some [])
           10 None {| draws := 0; trials := 0 |}).
  right. left. reflexivity.
Defined.

(** One trial ends within the cap however the samples fall: with more fuel
    than periods left under the cap, the loop returns a count between the
    count it started from and the cap, and beyond the start if it ran at
    all. *)
Lemma trial_terminates src values fuel :
  forall itemsLeft periods s,
    0 <= periods <= periodCap ->
    (Z.to_nat (periodCap - periods) < fuel)%nat ->
    exists p s',
      trial src values fuel itemsLeft periods s = (Some p, s') /\
      periods <= p <= periodCap /\
      (gtb itemsLeft 0 = true -> periods < periodCap -> periods < p) /\
      trials s' = trials s.
Proof.
  induction fuel as [|fuel IH]; intros itemsLeft periods s Hp Hfuel; [lia|].
  cbn [trial].
  destruct (gtb itemsLeft 0 && (periods <? periodCap)) eqn:C.
  - apply andb_true_iff in C. destruct C as [_ C]. apply Z.ltb_lt in C.
    unfold bind at 1. unfold draw at 1.
    destruct (IH (itemsLeft - default nan (values !! src (draws s)))%float
                 (periods + 1)
                 {| draws := S (draws s); trials := trials s |})
      as (p & s' & E & Hb & _ & Ht); [lia | lia |].
    exists p, s'. rewrite E. repeat split; try lia. exact Ht.
  - exists periods, s. unfold ret. repeat split; try lia.
    intros H1 H2. apply Z.ltb_lt in H2. rewrite H1, H2 in C. discriminate.
Qed.

Lemma simulate_terminates src values fuel remaining :
  (Z.to_nat periodCap < fuel)%nat ->
  gtb remaining 0 = true ->
  forall n acc s,
    exists days s',
      simulate src values fuel remaining n acc s = (Some (acc ++ days), s') /\
      length days = n /\
      Forall (fun p => 1 <= p <= periodCap) days /\
      trials s' = (trials s + n)%nat.
Proof.
  intros Hfuel Hrem. induction n as [|n IH]; intros acc s.
  - exists [], s. cbn. rewrite app_nil_r. repeat split; [constructor | lia].
  - cbn [simulate]. unfold bind at 1. unfold startTrial at 1.
    unfold bind at 1.
    destruct (trial_terminates src values fuel remaining 0
                {| draws := draws s; trials := S (trials s) |})
      as (p & s1 & E & Hb & Hpos & Ht); [unfold periodCap; lia | lia |].
    rewrite E.
    destruct (IH (acc ++ [p]) s1) as (days & s2 & E2 & Hlen & Hall & Ht2).
    exists (p :: days), s2. rewrite E2, <- app_assoc. cbn.
    repeat split.
    + lia.
    + constructor; [|assumption].
      specialize (Hpos Hrem). unfold periodCap in *. lia.
    + rewrite Ht2, Ht. cbn. lia.
Qed.

Lemma summarize_returns rt values remaining sims days :
  days <> [] ->
  exists r, summarize rt values remaining sims days = Returns r.
Proof.
  intros Hne.
  assert (Hlen : (0 < length (sort ascending days))%nat).
  { rewrite sort_length. destruct days; [congruence | cbn; lia]. }
  assert (H : forall p, p <= 100 ->
            is_Some (percentile (sort ascending days) p)).
  { intros p Hp. unfold percentile. apply lookup_lt_is_Some.
    now apply percentile_index_in_range. }
  destruct (H 50) as [k50 E50]; [lia|].
  destruct (H 85) as [k85 E85]; [lia|].
  destruct (H 95) as [k95 E95]; [lia|].
  unfold summarize. cbv zeta. rewrite E50, E85, E95. cbn.
  eexists. reflexivity.
Qed.

(** C5: with a history, something left to do and any random source, every
    trial stops with a period count between 1 and 100, the simulation loop
    runs all its trials, and the forecast comes back; it comes back with a
    result as soon as one trial is asked for. Fuel above the cap is never
    used up. *)
Theorem forecast_trials_terminate rt src fuel hist remaining sims s :
  hist <> [] ->
  gtb remaining 0 = true ->
  (100 < fuel)%nat ->
  let values := map count hist in
  (forall s0, exists p s1,
      trial src values fuel remaining 0 s0 = (Some p, s1) /\ 1 <= p <= 100) /\
  (exists days s1,
      simulate src values fuel remaining (Z.to_nat sims) [] s = (Some days, s1) /\
      length days = Z.to_nat sims /\
      Forall (fun p => 1 <= p <= 100) days) /\
  (exists out s1,
      monteCarloForecast rt src fuel (Some hist) remaining (Some sims) s
        = (Some out, s1) /\
      (0 < sims -> exists r, out = Returns r)).
Proof.
  intros Hne Hrem Hfuel values.
  assert (Hcap : (Z.to_nat periodCap < fuel)%nat) by (unfold periodCap; lia).
  destruct (simulate_terminates src values fuel remaining Hcap Hrem
              (Z.to_nat sims) [] s) as (days & s1 & E & Hlen & Hall & _).
  cbn [app] in E.
  split; [|split].
  - intros s0.
    destruct (trial_terminates src values fuel remaining 0 s0)
      as (p & s2 & Ep & Hb & Hpos & _); [unfold periodCap; lia | lia |].
    exists p, s2. split; [exact Ep|].
    specialize (Hpos Hrem). unfold periodCap in *. lia.
  - exists days, s1. unfold periodCap in Hall. auto.
  - exists (summarize rt values remaining sims days), s1. split.
    + unfold monteCarloForecast. cbn [from_option]. unfold id.
      rewrite (gtb_not_leb _ _ Hrem), orb_false_r.
      destruct hist as [|t hist']; [congruence|]. cbn [length Nat.eqb].
      unfold bind. fold values. rewrite E. reflexivity.
    + intros Hsims. apply summarize_returns.
      destruct days; [cbn in Hlen; lia | congruence].
Qed.

Lemma forecast_trials_terminate_witness :
  exists out s1,
    monteCarloForecast Samples.runtime (fun k => k) 101
      (Some Samples.history) 10 (Some 3) {| draws := 0; trials := 0 |}
      = (Some out, s1) /\
    (0 < 3 -> exists r, out = Returns r).
Proof.
  apply (forecast_trials_terminate Samples.runtime (fun k => k) 101
           Samples.history 10 3 {| draws := 0; trials := 0 |}).
  - discriminate.
  - reflexivity.
  - lia.
Defined.

Lemma trial_step src values fuel itemsLeft periods s :
  gtb itemsLeft 0 = true ->
  periods < periodCap ->
  trial src values (S fuel) itemsLeft periods s
    = trial src values fuel
        (itemsLeft - default nan (values !! src (draws s)))%float (periods + 1)
        {| draws := S (draws s); trials := trials s |}.
Proof.
  intros H1 H2. apply Z.ltb_lt in H2. cbn [trial]. rewrite H1, H2. reflexivity.
Qed.

Lemma trial_stop src values fuel itemsLeft periods s :
  gtb itemsLeft 0 = false ->
  trial src values (S fuel) itemsLeft periods s = (Some periods, s).
Proof. intros H. cbn [trial]. rewrite H. reflexivity. Qed.

(** With 10 items left and every sample worth 5, a trial takes two periods. *)
Lemma trial_constant src values fuel s :
  (2 < fuel)%nat ->
  (forall k, values !! src k = Some 5%float) ->
  trial src values fuel 10 0 s
    = (Some 2, {| draws := S (S (draws s)); trials := trials s |}).
Proof.
  intros Hfuel Hval. destruct fuel as [|[|[|fuel]]]; try lia.
  rewrite trial_step; [|reflexivity | unfold periodCap; lia].
  rewrite Hval. cbn [default].
  rewrite trial_step; [|reflexivity | unfold periodCap; lia].
  rewrite Hval. cbn [default].
  rewrite trial_stop; reflexivity.
Qed.

Lemma simulate_constant src values fuel :
  (2 < fuel)%nat ->
  (forall k, values !! src k = Some 5%float) ->
  forall n acc s,
    fst (simulate src values fuel 10 n acc s) = Some (acc ++ replicate n 2).
Proof.
  intros Hfuel Hval. induction n as [|n IH]; intros acc s.
  - cbn. now rewrite app_nil_r.
  - cbn [simulate]. unfold bind at 1. unfold startTrial at 1. unfold bind at 1.
    rewrite trial_constant by assumption.
    rewrite IH, <- app_assoc. reflexivity.
Qed.

Lemma lookup_constant_history (hist : list ThroughputPoint) (i : nat) :
  (forall t, In t hist -> count t = 5%float) ->
  (i < length hist)%nat ->
  map count hist !! i = Some 5%float.
Proof.
  revert i. induction hist as [|t hist IH]; intros i Hall Hi; cbn in Hi; [lia|].
  destruct i as [|i]; cbn.
  - f_equal. apply Hall. now left.
  - apply IH; [|lia]. intros t' Ht'. apply Hall. now right.
Qed.

Lemma percentile_replicate (v : Z) (n : nat) (p : Z) :
  (0 < n)%nat -> p <= 100 -> percentile (replicate n v) p = Some v.
Proof.
  intros Hn Hp. unfold percentile. apply lookup_replicate_2.
  rewrite length_replicate. now apply percentile_index_in_range.
Qed.

(** The forecast on a history of 5s with 10 items left, whatever the draws. *)
Lemma forecast_constant_value rt src fuel hist sims s :
  hist <> [] ->
  (forall t, In t hist -> count t = 5%float) ->
  0 < sims ->
  (2 < fuel)%nat ->
  (forall k, (src k < length hist)%nat) ->
  fst (monteCarloForecast rt src fuel (Some hist) 10 (Some sims) s)
    = Some (summarize rt (map count hist) 10 sims
                      (replicate (Z.to_nat sims) 2)).
Proof.
  intros Hne Hall Hsims Hfuel Hsrc.
  unfold monteCarloForecast. cbn [from_option]. unfold id.
  destruct hist as [|t hist']; [congruence|].
  replace ((length (t :: hist') =? 0)%nat || (10 <=? 0)%float) with false
    by reflexivity.
  cbv iota. unfold bind.
  pose proof (simulate_constant src (map count (t :: hist')) fuel Hfuel
                (fun k => lookup_constant_history _ _ Hall (Hsrc k))
                (Z.to_nat sims) [] s) as E.
  destruct (simulate src (map count (t :: hist')) fuel 10 (Z.to_nat sims) [] s)
    as [r s1].
  cbn in E. subst r. reflexivity.
Qed.

(** C6: on a history whose values all equal 5, with 10 items left, the
    forecast does not depend on the random source: under any two sources of
    valid indices every trial records 2 periods, the two runs return the
    same result, and its p50, p85 and p95 are 2 periods. *)
Theorem forecast_constant_history rt src1 src2 fuel hist sims s1 s2 :
  hist <> [] ->
  (forall t, In t hist -> count t = 5%float) ->
  0 < sims ->
  (2 < fuel)%nat ->
  (forall k, (src1 k < length hist)%nat) ->
  (forall k, (src2 k < length hist)%nat) ->
  let values := map count hist in
  let n := Z.to_nat sims in
  fst (simulate src1 values fuel 10 n [] s1) = Some (replicate n 2) /\
  fst (simulate src2 values fuel 10 n [] s2) = Some (replicate n 2) /\
  exists r,
    fst (monteCarloForecast rt src1 fuel (Some hist) 10 (Some sims) s1)
      = Some (Returns r) /\
    fst (monteCarloForecast rt src2 fuel (Some hist) 10 (Some sims) s2)
      = Some (Returns r) /\
    pe_periods <$> percentiles r !! "p50" = Some 2 /\
    pe_periods <$> percentiles r !! "p85" = Some 2 /\
    pe_periods <$> percentiles r !! "p95" = Some 2.
Proof.
  intros Hne Hall Hsims Hfuel Hsrc1 Hsrc2 values n.
  assert (Hn : (0 < n)%nat) by (subst n; lia).
  split; [|split].
  - apply (simulate_constant src1 values fuel Hfuel
             (fun k => lookup_constant_history _ _ Hall (Hsrc1 k)) n [] s1).
  - apply (simulate_constant src2 values fuel Hfuel
             (fun k => lookup_constant_history _ _ Hall (Hsrc2 k)) n [] s2).
  - rewrite !forecast_constant_value by assumption.
    fold values n. unfold summarize. cbv zeta.
    rewrite sort_replicate, !percentile_replicate by (assumption || lia).
    cbn [percentileEntry]. eexists.
    split; [reflexivity|]. split; [reflexivity|].
    cbn [percentiles]. repeat split; reflexivity.
Qed.

Lemma forecast_constant_history_witness :
  exists r,
    fst (monteCarloForecast Samples.runtime (fun k => 0%nat) 101
           (Some Samples.constantHistory) 10 (Some 4)
           {| draws := 0; trials := 0 |}) = Some (Returns r) /\
    fst (monteCarloForecast Samples.runtime (fun k => (k mod 2)%nat) 101
           (Some Samples.constantHistory) 10 (Some 4)
           {| draws := 7; trials := 0 |}) = Some (Returns r) /\
    pe_periods <$> percentiles r !! "p50" = Some 2 /\
    pe_periods <$> percentiles r !! "p85" = Some 2 /\
    pe_periods <$> percentiles r !! "p95" = Some 2.
Proof.
  apply (forecast_constant_history Samples.runtime (fun k => 0%nat)
           (fun k => (k mod 2)%nat) 101 Samples.constantHistory 4
           {| draws := 0; trials := 0 |} {| draws := 7; trials := 0 |}).
  - discriminate.
  - intros t [<- | [<- | []]]; reflexivity.
  - lia.
  - lia.
  - intros k. cbn. lia.
  - intros k. cbn [Samples.constantHistory length].
    apply Nat.mod_upper_bound. discriminate.
Defined.

End ForecastProps.

(** *** The percentile helper *)

Section PercentileProps.

Lemma ceil_div100_Qceiling (n : Z) : ceil_div100 n = Qceiling (Qmake n 100).
Proof. reflexivity. Qed.

(** C7: on a non-empty array of length N both percentile helpers, the one of
    the lead-time report and the one of the forecast, return the element at
    index max(0, ceil(N * p / 100) - 1), which exists for p up to 100; on
    1..10 the 50th percentile is 5 and the 85th is 9. *)
Theorem percentile_nearest_rank (arr : list Z) (p : Z) :
  arr <> [] ->
  let N := Z.of_nat (length arr) in
  let idx := Z.to_nat (Z.max 0 (Qceiling (Qmake (N * p) 100) - 1)) in
  EpicMetricsService.percentile arr p = arr !! idx /\
  ForecastService.percentile arr p = arr !! idx /\
  (p <= 100 -> exists v, arr !! idx = Some v) /\
  EpicMetricsService.percentile [1; 2; 3; 4; 5; 6; 7; 8; 9; 10] 50 = Some 5 /\
  EpicMetricsService.percentile [1; 2; 3; 4; 5; 6; 7; 8; 9; 10] 85 = Some 9 /\
  ForecastService.percentile [1; 2; 3; 4; 5; 6; 7; 8; 9; 10] 50 = Some 5 /\
  ForecastService.percentile [1; 2; 3; 4; 5; 6; 7; 8; 9; 10] 85 = Some 9.
Proof.
  intros Hne N idx. subst N idx. rewrite <- ceil_div100_Qceiling.
  split; [|split; [|split]].
  - unfold EpicMetricsService.percentile.
    destruct arr; [congruence | reflexivity].
  - reflexivity.
  - intros Hp. apply lookup_lt_is_Some, percentile_index_in_range; [|exact Hp].
    destruct arr; [congruence | cbn; lia].
  - repeat split; reflexivity.
Qed.

Lemma percentile_nearest_rank_witness :
  EpicMetricsService.percentile [3; 8; 21] 70 = Some 21 /\
  ForecastService.percentile [3; 8; 21] 70 = Some 21.
Proof.
  destruct (percentile_nearest_rank [3; 8; 21] 70) as (H1 & H2 & _).
  - discriminate.
  - split; [rewrite H1 | rewrite H2]; reflexivity.
Defined.

End PercentileProps.

(** *** The lead-time histogram *)

Section LeadTimeProps.
Import EpicMetricsService Spec.

Lemma epicDetails_counted rt epics :
  map ld_leadTimeDays (epicDetails rt epics)
    = map (fun e => to_Z (leadTimeDays rt e)) (List.filter (counted rt) epics).
Proof.
  unfold epicDetails. induction epics as [|e r IH]; [reflexivity|].
  cbn [List.filter]. unfold counted at 1.
  destruct (isResolved e); cbn [andb]; [|exact IH].
  change (omap (leadDetail rt) (e :: List.filter isResolved r))
    with (match leadDetail rt e with
          | Some y => y :: omap (leadDetail rt) (List.filter isResolved r)
          | None => omap (leadDetail rt) (List.filter isResolved r)
          end).
  unfold leadDetail at 1.
  destruct (geb (leadTimeDays rt e) 0).
  - cbn [map ld_leadTimeDays]. f_equal. exact IH.
  - exact IH.
Qed.

Lemma lead_times_nonneg rt epics :
  Forall (fun d => 0 <= d) (map ld_leadTimeDays (epicDetails rt epics)).
Proof.
  rewrite epicDetails_counted. apply Forall_map, Forall_forall.
  intros e He. apply list_elem_of_In, filter_In in He. destruct He as [_ He].
  unfold counted in He. apply andb_true_iff in He. destruct He as [_ He].
  now apply to_Z_nonneg.
Qed.

Lemma countIn_split (l : list Z) (lo mid : Z) :
  lo <= mid ->
  (countIn l lo mid
   + length (List.filter (fun d => (mid <=? d)%Z) l))%nat
    = length (List.filter (fun d => lo <=? d) l).
Proof.
  intros Hle. unfold countIn. induction l as [|d r IH]; [reflexivity|].
  cbn [List.filter].
  destruct (lo <=? d) eqn:E1, (d <? mid) eqn:E2, (mid <=? d) eqn:E3;
    cbn [andb length]; lia.
Qed.

(** From [start] on, the buckets count the lead times that are at least
    [start], when none exceeds [maxDays]. *)
Lemma histogramFrom_total rt (sorted : list Z) (maxDays start : Z) :
  Forall (fun d => d <= maxDays) sorted ->
  sum_list (map b_count (histogramFrom rt sorted maxDays start))
    = length (List.filter (fun d => start <=? d) sorted).
Proof.
  intros Hmax. funelim (histogramFrom rt sorted maxDays start).
  - cbn [map sum_list b_count]. rewrite H by assumption.
    apply countIn_split. unfold bucketSize. lia.
  - cbn. symmetry. apply length_zero_iff_nil. clear Heq Heqcall.
    induction sorted as [|d r IH]; [reflexivity|].
    inversion Hmax; subst. cbn [List.filter].
    destruct (start <=? d) eqn:E; [apply Z.leb_le in E; lia | now apply IH].
Qed.

(** From [start] on, exactly one bucket holds a lead time between [start]
    and [maxDays], and none holds a smaller one. *)
Lemma histogramFrom_one_bucket rt (sorted : list Z) (maxDays start d : Z) :
  d <= maxDays ->
  length (List.filter (inBucket d) (histogramFrom rt sorted maxDays start))
    = if start <=? d then 1%nat else 0%nat.
Proof.
  intros Hd. funelim (histogramFrom rt sorted maxDays start).
  - cbn [List.filter]. unfold inBucket at 1. cbn [b_start b_end].
    specialize (H d Hd). clear Heq Heqcall. unfold bucketSize in *.
    destruct (start <=? d) eqn:E1, (d <? start + 7) eqn:E2,
      (start + 7 <=? d) eqn:E3; cbn [andb length]; rewrite H; lia.
  - cbn. destruct (start <=? d) eqn:E; [lia | reflexivity].
Qed.

Lemma filter_all {A : Type} (f : A -> bool) (l : list A) :
  Forall (fun x => f x = true) l -> List.filter f l = l.
Proof.
  induction 1 as [|x r Hx _ IH]; cbn; [reflexivity|]. now rewrite Hx, IH.
Qed.

(** The buckets from [start] on: each is 7 days wide, starts a multiple of 7
    days after [start] and not after [maxDays], and counts the lead times
    in its range. *)
Lemma histogramFrom_buckets rt (sorted : list Z) (maxDays start : Z) :
  Forall (fun b => b_end b = b_start b + 7 /\
                   start <= b_start b <= maxDays /\
                   (b_start b - start) mod 7 = 0 /\
                   b_count b = countIn sorted (b_start b) (b_end b))
         (histogramFrom rt sorted maxDays start).
Proof.
  funelim (histogramFrom rt sorted maxDays start); [|constructor].
  clear Heq Heqcall. unfold bucketSize in *. constructor.
  - cbn [b_start b_end b_count]. rewrite Z.sub_diag. repeat split; lia.
  - eapply Forall_impl; [exact H|]. cbn beta.
    intros b (He & Hs & Hm & Hc). repeat split; try assumption; try lia.
    replace (b_start b - start) with (b_start b - (start + 7) + 1 * 7) by lia.
    now rewrite Z.mod_add by lia.
Qed.

Lemma entersReport_counted rt (e : EpicData) :
  entersReport rt e = counted rt e.
Proof. reflexivity. Qed.

Lemma leadDays_leadTimeDays rt (e : EpicData) :
  leadDays rt e = to_Z (leadTimeDays rt e).
Proof. reflexivity. Qed.

Lemma filter_map_length {A B : Type} (f : A -> B) (keep : B -> bool)
    (l : list A) :
  length (List.filter keep (map f l))
    = length (List.filter (fun x => keep (f x)) l).
Proof.
  induction l as [|x r IH]; [reflexivity|]. cbn [map List.filter].
  destruct (keep (f x)); cbn [length]; now rewrite IH.
Qed.

Lemma filter_perm_length {A : Type} (keep : A -> bool) (l l' : list A) :
  Permutation l l' ->
  length (List.filter keep l) = length (List.filter keep l').
Proof.
  induction 1 as [|x l l' _ IH|x y l|l l' l'' _ IH1 _ IH2]; cbn [List.filter].
  - reflexivity.
  - destruct (keep x); cbn [length]; now rewrite IH.
  - destruct (keep x), (keep y); reflexivity.
  - now rewrite IH1.
Qed.

(** C8: the counts of the 7-day buckets add up to the number of epics that
    are resolved (status category [done], with a resolution and a creation
    date) and have a non-negative rounded lead time; each of those lead
    times lies in exactly one bucket.  Every bucket is 7 days wide, starts
    at a multiple of 7 from 0 that does not exceed the lead time of some
    such epic, and counts the epics whose lead time lies in it. *)
Theorem lead_time_histogram_total rt epics :
  let report := calculateEpicLeadCycleTime rt epics in
  let kept := List.filter (entersReport rt) epics in
  sum_list (map b_count (histogram report)) = length kept /\
  (forall e, In e kept ->
     length (List.filter (inBucket (leadDays rt e)) (histogram report))
       = 1%nat) /\
  Forall (fun b =>
            b_end b = b_start b + 7 /\
            0 <= b_start b /\ b_start b mod 7 = 0 /\
            (exists e, In e kept /\ b_start b <= leadDays rt e) /\
            b_count b
              = length (List.filter (fun e => inBucket (leadDays rt e) b)
                                    kept))
         (histogram report).
Proof.
  intros report kept. subst report kept.
  unfold calculateEpicLeadCycleTime. cbn [histogram].
  set (leadTimes := map ld_leadTimeDays (epicDetails rt epics)).
  assert (Hlt : leadTimes = map (leadDays rt)
                                (List.filter (entersReport rt) epics)).
  { subst leadTimes. rewrite epicDetails_counted. reflexivity. }
  assert (Hlen : length leadTimes
                 = length (List.filter (entersReport rt) epics)).
  { now rewrite Hlt, length_map. }
  assert (Hnn : Forall (fun d => 0 <= d) (sort ascending leadTimes)).
  { rewrite (sort_perm ascending leadTimes). apply lead_times_nonneg. }
  destruct (last (sort ascending leadTimes)) as [maxDays|] eqn:Elast.
  - pose proof (sorted_last_max _ _ (sort_sorted leadTimes) Elast) as Hmax.
    assert (Hmaxin : In maxDays leadTimes).
    { apply list_elem_of_In. rewrite <- (sort_perm ascending leadTimes).
      rewrite last_lookup in Elast. eapply list_elem_of_lookup_2.
      exact Elast. }
    split; [|split].
    + rewrite histogramFrom_total by assumption.
      rewrite filter_all.
      * now rewrite sort_length.
      * eapply Forall_impl; [exact Hnn|]. cbn. intros d Hd.
        now apply Z.leb_le.
    + intros e He. rewrite histogramFrom_one_bucket.
      * assert (H0 : 0 <= leadDays rt e).
        { apply filter_In in He. destruct He as [_ He].
          unfold entersReport in He.
          apply andb_true_iff in He. destruct He as [_ He].
          now apply to_Z_nonneg. }
        apply Z.leb_le in H0. now rewrite H0.
      * rewrite Forall_forall in Hmax. apply Hmax.
        rewrite (sort_perm ascending leadTimes), Hlt.
        apply list_elem_of_In, in_map_iff.
        exists e. split; [reflexivity | assumption].
    + eapply Forall_impl;
        [apply (histogramFrom_buckets rt (sort ascending leadTimes) maxDays 0)|].
      cbn beta. intros b (He & Hs & Hm & Hc).
      rewrite Z.sub_0_r in Hm. repeat split; try assumption; try lia.
      * rewrite Hlt in Hmaxin. apply in_map_iff in Hmaxin.
        destruct Hmaxin as (e & Hd & Hin). exists e.
        split; [exact Hin | lia].
      * rewrite Hc. unfold countIn.
        rewrite (filter_perm_length _ _ _ (sort_perm ascending leadTimes)).
        rewrite Hlt, filter_map_length. reflexivity.
  - apply last_None in Elast.
    assert (Hnil : leadTimes = []).
    { apply length_zero_iff_nil. rewrite <- (sort_length ascending), Elast.
      reflexivity. }
    split; [|split].
    + cbn. rewrite <- Hlen, Hnil. reflexivity.
    + intros e He. exfalso.
      rewrite Hnil in Hlen. cbn in Hlen. symmetry in Hlen.
      apply length_zero_iff_nil in Hlen. rewrite Hlen in He. destruct He.
    + constructor.
Qed.

Lemma lead_time_histogram_total_witness :
  let report :=
    calculateEpicLeadCycleTime Samples.runtime Samples.resolvedEpics in
  let kept := List.filter (entersReport Samples.runtime)
                          Samples.resolvedEpics in
  sum_list (map b_count (histogram report)) = length kept /\
  (forall e, In e kept ->
     length (List.filter (inBucket (leadDays Samples.runtime e))
                         (histogram report)) = 1%nat) /\
  Forall (fun b =>
            b_end b = b_start b + 7 /\
            0 <= b_start b /\ b_start b mod 7 = 0 /\
            (exists e, In e kept /\ b_start b <= leadDays Samples.runtime e) /\
            b_count b
              = length (List.filter
                          (fun e => inBucket (leadDays Samples.runtime e) b)
                          kept))
         (histogram report).
Proof.
  apply (lead_time_histogram_total Samples.runtime Samples.resolvedEpics).
Defined.

End LeadTimeProps.

(** *** Insertion-ordered maps *)

Section OMapProps.
Context {V : Type}.

Lemma omap_get_set (k k' : string) (v : V) (m : OMap.t V) :
  OMap.get k' (OMap.set k v m)
    = if String.eqb k k' then Some v else OMap.get k' m.
Proof.
  induction m as [|[k0 v0] r IH]; cbn; [reflexivity|].
  destruct (String.eqb k0 k) eqn:E0; cbn.
  - apply String.eqb_eq in E0. subst k0.
    destruct (String.eqb k k'); reflexivity.
  - rewrite IH. destruct (String.eqb k0 k') eqn:E1; [|reflexivity].
    apply String.eqb_eq in E1. subst k'.
    rewrite String.eqb_sym, E0. reflexivity.
Qed.

(** Writing a key that is present trades the old value for the new one. *)
Lemma omap_set_present_sum (f : V -> nat) (k : string) (v b : V) (m : OMap.t V) :
  OMap.get k m = Some b ->
  (sum_list (map f (OMap.values (OMap.set k v m))) + f b
   = sum_list (map f (OMap.values m)) + f v)%nat.
Proof.
  induction m as [|[k0 v0] r IH]; cbn; [discriminate|].
  destruct (String.eqb k0 k); cbn.
  - intros [= ->]. lia.
  - intros H. specialize (IH H). unfold OMap.values in IH. lia.
Qed.

(** Writing a key that is absent adds the new value. *)
Lemma omap_set_absent_sum (f : V -> nat) (k : string) (v : V) (m : OMap.t V) :
  OMap.get k m = None ->
  (sum_list (map f (OMap.values (OMap.set k v m)))
   = sum_list (map f (OMap.values m)) + f v)%nat.
Proof.
  induction m as [|[k0 v0] r IH]; cbn; [lia|].
  destruct (String.eqb k0 k); cbn; [discriminate|].
  intros H. specialize (IH H). unfold OMap.values in IH. lia.
Qed.



End OMapProps.

(** *** Roll-up by initiative *)

Section AggregateProps.
Import EpicMetricsService Spec.










End AggregateProps.

(** *** Work in progress *)

Section WipProps.
Import EpicMetricsService.

Lemma increment_sum (k : string) (obj : OMap.t nat) :
  sum_list (OMap.values (increment k obj)) = S (sum_list (OMap.values obj)).
Proof.
  unfold increment. destruct (OMap.get k obj) as [c|] eqn:E.
  - pose proof (omap_set_present_sum (fun x => x) k
                  ((if (c =? 0)%nat then 0 else c) + 1)%nat c obj E) as H.
    rewrite !map_id in H. cbv beta in H.
    destruct (c =? 0)%nat eqn:E0; [apply Nat.eqb_eq in E0|]; lia.
  - pose proof (omap_set_absent_sum (fun x => x) k (0 + 1)%nat obj E) as H.
    rewrite !map_id in H. cbv beta in H. lia.
Qed.

(** C10: an epic in progress whose assignee is called [__proto__] is
    counted in [totalWIP], in [wipAge] and by initiative, but not by
    assignee: [wipByAssignee] comes back empty, and its counts add up to 0
    where [totalWIP] is 1. *)
Theorem wip_proto_assignee_uncounted :
  let report :=
    calculateWIPMetrics Samples.runtime [Samples.protoEpic] None in
  totalWIP report = 1%nat /\
  length (wipAge report) = 1%nat /\
  wipByInitiative report
    = [ {| nc_name := "Unlinked"; nc_count := Counter.Count 1 |} ] /\
  wipByAssignee report = [] /\
  sum_list (omap (fun entry => Spec.countOf (nc_count entry))
                 (wipByAssignee report)) <> totalWIP report.
Proof. vm_compute. repeat split; discriminate. Qed.

(** Under [constructor] the count is spoiled from the first epic on, and
    array indices come first among the names. *)
Example wip_inherited_names_example :
  wipByAssignee (calculateWIPMetrics Samples.runtime
                   [Samples.constructorEpic; Samples.constructorEpic] None)
    = [ {| nc_name := "constructor";
           nc_count := Counter.Spoiled "constructor" 2 |} ] /\
  wipByAssignee (calculateWIPMetrics Samples.runtime Samples.numberedEpics None)
    = [ {| nc_name := "7"; nc_count := Counter.Count 1 |};
        {| nc_name := "10"; nc_count := Counter.Count 1 |};
        {| nc_name := "bo"; nc_count := Counter.Count 1 |} ] /\
  map arrayIndex ["0"; "7"; "10"; "07"; "4294967294"; "4294967295"; "1e3"; ""]
    = [Some 0%N; Some 7%N; Some 10%N; None; Some 4294967294%N; None; None;
       None].
Proof. vm_compute. repeat split. Qed.

End WipProps.

(** ** Further properties *)

Ltac in_list :=
  cbn [In Spec.verdicts]; repeat (first [left; reflexivity | right]).

(** *** Progress of an epic *)

Section ProgressProps.
Import EpicMetricsService Spec.

Lemma category_not_both (c : Issue) :
  String.eqb (childCategory c) "done" = true ->
  String.eqb (childCategory c) "indeterminate" = false.
Proof.
  intros H. apply String.eqb_eq in H. rewrite H. reflexivity.
Qed.

Lemma progress_step_counts (children : list Issue) :
  forall d i t tp cp,
    let '(d', i', t', _, _) :=
      fold_left progress_step children (d, i, t, tp, cp) in
    d' = (d + length (childrenIn "done" children))%nat /\
    i' = (i + length (childrenIn "indeterminate" children))%nat /\
    t' = (t + length (childrenToDo children))%nat.
Proof.
  induction children as [|c r IH]; intros d i t tp cp; cbn [fold_left].
  - cbn. repeat split; lia.
  - unfold progress_step at 2. fold (childCategory c).
    unfold childrenIn, childrenToDo in *. cbn [List.filter].
    destruct (String.eqb (childCategory c) "done") eqn:Ed.
    + rewrite (category_not_both c Ed).
      specialize (IH (S d) i t (tp + or_num (issue_points c) 0)%float
                     (cp + or_num (issue_points c) 0)%float).
      destruct (fold_left progress_step r _) as [[[[d' i'] t'] tp'] cp'].
      cbn [negb andb length]. lia.
    + destruct (String.eqb (childCategory c) "indeterminate") eqn:Ei.
      * specialize (IH d (S i) t (tp + or_num (issue_points c) 0)%float cp).
        destruct (fold_left progress_step r _) as [[[[d' i'] t'] tp'] cp'].
        cbn [negb andb length]. lia.
      * specialize (IH d i (S t) (tp + or_num (issue_points c) 0)%float cp).
        destruct (fold_left progress_step r _) as [[[[d' i'] t'] tp'] cp'].
        cbn [negb andb length]. lia.
Qed.

Lemma progress_total (children : list Issue) :
  total (calculateEpicProgress children) = length children.
Proof.
  unfold calculateEpicProgress. destruct children as [|c r]; [reflexivity|].
  destruct (fold_left progress_step (c :: r) _) as [[[[d i] t] tp] cp].
  reflexivity.
Qed.

Lemma categories_partition (children : list Issue) :
  (length (childrenIn "done" children)
   + length (childrenIn "indeterminate" children)
   + length (childrenToDo children))%nat = length children.
Proof.
  unfold childrenIn, childrenToDo.
  induction children as [|x l IH]; [reflexivity|]. cbn [List.filter length].
  destruct (String.eqb (childCategory x) "done") eqn:Ed.
  - rewrite (category_not_both x Ed). cbn [negb andb length]. lia.
  - destruct (String.eqb (childCategory x) "indeterminate");
      cbn [negb andb length]; lia.
Qed.

(** X1: the three counts of [calculateEpicProgress] are the numbers of
    children whose status category is [done], is [indeterminate], and is
    anything else (a missing category counts as [new]); together they make
    up [total], the number of children. *)
Theorem progress_counts_partition (children : list Issue) :
  let p := calculateEpicProgress children in
  total p = length children /\
  done p = length (childrenIn "done" children) /\
  inProgress p = length (childrenIn "indeterminate" children) /\
  todo p = length (childrenToDo children) /\
  (done p + inProgress p + todo p = total p)%nat.
Proof.
  intros p. subst p.
  pose proof (categories_partition children) as Hpart.
  unfold calculateEpicProgress.
  destruct children as [|c r]; [cbn; repeat split|].
  pose proof (progress_step_counts (c :: r) 0 0 0 0%float 0%float) as H.
  destruct (fold_left progress_step (c :: r) _) as [[[[d i] t] tp] cp].
  destruct H as (Hd & Hi & Ht). cbn [total done inProgress todo].
  repeat split; try assumption. lia.
Qed.

End ProgressProps.

(** *** The verdicts of the health evaluator *)

Section VerdictProps.
Import EpicMetricsService Spec.

Lemma blockers_length (deps : option Dependencies) :
  (0 <? length (unresolvedBlockers deps))%nat = false <->
  unresolvedBlockers deps = [].
Proof.
  destruct (unresolvedBlockers deps); cbn; split; intros H;
    (reflexivity || discriminate).
Qed.

(** X2: the evaluator answers one of the five verdicts; it answers [done]
    exactly for an epic whose own status category is [done], and [blocked]
    exactly for an epic that is not done and has an unresolved blocker. *)
Theorem health_verdict_cases rt epic children deps :
  let h := health (calculateEpicHealth rt epic children deps) in
  In h verdicts /\
  (h = "done" <-> raw_statusCategory epic = Some "done") /\
  (h = "blocked" <->
     raw_statusCategory epic <> Some "done" /\ unresolvedBlockers deps <> []).
Proof.
  intros h. subst h. unfold calculateEpicHealth.
  destruct (bool_decide (raw_statusCategory epic = Some "done")) eqn:Ed.
  - apply bool_decide_eq_true in Ed. cbn [health].
    split; [in_list|]. split; split; auto; try discriminate.
    intros [H _]. contradiction.
  - apply bool_decide_eq_false in Ed.
    destruct (0 <? length (unresolvedBlockers deps))%nat eqn:Eb.
    + assert (Hb : unresolvedBlockers deps <> []).
      { intros H. rewrite H in Eb. discriminate. }
      cbn [health]. split; [in_list|]. split; split; auto; try discriminate.
      intros H. contradiction.
    + apply blockers_length in Eb.
      repeat match goal with
             | |- context [if ?c then _ else _] => destruct c
             end; cbn [health];
        (split; [in_list|]);
        (split; split; try discriminate;
         [intros H; contradiction | intros [_ H]; contradiction]).
Qed.

(** X3: the verdict is [no-data] exactly when the epic is not done, has no
    unresolved blocker, no due date and no children; and without a due date
    the verdict is never [at-risk], whatever the progress. *)
Theorem health_no_data_and_at_risk rt epic children deps :
  let h := health (calculateEpicHealth rt epic children deps) in
  (h = "no-data" <->
     raw_statusCategory epic <> Some "done" /\
     unresolvedBlockers deps = [] /\
     truthy_str (raw_duedate epic) = false /\
     children = []) /\
  (truthy_str (raw_duedate epic) = false -> h <> "at-risk").
Proof.
  intros h. subst h. unfold calculateEpicHealth.
  destruct (bool_decide (raw_statusCategory epic = Some "done")) eqn:Ed.
  - apply bool_decide_eq_true in Ed. cbn. split; [|discriminate].
    split; [discriminate | intros [H _]; contradiction].
  - apply bool_decide_eq_false in Ed.
    destruct (0 <? length (unresolvedBlockers deps))%nat eqn:Eb.
    + cbn. split; [|discriminate]. split; [discriminate|].
      intros (_ & H & _). rewrite H in Eb. discriminate.
    + apply blockers_length in Eb.
      destruct (truthy_str (raw_duedate epic)) eqn:Edue; cbn [negb].
      * split; [|discriminate].
        split; [|intros (_ & _ & H & _); discriminate].
        repeat match goal with
               | |- context [if ?c then _ else _] => destruct c
               end; cbn; discriminate.
      * rewrite progress_total.
        destruct children as [|c r]; cbn [length Nat.eqb].
        -- cbn. split; [tauto | discriminate].
        -- split.
           ++ split; [|intros (_ & _ & _ & H); discriminate].
              repeat match goal with
                     | |- context [if ?c then _ else _] => destruct c
                     end; cbn; discriminate.
           ++ intros _.
              repeat match goal with
                     | |- context [if ?c then _ else _] => destruct c
                     end; cbn; discriminate.
Qed.

End VerdictProps.

(** *** Keys of an insertion-ordered map *)

Section OMapKeyProps.
Context {V : Type}.

Lemma omap_get_None (k : string) (m : OMap.t V) :
  OMap.get k m = None <-> ~ In k (OMap.keys m).
Proof.
  induction m as [|[k0 v0] r IH]; cbn; [tauto|].
  destruct (String.eqb k0 k) eqn:E.
  - apply String.eqb_eq in E. split; [discriminate | tauto].
  - apply String.eqb_neq in E. rewrite IH. tauto.
Qed.

Lemma omap_get_In (k : string) (v : V) (m : OMap.t V) :
  OMap.get k m = Some v -> In (k, v) m.
Proof.
  induction m as [|[k0 v0] r IH]; cbn; [discriminate|].
  destruct (String.eqb k0 k) eqn:E.
  - apply String.eqb_eq in E. intros [= <-]. left. now subst.
  - intros H. right. now apply IH.
Qed.

Lemma omap_In_get (k : string) (v : V) (m : OMap.t V) :
  NoDup (OMap.keys m) -> In (k, v) m -> OMap.get k m = Some v.
Proof.
  induction m as [|[k0 v0] r IH]; cbn; [tauto|].
  intros Hnd. apply NoDup_cons in Hnd. destruct Hnd as [Hk0 Hnd].
  intros [[= -> ->] | Hin].
  - now rewrite String.eqb_refl.
  - destruct (String.eqb k0 k) eqn:E; [|now apply IH].
    apply String.eqb_eq in E. subst k0. exfalso. apply Hk0.
    apply list_elem_of_In. apply (in_map fst) in Hin. exact Hin.
Qed.

Lemma omap_keys_set (k : string) (v : V) (m : OMap.t V) :
  OMap.keys (OMap.set k v m)
    = if existsb (String.eqb k) (OMap.keys m)
      then OMap.keys m else OMap.keys m ++ [k].
Proof.
  induction m as [|[k0 v0] r IH]; cbn; [reflexivity|].
  rewrite (String.eqb_sym k k0).
  destruct (String.eqb k0 k) eqn:E; cbn.
  - apply String.eqb_eq in E. now subst.
  - unfold OMap.keys in IH. rewrite IH.
    destruct (existsb (String.eqb k) (map fst r)); reflexivity.
Qed.

Lemma omap_keys_set_NoDup (k : string) (v : V) (m : OMap.t V) :
  NoDup (OMap.keys m) -> NoDup (OMap.keys (OMap.set k v m)).
Proof.
  intros Hnd. rewrite omap_keys_set.
  destruct (existsb (String.eqb k) (OMap.keys m)) eqn:E; [exact Hnd|].
  apply NoDup_app. split; [exact Hnd|]. split; [|apply NoDup_singleton].
  intros x Hx Hk. apply list_elem_of_In in Hk. destruct Hk as [<- | []].
  apply list_elem_of_In in Hx.
  assert (existsb (String.eqb k) (OMap.keys m) = true).
  { apply existsb_exists. exists k. split; [exact Hx | apply String.eqb_refl]. }
  congruence.
Qed.

(** On a map without repeated keys, [set] on a present key rewrites that one
    entry and leaves the order alone. *)
Lemma omap_set_map (k : string) (v : V) (m : OMap.t V) :
  NoDup (OMap.keys m) -> In k (OMap.keys m) ->
  OMap.set k v m
    = map (fun p => if String.eqb (fst p) k then (k, v) else p) m.
Proof.
  induction m as [|[k0 v0] r IH]; cbn; [tauto|].
  intros Hnd. apply NoDup_cons in Hnd. destruct Hnd as [Hk0 Hnd].
  destruct (String.eqb k0 k) eqn:E.
  - intros _. apply String.eqb_eq in E. subst k0. f_equal.
    symmetry. rewrite <- (map_id r) at 2. apply map_ext_in.
    intros [k1 v1] Hin. cbn.
    destruct (String.eqb k1 k) eqn:E1; [|reflexivity].
    apply String.eqb_eq in E1. subst k1. exfalso. apply Hk0.
    apply list_elem_of_In. apply (in_map fst) in Hin. exact Hin.
  - intros [-> | Hin]; [rewrite String.eqb_refl in E; discriminate|].
    f_equal. now apply IH.
Qed.

End OMapKeyProps.

(** *** Grouping by initiative *)

Section GroupingProps.
Import EpicMetricsService Spec.

Lemma seedBuckets_entries initiatives :
  NoDup (OMap.keys (seedBuckets initiatives)) /\
  Forall seeded (seedBuckets initiatives) /\
  (forall k, In k (OMap.keys (seedBuckets initiatives)) <->
             In k (map init_key initiatives) \/ k = unlinkedKey).
Proof.
  unfold seedBuckets.
  assert (H : forall m : OMap.t Initiative,
             NoDup (OMap.keys m) -> Forall seeded m ->
             let m' := fold_left
                         (fun m init => OMap.set (init_key init) (newBucket init) m)
                         initiatives m in
             NoDup (OMap.keys m') /\ Forall seeded m' /\
             (forall k, In k (OMap.keys m') <->
                        In k (map init_key initiatives) \/ In k (OMap.keys m))).
  { induction initiatives as [|i r IH]; intros m Hnd Hs; cbn [fold_left map].
    - cbn. repeat split; try assumption; tauto.
    - destruct (IH (OMap.set (init_key i) (newBucket i) m))
        as (H1 & H2 & H3).
      + now apply omap_keys_set_NoDup.
      + apply Forall_forall. intros [k b] Hin. apply list_elem_of_In in Hin.
        pose proof (omap_In_get k b _ (omap_keys_set_NoDup (init_key i)
                      (newBucket i) m Hnd) Hin) as Hget.
        rewrite omap_get_set in Hget.
        destruct (String.eqb (init_key i) k) eqn:E.
        * apply String.eqb_eq in E. injection Hget as <-.
          repeat split; cbn; auto.
        * apply omap_get_In in Hget. rewrite Forall_forall in Hs.
          apply Hs. now apply list_elem_of_In.
      + repeat split; try assumption.
        * intros Hk. apply H3 in Hk. destruct Hk as [Hk | Hk]; [cbn; tauto|].
          rewrite omap_keys_set in Hk.
          destruct (existsb _ _); [tauto|].
          apply in_app_iff in Hk. cbn in *. tauto.
        * intros Hk. apply H3. cbn in Hk. rewrite omap_keys_set.
          destruct (existsb (String.eqb (init_key i)) (OMap.keys m)) eqn:E.
          -- destruct Hk as [[<- | Hk] | Hk]; try tauto.
             apply existsb_exists in E. destruct E as (x & Hx & Ex).
             apply String.eqb_eq in Ex. subst x. tauto.
          -- rewrite in_app_iff. cbn. tauto. }
  destruct (H OMap.empty) as (H1 & H2 & H3); [constructor | constructor |].
  cbn zeta in *. split; [|split].
  - now apply omap_keys_set_NoDup.
  - apply Forall_forall. intros [k b] Hin. apply list_elem_of_In in Hin.
    pose proof (omap_In_get k b _ (omap_keys_set_NoDup unlinkedKey
                  unlinkedBucket _ H1) Hin) as Hget.
    rewrite omap_get_set in Hget.
    destruct (String.eqb unlinkedKey k) eqn:E.
    + apply String.eqb_eq in E. injection Hget as <-.
      repeat split; cbn; auto.
    + apply omap_get_In in Hget. rewrite Forall_forall in H2.
      apply H2. now apply list_elem_of_In.
  - intros k. rewrite omap_keys_set.
    destruct (existsb (String.eqb unlinkedKey) _) eqn:E.
    + rewrite H3. cbn. split; [tauto|]. intros [Hk | ->]; [tauto|].
      apply existsb_exists in E. destruct E as (x & Hx & Ex).
      apply String.eqb_eq in Ex. subst x. apply H3 in Hx. cbn in Hx. tauto.
    + rewrite in_app_iff, H3. cbn. intuition.
Qed.

(** What a bucket holds after the epics of [l] were added to it. *)
Lemma addEpic_fold (l : list EpicData) :
  forall b : Initiative,
    let b' := fold_left addEpic l b in
    i_key b' = i_key b /\
    i_statusCategory b' = i_statusCategory b /\
    i_epics b' = i_epics b ++ map epicSummary l /\
    i_totalEpics b' = (i_totalEpics b + length l)%nat /\
    i_completedEpics b'
      = (i_completedEpics b + length (List.filter isDoneEpic l))%nat.
Proof.
  induction l as [|e r IH]; intros b; cbn [fold_left].
  - cbn. rewrite app_nil_r. repeat split; lia.
  - destruct (IH (addEpic b e)) as (H1 & H2 & H3 & H4 & H5). cbn zeta.
    rewrite H1, H2, H3, H4, H5. cbn [addEpic i_key i_statusCategory i_epics
      i_totalEpics i_completedEpics map List.filter length].
    unfold isDoneEpic at 2. fold (epicSummary e).
    rewrite <- app_assoc. cbn [app].
    destruct (String.eqb (e_statusCategory e) "done"); cbn [length];
      repeat split; lia.
Qed.

(** The second loop, as one pass over the map. *)
Lemma assignEpics_map initiatives (epics : list EpicData) :
  forall m : OMap.t Initiative,
    NoDup (OMap.keys m) ->
    (forall k, In k (OMap.keys m) <->
               In k (map init_key initiatives) \/ k = unlinkedKey) ->
    assignEpics m epics
      = Some (map (fun p => (fst p,
                             fold_left addEpic (routed initiatives (fst p) epics)
                                       (snd p))) m).
Proof.
  induction epics as [|e r IH]; intros m Hnd Hkeys; cbn [assignEpics].
  - f_equal. rewrite <- (map_id m) at 1. apply map_ext. now intros [k b].
  - set (k := bucketKey initiatives e).
    assert (Hk : In k (OMap.keys m)).
    { apply Hkeys. subst k. unfold bucketKey.
      destruct (existsb _ _) eqn:E; [|now right].
      left. apply existsb_exists in E. destruct E as (x & Hx & Ex).
      apply String.eqb_eq in Ex. now subst x. }
    assert (Hstep : exists b, OMap.get k m = Some b /\
                      assignEpic m e = Some (OMap.set k (addEpic b e) m)).
    { unfold assignEpic. subst k. unfold bucketKey in *.
      destruct (existsb _ _) eqn:E.
      - destruct (OMap.get _ m) as [b|] eqn:G; [eauto|].
        apply omap_get_None in G. contradiction.
      - destruct (OMap.get (or_strfield (e_parentKey e) unlinkedKey) m)
          as [b|] eqn:G.
        + assert (Hin : In (or_strfield (e_parentKey e) unlinkedKey)
                           (OMap.keys m)).
          { apply omap_get_In in G. apply (in_map fst) in G. exact G. }
          apply Hkeys in Hin. destruct Hin as [Hin | Heq].
          * assert (existsb (String.eqb (or_strfield (e_parentKey e) unlinkedKey))
                            (map init_key initiatives) = true).
            { apply existsb_exists. eexists. split; [exact Hin|].
              apply String.eqb_refl. }
            congruence.
          * rewrite Heq in *. eauto.
        + destruct (OMap.get unlinkedKey m) as [b|] eqn:G'; [eauto|].
          apply omap_get_None in G'. contradiction. }
    destruct Hstep as (b & Hget & ->).
    rewrite IH.
    + f_equal. rewrite (omap_set_map k (addEpic b e) m Hnd Hk), map_map.
      apply map_ext_in. intros [k0 b0] Hin. cbn [fst snd].
      unfold routed at 2. cbn [List.filter]. fold k.
      rewrite (String.eqb_sym k k0).
      destruct (String.eqb k0 k) eqn:E; cbn [fst snd fold_left].
      * apply String.eqb_eq in E. subst k0.
        pose proof (omap_In_get _ _ _ Hnd Hin) as G. rewrite Hget in G.
        injection G as ->. reflexivity.
      * reflexivity.
    + now apply omap_keys_set_NoDup.
    + intros k'. rewrite omap_keys_set.
      assert (existsb (String.eqb k) (OMap.keys m) = true) as ->.
      { apply existsb_exists. exists k. split; [exact Hk | apply String.eqb_refl]. }
      apply Hkeys.
Qed.

(** The buckets of the roll-up, each described by its seed. *)
Lemma aggregateBuckets_map initiatives epics :
  aggregateBuckets initiatives epics
    = Some (map (fun p => deriveHealth
                            (fold_left addEpic
                               (routed initiatives (fst p) epics) (snd p)))
                (seedBuckets initiatives)).
Proof.
  destruct (seedBuckets_entries initiatives) as (Hnd & _ & Hkeys).
  unfold aggregateBuckets.
  rewrite (assignEpics_map initiatives epics _ Hnd Hkeys).
  unfold OMap.values. now rewrite !map_map.
Qed.

Lemma aggregateBuckets_bucket initiatives epics (b : Initiative) :
  In b (map (fun p => deriveHealth
                        (fold_left addEpic
                           (routed initiatives (fst p) epics) (snd p)))
            (seedBuckets initiatives)) ->
  i_epics b = map epicSummary (routed initiatives (i_key b) epics) /\
  i_totalEpics b = length (routed initiatives (i_key b) epics) /\
  i_completedEpics b
    = length (List.filter isDoneEpic (routed initiatives (i_key b) epics)).
Proof.
  intros Hin. apply in_map_iff in Hin. destruct Hin as ([k b0] & <- & Hin).
  destruct (seedBuckets_entries initiatives) as (_ & Hseed & _).
  rewrite Forall_forall in Hseed. apply list_elem_of_In in Hin.
  destruct (Hseed _ Hin) as (Hk & He & Ht & Hc). cbn [fst snd] in *.
  destruct (addEpic_fold (routed initiatives k epics) b0)
    as (H1 & _ & H3 & H4 & H5).
  cbn [deriveHealth i_key i_epics i_totalEpics i_completedEpics].
  rewrite H1, H3, H4, H5, Hk, He, Ht, Hc. cbn. auto.
Qed.


Lemma aggregateBuckets_keys initiatives epics :
  map i_key (map (fun p => deriveHealth
                             (fold_left addEpic
                                (routed initiatives (fst p) epics) (snd p)))
                 (seedBuckets initiatives))
    = OMap.keys (seedBuckets initiatives).
Proof.
  destruct (seedBuckets_entries initiatives) as (_ & Hseed & _).
  rewrite map_map. unfold OMap.keys. apply map_ext_in.
  intros [k b0] Hin. rewrite Forall_forall in Hseed.
  apply list_elem_of_In in Hin. destruct (Hseed _ Hin) as (Hk & _).
  cbn [fst snd deriveHealth i_key] in *.
  destruct (addEpic_fold (routed initiatives k epics) b0) as (H1 & _).
  now rewrite H1.
Qed.

Lemma NoDup_filter_map {A B : Type} (f : A -> B) (keep : A -> bool)
    (l : list A) :
  NoDup (map f l) -> NoDup (map f (List.filter keep l)).
Proof.
  induction l as [|x r IH]; cbn; [auto|].
  intros Hnd. apply NoDup_cons in Hnd. destruct Hnd as [Hx Hnd].
  destruct (keep x); cbn; [|auto].
  apply NoDup_cons. split; [|auto].
  intros Hin. apply Hx. apply list_elem_of_In in Hin. apply list_elem_of_In.
  apply in_map_iff in Hin. destruct Hin as (y & <- & Hy).
  apply filter_In in Hy. apply in_map. tauto.
Qed.

(** X5: the initiatives the roll-up returns have pairwise distinct keys, even
    when the input repeats a key; every input initiative whose key is not
    the reserved [_unlinked] is among them, with or without epics. *)
Theorem aggregate_keys initiatives epics :
  exists result,
    aggregateByInitiative initiatives epics = Some result /\
    NoDup (map i_key result) /\
    (forall init, In init initiatives -> init_key init <> unlinkedKey ->
                  In (init_key init) (map i_key result)).
Proof.
  unfold aggregateByInitiative. rewrite aggregateBuckets_map.
  eexists. split; [reflexivity|].
  destruct (seedBuckets_entries initiatives) as (Hnd & _ & Hkeys).
  split.
  - apply NoDup_filter_map. rewrite aggregateBuckets_keys. exact Hnd.
  - intros init Hin Hne.
    assert (Hk : In (init_key init) (OMap.keys (seedBuckets initiatives))).
    { apply Hkeys. left. now apply in_map. }
    rewrite <- (aggregateBuckets_keys initiatives epics) in Hk.
    apply in_map_iff in Hk. destruct Hk as (b & Hb & Hbin).
    apply in_map_iff. exists b. split; [exact Hb|].
    apply filter_In. split; [exact Hbin|].
    unfold keepBucket. rewrite Hb.
    apply String.eqb_neq in Hne. now rewrite Hne.
Qed.


End GroupingProps.

(** *** Health of an initiative *)

Section InitiativeHealthProps.
Import EpicMetricsService Spec.

Lemma countHealth_pos (h : string) (l : list EpicSummary) :
  (0 <? countHealth h l)%nat = true <-> exists s, In s l /\ s_health s = h.
Proof.
  unfold countHealth. rewrite Nat.ltb_lt. split.
  - intros H. destruct (List.filter _ l) as [|s r] eqn:E; [cbn in H; lia|].
    assert (Hs : In s (List.filter (fun e => String.eqb (s_health e) h) l))
      by (rewrite E; now left).
    apply filter_In in Hs. destruct Hs as [Hs Hh].
    apply String.eqb_eq in Hh. eauto.
  - intros (s & Hs & Hh).
    assert (Hin : In s (List.filter (fun e => String.eqb (s_health e) h) l)).
    { apply filter_In. split; [exact Hs|]. now apply String.eqb_eq. }
    destruct (List.filter _ l); [destruct Hin | cbn; lia].
Qed.

(** X6: every initiative the roll-up returns carries a health verdict, one of
    the five; it is [no-data] exactly when the initiative has no epic,
    [blocked] only if one of its epics is blocked, [at-risk] only if one is
    at risk and none is blocked, and [on-track] only if none is blocked or
    at risk. *)
Theorem aggregate_health initiatives epics :
  exists result,
    aggregateByInitiative initiatives epics = Some result /\
    forall b, In b result ->
      exists h,
        i_health b = Some h /\ In h verdicts /\
        (h = "no-data" <-> i_epics b = []) /\
        (h = "blocked" -> exists s, In s (i_epics b) /\ s_health s = "blocked") /\
        (h = "at-risk" ->
           (exists s, In s (i_epics b) /\ s_health s = "at-risk") /\
           forall s, In s (i_epics b) -> s_health s <> "blocked") /\
        (h = "on-track" ->
           forall s, In s (i_epics b) ->
             s_health s <> "blocked" /\ s_health s <> "at-risk").
Proof.
  unfold aggregateByInitiative. rewrite aggregateBuckets_map.
  eexists. split; [reflexivity|].
  intros b Hb. apply filter_In in Hb. destruct Hb as [Hb _].
  destruct (aggregateBuckets_bucket _ _ _ Hb) as (He & Ht & _).
  apply in_map_iff in Hb. destruct Hb as ([k b0] & Hbeq & _).
  cbn [fst snd] in Hbeq.
  set (b1 := fold_left addEpic (routed initiatives k epics) b0) in *.
  assert (Hlen : i_totalEpics b1 = length (i_epics b1)).
  { subst b. cbn [deriveHealth i_totalEpics i_epics i_key] in He, Ht.
    rewrite Ht, He. now rewrite length_map. }
  subst b. cbn [deriveHealth i_health i_epics]. rewrite Hlen.
  eexists. split; [reflexivity|].
  destruct (i_epics b1) as [|s0 r] eqn:Eep; cbn [length Nat.eqb].
  - split; [in_list|]. split; [tauto|].
    repeat split; try discriminate; intros ? [].
  - destruct (String.eqb (i_statusCategory b1) "done"
              || (i_completedEpics b1 =? S (length r))%nat).
    + split; [in_list|]. split; [split; discriminate|].
      repeat split; discriminate.
    + destruct (0 <? countHealth "blocked" (s0 :: r))%nat eqn:Eb.
      * split; [in_list|]. split; [split; discriminate|].
        split; [intros _; now apply countHealth_pos|].
        split; discriminate.
      * assert (Hnb : forall s, In s (s0 :: r) -> s_health s <> "blocked").
        { intros s Hs Hh.
          assert ((0 <? countHealth "blocked" (s0 :: r))%nat = true)
            by (apply countHealth_pos; eauto).
          congruence. }
        destruct (0 <? countHealth "at-risk" (s0 :: r))%nat eqn:Ea.
        -- split; [in_list|]. split; [split; discriminate|].
           split; [discriminate|].
           split; [intros _; split; [now apply countHealth_pos | exact Hnb]|].
           discriminate.
        -- split; [in_list|]. split; [split; discriminate|].
           split; [discriminate|]. split; [discriminate|].
           intros _ s Hs. split; [now apply Hnb|].
           intros Hh.
           assert ((0 <? countHealth "at-risk" (s0 :: r))%nat = true)
             by (apply countHealth_pos; eauto).
           congruence.
Qed.

End InitiativeHealthProps.

(** *** Order of a sorted array *)

Section SortKeyProps.
Context {A : Type} (key : A -> Z) (later : A -> A -> bool).
Hypothesis later_spec : forall a b, later a b = true <-> key a < key b.

Lemma sort_insert_desc (x : A) (l : list A) :
  StronglySorted (fun a b => key b <= key a) l ->
  StronglySorted (fun a b => key b <= key a) (sort_insert later x l).
Proof.
  induction 1 as [|y r Hr IH Hy]; cbn.
  - repeat constructor.
  - destruct (later x y) eqn:E.
    + apply later_spec in E. constructor; [assumption|].
      rewrite (sort_insert_perm later x r). constructor; [lia | assumption].
    + assert (Hxy : key y <= key x).
      { destruct (Z_lt_le_dec (key x) (key y)) as [Hlt|Hle]; [|exact Hle].
        apply later_spec in Hlt. congruence. }
      constructor.
      * now constructor.
      * constructor; [exact Hxy|]. eapply Forall_impl; [exact Hy|].
        cbn. intros; lia.
Qed.

(** A comparator that puts the larger key first leaves the array in
    descending order of the key. *)
Lemma sort_desc (l : list A) :
  StronglySorted (fun a b => key b <= key a) (sort later l).
Proof.
  induction l as [|x r IH]; cbn; [constructor | now apply sort_insert_desc].
Qed.

End SortKeyProps.

Lemma StronglySorted_weaken {A : Type} (R R' : A -> A -> Prop) (l : list A) :
  (forall a b, R a b -> R' a b) -> StronglySorted R l -> StronglySorted R' l.
Proof.
  intros HR. induction 1 as [|x r Hr IH Hx]; constructor; [assumption|].
  eapply Forall_impl; [exact Hx|]. cbn. auto.
Qed.

(** *** Percentiles and order of the lead-time report *)

Section LeadTimeOrderProps.
Import EpicMetricsService Spec.

Lemma sorted_lookup_le (l : list Z) :
  StronglySorted Z.le l ->
  forall i j a b, (i <= j)%nat -> l !! i = Some a -> l !! j = Some b -> a <= b.
Proof.
  induction 1 as [|y r Hr IH Hy]; intros i j a b Hij Ha Hb; [discriminate|].
  destruct i as [|i], j as [|j]; cbn in Ha, Hb.
  - injection Ha as <-. injection Hb as <-. lia.
  - injection Ha as <-. rewrite Forall_forall in Hy. apply Hy.
    eapply list_elem_of_lookup_2. exact Hb.
  - lia.
  - apply (IH i j); [lia | assumption | assumption].
Qed.

Lemma percentile_index_mono (n : nat) (p q : Z) :
  p <= q ->
  (Z.to_nat (Z.max 0 (ceil_div100 (Z.of_nat n * p) - 1))
   <= Z.to_nat (Z.max 0 (ceil_div100 (Z.of_nat n * q) - 1)))%nat.
Proof.
  intros Hpq. unfold ceil_div100.
  assert (H : - (Z.of_nat n * q) / 100 <= - (Z.of_nat n * p) / 100).
  { apply Z.div_le_mono; nia. }
  lia.
Qed.

(** X7: when at least one lead time enters the report, its percentiles are
    lead times of the report and are ordered, p50 <= p70 <= p85 <= p95; when
    none does they are all 0. *)
Theorem lead_time_percentiles_ordered rt epics :
  let report := calculateEpicLeadCycleTime rt epics in
  let times := leadTimesOf rt epics in
  (times = [] ->
     EpicMetricsService.percentiles report
       = {| p50 := Some 0; p70 := Some 0; p85 := Some 0; p95 := Some 0 |}) /\
  (times <> [] ->
     exists a b c d,
       EpicMetricsService.percentiles report
         = {| p50 := Some a; p70 := Some b; p85 := Some c; p95 := Some d |} /\
       a <= b <= c /\ c <= d /\
       In a times /\ In b times /\ In c times /\ In d times).
Proof.
  intros report times. subst report times. unfold leadTimesOf.
  unfold calculateEpicLeadCycleTime.
  cbn [EpicMetricsService.percentiles]. rewrite epicDetails_counted.
  set (times := map _ (List.filter (counted rt) epics)).
  split.
  - intros ->. reflexivity.
  - intros Hne.
    assert (Hlen : (0 < length (sort ascending times))%nat).
    { rewrite sort_length. destruct times; [congruence | cbn; lia]. }
    assert (H : forall p, p <= 100 ->
              exists v, EpicMetricsService.percentile (sort ascending times) p
                        = Some v /\ In v times /\
                        sort ascending times
                          !! Z.to_nat (Z.max 0 (ceil_div100
                               (Z.of_nat (length (sort ascending times)) * p) - 1))
                        = Some v).
    { intros p Hp. unfold EpicMetricsService.percentile.
      destruct (length (sort ascending times)) as [|n] eqn:El; [lia|].
      cbn [Nat.eqb].
      destruct (lookup_lt_is_Some_2 (sort ascending times)
                  (Z.to_nat (Z.max 0 (ceil_div100 (Z.of_nat (S n) * p) - 1))))
        as [v Hv].
      { rewrite El. apply percentile_index_in_range; [lia | exact Hp]. }
      exists v. split; [exact Hv|]. split; [|exact Hv].
      apply list_elem_of_In. rewrite <- (sort_perm ascending times).
      eapply list_elem_of_lookup_2. exact Hv. }
    destruct (H 50) as (a & Ea & Ia & La); [lia|].
    destruct (H 70) as (b & Eb & Ib & Lb); [lia|].
    destruct (H 85) as (c & Ec & Ic & Lc); [lia|].
    destruct (H 95) as (d & Ed & Id & Ld); [lia|].
    exists a, b, c, d. rewrite Ea, Eb, Ec, Ed.
    pose proof (sort_sorted times) as Hs.
    split; [reflexivity|].
    repeat split; try assumption.
    + eapply (sorted_lookup_le _ Hs); [|exact La | exact Lb].
      apply percentile_index_mono. lia.
    + eapply (sorted_lookup_le _ Hs); [|exact Lb | exact Lc].
      apply percentile_index_mono. lia.
    + eapply (sorted_lookup_le _ Hs); [|exact Lc | exact Ld].
      apply percentile_index_mono. lia.
Qed.

Lemma epicDetails_entries rt epics :
  epicDetails rt epics
    = map (leadEntry rt) (List.filter (entersReport rt) epics).
Proof.
  unfold epicDetails. induction epics as [|e r IH]; [reflexivity|].
  cbn [List.filter]. unfold entersReport at 1.
  change (resolvedEpic e) with (isResolved e).
  destruct (isResolved e); cbn [andb]; [|exact IH].
  change (omap (leadDetail rt) (e :: List.filter isResolved r))
    with (match leadDetail rt e with
          | Some y => y :: omap (leadDetail rt) (List.filter isResolved r)
          | None => omap (leadDetail rt) (List.filter isResolved r)
          end).
  unfold leadDetail at 1.
  change (geb (leadTimeDays rt e) 0) with (0 <=? roundedLeadTime rt e)%float.
  destruct (0 <=? roundedLeadTime rt e)%float.
  - cbn [map]. f_equal. exact IH.
  - exact IH.
Qed.

(** X8: the report lists one entry per resolved epic with a non-negative
    rounded lead time, carrying that epic's key, summary, creation date,
    resolution date and lead time in days, longest lead time first.
    [totalResolved] is the number of resolved epics, whether or not their
    lead time was kept, so it is at least the number of entries. *)
Theorem lead_time_epics_sorted rt epics :
  let report := calculateEpicLeadCycleTime rt epics in
  StronglySorted (fun a b => ld_leadTimeDays b <= ld_leadTimeDays a)
                 (lt_epics report) /\
  Permutation (lt_epics report)
              (map (leadEntry rt) (List.filter (entersReport rt) epics)) /\
  totalResolved report = length (List.filter resolvedEpic epics) /\
  (length (lt_epics report) <= totalResolved report)%nat.
Proof.
  intros report. subst report. unfold calculateEpicLeadCycleTime.
  cbn [lt_epics totalResolved]. split; [|split; [|split]].
  - apply sort_desc. intros a b. rewrite Z.ltb_lt. lia.
  - rewrite <- epicDetails_entries. apply sort_perm.
  - reflexivity.
  - rewrite sort_length, epicDetails_entries, length_map.
    change isResolved with resolvedEpic.
    induction epics as [|e r IH]; [cbn; lia|]. cbn [List.filter].
    unfold entersReport at 1.
    destruct (resolvedEpic e); cbn [andb length]; [|exact IH].
    destruct (0 <=? roundedLeadTime rt e)%float; cbn [length]; lia.
Qed.

End LeadTimeOrderProps.

(** *** Tallies *)

Section TallyProps.
Import EpicMetricsService Spec.

Lemma get_increment (k k' : string) (obj : OMap.t nat) :
  OMap.get k' (increment k obj)
    = if String.eqb k k' then Some (S (default 0%nat (OMap.get k obj)))
      else OMap.get k' obj.
Proof.
  unfold increment. rewrite omap_get_set.
  destruct (String.eqb k k'); [|reflexivity].
  f_equal. destruct (OMap.get k obj) as [c|]; cbn; [|reflexivity].
  destruct (c =? 0)%nat eqn:E; [apply Nat.eqb_eq in E|]; lia.
Qed.

Lemma increment_NoDup (k : string) (obj : OMap.t nat) :
  NoDup (OMap.keys obj) -> NoDup (OMap.keys (increment k obj)).
Proof. intros H. unfold increment. now apply omap_keys_set_NoDup. Qed.

Context {A : Type} (f : A -> string).

(** After tallying [l], a key stands at its former count plus the number of
    elements of [l] named by it, and is present once it names one. *)
Lemma tallyBy_get (l : list A) :
  forall (obj : OMap.t nat) (k : string),
    let n := length (List.filter (fun x => String.eqb (f x) k) l) in
    OMap.get k (tallyBy f l obj)
      = match OMap.get k obj with
        | Some c => Some (c + n)%nat
        | None => if (n =? 0)%nat then None else Some n
        end.
Proof.
  unfold tallyBy. induction l as [|x r IH]; intros obj k; cbn [fold_left].
  - cbn. destruct (OMap.get k obj); [f_equal; lia | reflexivity].
  - cbn zeta in *. rewrite IH, get_increment. cbn [List.filter].
    destruct (String.eqb (f x) k) eqn:E.
    + apply String.eqb_eq in E. subst k. cbn [length].
      destruct (OMap.get (f x) obj); cbn; f_equal; lia.
    + destruct (OMap.get k obj); reflexivity.
Qed.

Lemma tallyBy_NoDup (l : list A) :
  forall obj : OMap.t nat,
    NoDup (OMap.keys obj) -> NoDup (OMap.keys (tallyBy f l obj)).
Proof.
  unfold tallyBy. induction l as [|x r IH]; intros obj H; cbn [fold_left].
  - exact H.
  - apply IH. now apply increment_NoDup.
Qed.

(** The entries of a tally started on the empty object. *)
Lemma tallyBy_entries (l : list A) (k : string) (c : nat) :
  In (k, c) (tallyBy f l OMap.empty) <->
  c = length (List.filter (fun x => String.eqb (f x) k) l) /\ (1 <= c)%nat.
Proof.
  pose proof (tallyBy_NoDup l OMap.empty (NoDup_nil_2 : NoDup (OMap.keys [])))
    as Hnd.
  pose proof (tallyBy_get l OMap.empty k) as Hget. cbn in Hget.
  split.
  - intros Hin. apply (omap_In_get _ _ _ Hnd) in Hin. rewrite Hget in Hin.
    destruct (length _ =? 0)%nat eqn:E; [discriminate|].
    apply Nat.eqb_neq in E. injection Hin as <-. split; [reflexivity | lia].
  - intros [-> Hc]. apply omap_get_In. rewrite Hget.
    destruct (length _ =? 0)%nat eqn:E; [apply Nat.eqb_eq in E; lia|].
    reflexivity.
Qed.

Lemma tallyBy_sum (l : list A) :
  forall obj,
    sum_list (OMap.values (tallyBy f l obj))
      = (sum_list (OMap.values obj) + length l)%nat.
Proof.
  unfold tallyBy. induction l as [|x r IH]; intros obj; cbn [fold_left length].
  - lia.
  - rewrite IH, increment_sum. lia.
Qed.

End TallyProps.

(** *** Work in progress by name *)

Section SortKeyOnProps.
Context {A : Type} (P : A -> Prop) (key : A -> Z) (later : A -> A -> bool).
Hypothesis later_spec :
  forall a b, P a -> P b -> (later a b = true <-> key a < key b).

Lemma sort_insert_desc_on (x : A) (l : list A) :
  P x -> Forall P l ->
  StronglySorted (fun a b => key b <= key a) l ->
  StronglySorted (fun a b => key b <= key a) (sort_insert later x l).
Proof.
  intros Hx Hl Hs. induction Hs as [|y r Hr IH Hy]; cbn.
  - repeat constructor.
  - apply Forall_cons in Hl as [Py Pr]. destruct (later x y) eqn:E.
    + apply (later_spec x y Hx Py) in E. constructor; [now apply IH|].
      rewrite (sort_insert_perm later x r). constructor; [lia | assumption].
    + assert (Hxy : key y <= key x).
      { destruct (Z_lt_le_dec (key x) (key y)) as [Hlt|Hle]; [|exact Hle].
        apply (later_spec x y Hx Py) in Hlt. congruence. }
      constructor.
      * now constructor.
      * constructor; [exact Hxy|]. eapply Forall_impl; [exact Hy|].
        cbn. intros; lia.
Qed.

(** On elements the comparator orders by their key, larger key first, the
    sorted array is in descending order of the key. *)
Lemma sort_desc_on (l : list A) :
  Forall P l -> StronglySorted (fun a b => key b <= key a) (sort later l).
Proof.
  induction l as [|x r IH]; intros Hl; cbn; [constructor|].
  apply Forall_cons in Hl as [Px Pr].
  apply sort_insert_desc_on; [exact Px | | now apply IH].
  now rewrite (sort_perm later r).
Qed.

End SortKeyOnProps.

Section CounterProps.
Import EpicMetricsService Spec.

Lemma inherited_proto (k : string) :
  inherited k = false -> String.eqb k "__proto__" = false.
Proof.
  intros H. destruct (String.eqb_spec k "__proto__") as [->|]; [|reflexivity].
  discriminate H.
Qed.

Lemma get_counts (k : string) (m : OMap.t nat) :
  OMap.get k (counts m) = option_map Counter.Count (OMap.get k m).
Proof.
  induction m as [|[k0 c0] r IH]; [reflexivity|]. cbn.
  destruct (String.eqb k0 k); [reflexivity | exact IH].
Qed.

Lemma set_counts (k : string) (c : nat) (m : OMap.t nat) :
  OMap.set k (Counter.Count c) (counts m) = counts (OMap.set k c m).
Proof.
  induction m as [|[k0 c0] r IH]; [reflexivity|]. cbn.
  destruct (String.eqb k0 k); [reflexivity|]. cbn. f_equal. exact IH.
Qed.

(** Under a name that is not inherited, counting in the object is counting
    in the tally. *)
Lemma increment_counts (k : string) (m : OMap.t nat) :
  inherited k = false ->
  Counter.increment k (counts m) = counts (increment k m).
Proof.
  intros Hk. unfold Counter.increment, increment. rewrite get_counts.
  destruct (OMap.get k m) as [c|]; cbn [option_map].
  - apply set_counts.
  - rewrite (inherited_proto k Hk), Hk. apply set_counts.
Qed.

Lemma entries_perm (obj : Counter.t) : Permutation (Counter.entries obj) obj.
Proof.
  unfold Counter.entries. rewrite sort_perm.
  induction obj as [|p r IH]; [reflexivity|]. cbn [List.filter].
  destruct (Counter.isIndex p); cbn [negb app].
  - now constructor.
  - rewrite <- Permutation_middle. now constructor.
Qed.

Lemma isWip_epicInProgress (e : EpicData) : isWip e = epicInProgress e.
Proof. reflexivity. Qed.

Lemma initiativeName_spec initiatives (e : EpicData) :
  initiativeName initiatives (or_strfield (e_parentKey e) unlinkedKey)
    = initiativeNameOf initiatives e.
Proof.
  unfold initiativeName, initiativeNameOf, parentKeyOf, or_strfield,
    unlinkedKey.
  set (k := match e_parentKey e with
            | str s => if String.eqb s "" then "_unlinked" else s
            | _ => "_unlinked"
            end).
  destruct initiatives as [l|]; cbn [from_option]; [|reflexivity].
  unfold id. destruct (List.find _ l) as [i|]; reflexivity.
Qed.

Lemma wipStep_counts initiatives (l : list EpicData) :
  Forall (fun e => inherited (assigneeName e) = false /\
                   inherited (initiativeNameOf initiatives e) = false) l ->
  forall a i : OMap.t nat,
    fold_left (wipStep initiatives) l (counts a, counts i)
      = (counts (tallyBy assigneeName l a),
         counts (tallyBy (initiativeNameOf initiatives) l i)).
Proof.
  unfold tallyBy. induction 1 as [|e r [Ha Hi] _ IH]; intros a i;
    cbn [fold_left]; [reflexivity|].
  rewrite <- IH. f_equal. cbn [wipStep].
  rewrite initiativeName_spec. fold (assigneeName e).
  now rewrite (increment_counts _ a Ha), (increment_counts _ i Hi).
Qed.

Lemma ownNames_Forall initiatives (epics : list EpicData) :
  ownNames initiatives epics = true ->
  Forall (fun e => inherited (assigneeName e) = false /\
                   inherited (initiativeNameOf initiatives e) = false)
         (List.filter isWip epics).
Proof.
  unfold ownNames. intros H. apply Forall_forall. intros e He.
  apply list_elem_of_In, filter_In in He as [He Hw].
  rewrite forallb_forall in H. specialize (H e He).
  rewrite isWip_epicInProgress in Hw. rewrite Hw in H. cbn in H.
  apply andb_true_iff in H as [H1 H2].
  now apply negb_true_iff in H1, H2.
Qed.

Lemma filter_filter_wip (g : EpicData -> string) (name : string)
    (epics : list EpicData) :
  List.filter (fun e => String.eqb (g e) name) (List.filter isWip epics)
    = wipNamed g name epics.
Proof.
  unfold wipNamed. induction epics as [|e r IH]; [reflexivity|].
  cbn [List.filter]. change (epicInProgress e) with (isWip e).
  destruct (isWip e); cbn [andb List.filter].
  - destruct (String.eqb (g e) name); [f_equal|]; exact IH.
  - exact IH.
Qed.

(** The entries of [byCount] on the counts of a tally of the epics in
    progress. *)
Lemma byCount_tally (g : EpicData -> string) (epics : list EpicData) :
  let out :=
    byCount (counts (tallyBy g (List.filter isWip epics) OMap.empty)) in
  NoDup (map nc_name out) /\
  StronglySorted
    (fun a b => exists x y, nc_count a = Counter.Count x /\
                            nc_count b = Counter.Count y /\ (y <= x)%nat)
    out /\
  (forall name v,
     In {| nc_name := name; nc_count := v |} out <->
     exists c, v = Counter.Count c /\
               c = length (wipNamed g name epics) /\ (1 <= c)%nat) /\
  exists cs, map nc_count out = map Counter.Count cs /\
             sum_list cs = length (List.filter isWip epics).
Proof.
  intros out. subst out. unfold byCount.
  set (t := tallyBy g (List.filter isWip epics) OMap.empty).
  set (raw := map (fun '(name, count) => {| nc_name := name; nc_count := count |})
                  (Counter.entries (counts t))).
  set (later := fun a b => Counter.less (nc_count a) (nc_count b)).
  assert (Hperm : Permutation (sort later raw) raw) by apply sort_perm.
  assert (Hrawp : Permutation raw
            (map (fun p => {| nc_name := fst p;
                              nc_count := Counter.Count (snd p) |}) t)).
  { subst raw. rewrite (Permutation_map _ (entries_perm (counts t))).
    unfold counts. rewrite map_map. reflexivity. }
  assert (Hall : Forall (fun a => exists x, nc_count a = Counter.Count x)
                        raw).
  { rewrite Hrawp. apply Forall_map, Forall_forall. intros [n c] _.
    now exists c. }
  split; [|split; [|split]].
  - rewrite (Permutation_map nc_name Hperm), (Permutation_map nc_name Hrawp).
    rewrite map_map. cbn [nc_name].
    change (map (fun x : string * nat => fst x) t) with (OMap.keys t).
    subst t. apply tallyBy_NoDup. apply NoDup_nil_2.
  - set (key := fun a => match nc_count a with
                         | Counter.Count x => Z.of_nat x
                         | Counter.Spoiled _ _ => 0
                         end).
    assert (Hs : StronglySorted (fun a b => key b <= key a) (sort later raw)).
    { apply (sort_desc_on
               (fun a => exists x, nc_count a = Counter.Count x) key later);
        [|exact Hall].
      intros a b [x Hx] [y Hy]. subst later key. cbn beta.
      rewrite Hx, Hy. cbn [Counter.less]. rewrite Nat.ltb_lt. lia. }
    assert (Hall' : Forall (fun a => exists x, nc_count a = Counter.Count x)
                           (sort later raw)) by now rewrite Hperm.
    clear -Hs Hall'. induction Hs as [|a r Hr IH Ha]; [constructor|].
    apply Forall_cons in Hall' as [[x Hx] Hr'].
    constructor; [now apply IH|].
    rewrite Forall_forall in Ha, Hr'. apply Forall_forall. intros b Hb.
    destruct (Hr' b Hb) as [y Hy]. specialize (Ha b Hb).
    exists x, y. subst key. cbn beta in Ha. rewrite Hx, Hy in Ha.
    repeat split; [assumption | assumption | lia].
  - intros name v.
    assert (Hin : In {| nc_name := name; nc_count := v |} (sort later raw)
                  <-> exists c, v = Counter.Count c /\ In (name, c) t).
    { rewrite <- !list_elem_of_In, Hperm, Hrawp, list_elem_of_In, in_map_iff.
      split.
      - intros ([n c] & [= -> <-] & Hc). now exists c.
      - intros (c & -> & Hc). now exists (name, c). }
    rewrite Hin. subst t. split.
    + intros (c & -> & Hc). exists c. split; [reflexivity|].
      apply tallyBy_entries in Hc. now rewrite filter_filter_wip in Hc.
    + intros (c & -> & Hc). exists c. split; [reflexivity|].
      apply tallyBy_entries. now rewrite filter_filter_wip.
  - exists (map (fun a => match nc_count a with
                          | Counter.Count x => x
                          | Counter.Spoiled _ _ => 0%nat
                          end) (sort later raw)).
    split.
    + rewrite map_map. apply map_ext_in. intros a Ha.
      assert (Hall' : Forall (fun a => exists x, nc_count a = Counter.Count x)
                             (sort later raw)) by now rewrite Hperm.
      rewrite Forall_forall in Hall'.
      destruct (Hall' a (proj2 (list_elem_of_In _ _) Ha)) as [x Hx].
      now rewrite Hx.
    + rewrite Hperm, Hrawp, map_map. cbn [nc_count].
      change (map (fun x : string * nat => snd x) t) with (OMap.values t).
      subst t. rewrite tallyBy_sum. reflexivity.
Qed.

Lemma wip_report_tallies rt epics initiatives :
  ownNames initiatives epics = true ->
  let report := calculateWIPMetrics rt epics initiatives in
  wipByAssignee report
    = byCount (counts (tallyBy assigneeName (List.filter isWip epics)
                               OMap.empty)) /\
  wipByInitiative report
    = byCount (counts (tallyBy (initiativeNameOf initiatives)
                               (List.filter isWip epics) OMap.empty)).
Proof.
  intros Hown. cbn zeta. unfold calculateWIPMetrics.
  change (Counter.empty, Counter.empty)
    with (counts OMap.empty, counts OMap.empty).
  rewrite (wipStep_counts initiatives _ (ownNames_Forall _ _ Hown)).
  split; reflexivity.
Qed.

End CounterProps.

Section WipGroupProps.
Import EpicMetricsService Spec.

(** X9: when no epic in progress goes by a name that [Object.prototype]
    has a property for, [wipByAssignee] and [wipByInitiative] each have one
    entry per name borne by an epic in progress, with distinct names, each
    entry counting the epics in progress under its name, largest count
    first.  An epic is named by its assignee, Unassigned when that is empty,
    and by the summary of the first initiative whose key is its parent key,
    Unlinked when there is no such initiative or its summary is empty. *)
Theorem wip_grouped_by_name rt epics initiatives :
  ownNames initiatives epics = true ->
  let report := calculateWIPMetrics rt epics initiatives in
  let grouped (g : EpicData -> string) (out : list NameCount) :=
    NoDup (map nc_name out) /\
    StronglySorted
      (fun a b => exists x y, nc_count a = Counter.Count x /\
                              nc_count b = Counter.Count y /\ (y <= x)%nat)
      out /\
    (forall name v,
       In {| nc_name := name; nc_count := v |} out <->
       exists c, v = Counter.Count c /\
                 c = length (wipNamed g name epics) /\ (1 <= c)%nat) in
  grouped assigneeName (wipByAssignee report) /\
  grouped (initiativeNameOf initiatives) (wipByInitiative report).
Proof.
  intros Hown report grouped. subst report grouped.
  destruct (wip_report_tallies rt epics initiatives Hown) as [-> ->].
  split.
  - destruct (byCount_tally assigneeName epics) as (H1 & H2 & H3 & _).
    auto.
  - destruct (byCount_tally (initiativeNameOf initiatives) epics)
      as (H1 & H2 & H3 & _).
    auto.
Qed.

Lemma wip_grouped_by_name_witness :
  let report :=
    calculateWIPMetrics Samples.runtime Samples.fourEpics
                        (Some Samples.namedInitiatives) in
  let grouped (g : EpicData -> string) (out : list NameCount) :=
    NoDup (map nc_name out) /\
    StronglySorted
      (fun a b => exists x y, nc_count a = Counter.Count x /\
                              nc_count b = Counter.Count y /\ (y <= x)%nat)
      out /\
    (forall name v,
       In {| nc_name := name; nc_count := v |} out <->
       exists c, v = Counter.Count c /\
                 c = length (wipNamed g name Samples.fourEpics) /\
                 (1 <= c)%nat) in
  grouped assigneeName (wipByAssignee report) /\
  grouped (initiativeNameOf (Some Samples.namedInitiatives))
          (wipByInitiative report).
Proof.
  apply (wip_grouped_by_name Samples.runtime Samples.fourEpics
           (Some Samples.namedInitiatives)).
  vm_compute. reflexivity.
Defined.

(** X26: when no epic in progress goes by a name that [Object.prototype]
    has a property for, the report counts each epic in progress once in
    every view: [totalWIP] is the number of input epics whose status
    category is [indeterminate], the length of [wipAge], and the sum of the
    counts by assignee and of the counts by initiative, none of which is
    spoiled. *)
Theorem wip_counts_agree_on_own_names rt epics initiatives :
  ownNames initiatives epics = true ->
  let report := calculateWIPMetrics rt epics initiatives in
  totalWIP report = length (List.filter epicInProgress epics) /\
  length (wipAge report) = totalWIP report /\
  (exists cs, map nc_count (wipByAssignee report) = map Counter.Count cs /\
              sum_list cs = totalWIP report) /\
  (exists cs, map nc_count (wipByInitiative report) = map Counter.Count cs /\
              sum_list cs = totalWIP report).
Proof.
  intros Hown report. subst report.
  destruct (wip_report_tallies rt epics initiatives Hown) as [-> ->].
  unfold calculateWIPMetrics.
  destruct (fold_left (wipStep initiatives) _ _) as [a i].
  cbn [totalWIP wipAge].
  split; [reflexivity|]. split; [now rewrite sort_length, length_map|].
  split.
  - destruct (byCount_tally assigneeName epics) as (_ & _ & _ & H). exact H.
  - destruct (byCount_tally (initiativeNameOf initiatives) epics)
      as (_ & _ & _ & H).
    exact H.
Qed.

Lemma wip_counts_agree_on_own_names_witness :
  let report :=
    calculateWIPMetrics Samples.runtime Samples.fourEpics
                        (Some Samples.namedInitiatives) in
  totalWIP report = length (List.filter epicInProgress Samples.fourEpics) /\
  length (wipAge report) = totalWIP report /\
  (exists cs, map nc_count (wipByAssignee report) = map Counter.Count cs /\
              sum_list cs = totalWIP report) /\
  (exists cs, map nc_count (wipByInitiative report) = map Counter.Count cs /\
              sum_list cs = totalWIP report).
Proof.
  apply (wip_counts_agree_on_own_names Samples.runtime Samples.fourEpics
           (Some Samples.namedInitiatives)).
  vm_compute. reflexivity.
Defined.

End WipGroupProps.

(** *** What a forecast costs and reports *)

Section ForecastReportProps.
Import ForecastService.

Lemma trial_draws src values fuel :
  forall itemsLeft periods s p s1,
    trial src values fuel itemsLeft periods s = (Some p, s1) ->
    periods <= p /\
    (periods <= periodCap -> p <= periodCap) /\
    draws s1 = (draws s + Z.to_nat (p - periods))%nat /\
    trials s1 = trials s.
Proof.
  induction fuel as [|fuel IH]; intros itemsLeft periods s p s1; cbn [trial].
  - discriminate.
  - destruct (gtb itemsLeft 0 && (periods <? periodCap)) eqn:C.
    + apply andb_true_iff in C. destruct C as [_ C]. apply Z.ltb_lt in C.
      unfold bind at 1. unfold draw at 1. intros E.
      apply IH in E. cbn [draws trials] in E.
      destruct E as (H1 & H2 & H3 & H4). repeat split; try lia.
    + unfold ret. intros [= <- <-]. repeat split; lia.
Qed.

Lemma simulate_draws src values fuel remaining :
  forall n acc s out s1,
    simulate src values fuel remaining n acc s = (Some out, s1) ->
    exists days,
      out = acc ++ days /\
      length days = n /\
      Forall (fun p => 0 <= p <= periodCap) days /\
      Z.of_nat (draws s1) = Z.of_nat (draws s) + foldr Z.add 0 days /\
      trials s1 = (trials s + n)%nat.
Proof.
  induction n as [|n IH]; intros acc s out s1; cbn [simulate].
  - unfold ret. intros [= <- <-]. exists []. rewrite app_nil_r.
    repeat split; [constructor | cbn; lia | lia].
  - unfold bind at 1. unfold startTrial at 1. unfold bind at 1.
    destruct (trial src values fuel remaining 0 _) as [[p|] s2] eqn:Et.
    + apply trial_draws in Et. cbn [draws trials] in Et.
      destruct Et as (H1 & H2 & H3 & H4). intros E. apply IH in E.
      destruct E as (days & -> & Hlen & Hall & Hd & Ht).
      exists (p :: days). rewrite <- app_assoc. cbn [app length foldr].
      repeat split; try lia.
      constructor; [|assumption]. unfold periodCap in *. lia.
    + unfold ret. discriminate.
Qed.

(** X10: a simulation of [n] trials that comes back has recorded [n] period
    counts between 0 and 100, started [n] trials, and read the random source
    once per period recorded: never more than 100 times per trial. *)
Theorem simulation_sampling_cost src values fuel remaining n s days s1 :
  simulate src values fuel remaining n [] s = (Some days, s1) ->
  length days = n /\
  Forall (fun p => 0 <= p <= 100) days /\
  trials s1 = (trials s + n)%nat /\
  Z.of_nat (draws s1) = Z.of_nat (draws s) + foldr Z.add 0 days /\
  (draws s1 <= draws s + 100 * n)%nat.
Proof.
  intros E. apply simulate_draws in E.
  destruct E as (d & -> & Hlen & Hall & Hd & Ht). cbn [app].
  unfold periodCap in Hall. repeat split; try assumption.
  assert (Hsum : foldr Z.add 0 d <= 100 * Z.of_nat (length d)).
  { clear -Hall. induction Hall as [|p r Hp _ IH]; cbn [foldr length]; lia. }
  lia.
Qed.

Lemma simulation_sampling_cost_witness :
  length [4; 5; 4; 5; 4] = 5%nat /\
  Forall (fun p => 0 <= p <= 100) [4; 5; 4; 5; 4] /\
  trials {| draws := 22; trials := 5 |} = (0 + 5)%nat /\
  Z.of_nat 22 = Z.of_nat 0 + foldr Z.add 0 [4; 5; 4; 5; 4] /\
  (22 <= 0 + 100 * 5)%nat.
Proof.
  apply (simulation_sampling_cost (fun k => k mod 3)%nat
           (map count Samples.history) 101 10 5
           {| draws := 0; trials := 0 |} [4; 5; 4; 5; 4]
           {| draws := 22; trials := 5 |}).
  vm_compute. reflexivity.
Defined.

(** The horizons of the distribution run from [p] to the bound, each dated
    by [periodToDate]. *)
Lemma distributionFrom_horizons rt days sims bound p :
  map (fun d => (d_periods d, d_date d))
      (distributionFrom rt days sims bound p)
    = map (fun h => (h, periodToDate rt h)) (seqZ p (bound - p + 1)).
Proof.
  funelim (distributionFrom rt days sims bound p).
  - rewrite seqZ_cons by lia. cbn [map d_periods d_date]. f_equal.
    rewrite H. f_equal. f_equal; lia.
  - rewrite seqZ_nil by lia. reflexivity.
Qed.

(** The result of a simulation with at least one trial, spelled out. *)
Lemma summarize_shape rt values remaining sims days :
  days <> [] ->
  exists a b c m,
    percentile (sort ascending days) 50 = Some a /\
    percentile (sort ascending days) 85 = Some b /\
    percentile (sort ascending days) 95 = Some c /\
    last (sort ascending days) = Some m /\
    a <= b /\ b <= c /\ c <= m /\
    In a days /\ In b days /\ In c days /\ In m days /\
    exists r,
      summarize rt values remaining sims days = Returns r /\
      percentiles r !! "p50"
        = Some {| pe_periods := a; pe_date := periodToDate rt a;
                  pe_confidence := "50%" |} /\
      percentiles r !! "p85"
        = Some {| pe_periods := b; pe_date := periodToDate rt b;
                  pe_confidence := "85%" |} /\
      percentiles r !! "p95"
        = Some {| pe_periods := c; pe_date := periodToDate rt c;
                  pe_confidence := "95%" |} /\
      distribution r
        = distributionFrom rt (sort ascending days) sims (Z.min m 24) 1 /\
      simulations r = sims /\ remainingItems r = remaining.
Proof.
  intros Hne.
  set (sorted := sort ascending days).
  assert (Hlen : (0 < length sorted)%nat).
  { subst sorted. rewrite sort_length. destruct days; [congruence | cbn; lia]. }
  assert (Hmem : forall i v, sorted !! i = Some v -> In v days).
  { intros i v Hv. apply list_elem_of_In.
    rewrite <- (sort_perm ascending days).
    eapply list_elem_of_lookup_2. exact Hv. }
  assert (H : forall p, p <= 100 -> exists v, percentile sorted p = Some v).
  { intros p Hp. unfold percentile. apply lookup_lt_is_Some.
    now apply percentile_index_in_range. }
  destruct (H 50) as [a Ea]; [lia|].
  destruct (H 85) as [b Eb]; [lia|].
  destruct (H 95) as [c Ec]; [lia|].
  destruct (last sorted) as [m|] eqn:Em.
  2: { apply last_None in Em. rewrite Em in Hlen. cbn in Hlen. lia. }
  pose proof (sort_sorted days) as Hs. fold sorted in Hs.
  assert (Hlast : sorted !! (length sorted - 1)%nat = Some m).
  { rewrite <- Em. symmetry. rewrite last_lookup. f_equal. lia. }
  exists a, b, c, m. repeat split; try eauto.
  - eapply (sorted_lookup_le _ Hs); [|exact Ea | exact Eb].
    apply percentile_index_mono. lia.
  - eapply (sorted_lookup_le _ Hs); [|exact Eb | exact Ec].
    apply percentile_index_mono. lia.
  - eapply (sorted_lookup_le _ Hs); [|exact Ec | exact Hlast].
    pose proof (percentile_index_in_range (length sorted) 95 Hlen). lia.
  - unfold summarize. cbv zeta. fold sorted. rewrite Ea, Eb, Ec, Em.
    cbn [percentileEntry]. eexists.
    split; [reflexivity|]. cbn [percentiles distribution simulations
                                 remainingItems].
    repeat split; reflexivity.
Qed.

Lemma forecast_runs rt src fuel hist remaining sims s :
  hist <> [] ->
  gtb remaining 0 = true ->
  0 < sims ->
  (100 < fuel)%nat ->
  exists days s1,
    days <> [] /\
    Forall (fun p => 1 <= p <= 100) days /\
    monteCarloForecast rt src fuel (Some hist) remaining (Some sims) s
      = (Some (summarize rt (map count hist) remaining sims days), s1).
Proof.
  intros Hne Hrem Hsims Hfuel.
  assert (Hcap : (Z.to_nat periodCap < fuel)%nat) by (unfold periodCap; lia).
  destruct (simulate_terminates src (map count hist) fuel remaining Hcap Hrem
              (Z.to_nat sims) [] s) as (days & s1 & E & Hlen & Hall & _).
  cbn [app] in E. exists days, s1. split; [|split].
  - destruct days; [cbn in Hlen; lia | congruence].
  - exact Hall.
  - unfold monteCarloForecast. cbn [from_option]. unfold id.
    rewrite (gtb_not_leb _ _ Hrem), orb_false_r.
    destruct hist as [|t hist']; [congruence|]. cbn [length Nat.eqb].
    unfold bind. rewrite E. reflexivity.
Qed.

(** The same run, with the trials it is made of. *)
Lemma forecast_trials rt src fuel hist remaining sims s :
  hist <> [] ->
  gtb remaining 0 = true ->
  0 < sims ->
  (100 < fuel)%nat ->
  exists days s1,
    days <> [] /\
    Forall (fun p => 1 <= p <= 100) days /\
    simulate src (map count hist) fuel remaining (Z.to_nat sims) [] s
      = (Some days, s1) /\
    monteCarloForecast rt src fuel (Some hist) remaining (Some sims) s
      = (Some (summarize rt (map count hist) remaining sims days), s1).
Proof.
  intros Hne Hrem Hsims Hfuel.
  assert (Hcap : (Z.to_nat periodCap < fuel)%nat) by (unfold periodCap; lia).
  destruct (simulate_terminates src (map count hist) fuel remaining Hcap Hrem
              (Z.to_nat sims) [] s) as (days & s1 & E & Hlen & Hall & _).
  cbn [app] in E. exists days, s1. split; [|split; [|split]].
  - destruct days; [cbn in Hlen; lia | congruence].
  - exact Hall.
  - exact E.
  - unfold monteCarloForecast. cbn [from_option]. unfold id.
    rewrite (gtb_not_leb _ _ Hrem), orb_false_r.
    destruct hist as [|t hist']; [congruence|]. cbn [length Nat.eqb].
    unfold bind. rewrite E. reflexivity.
Qed.

(** X11: a forecast over a history, with items left and at least one trial,
    reports three percentiles that are period counts of its trials, are
    ordered, p50 <= p85 <= p95, lie between 1 and 100 periods, and are each
    dated by [periodToDate]; its distribution lists the horizons 1, 2, ...
    up to the smaller of 24 and the period count of the longest trial. *)
Theorem forecast_report_shape rt src fuel hist remaining sims s :
  hist <> [] ->
  gtb remaining 0 = true ->
  0 < sims ->
  (100 < fuel)%nat ->
  exists days r s1 a b c longest,
    simulate src (map count hist) fuel remaining (Z.to_nat sims) [] s
      = (Some days, s1) /\
    monteCarloForecast rt src fuel (Some hist) remaining (Some sims) s
      = (Some (Returns r), s1) /\
    percentiles r !! "p50"
      = Some {| pe_periods := a; pe_date := periodToDate rt a;
                pe_confidence := "50%" |} /\
    percentiles r !! "p85"
      = Some {| pe_periods := b; pe_date := periodToDate rt b;
                pe_confidence := "85%" |} /\
    percentiles r !! "p95"
      = Some {| pe_periods := c; pe_date := periodToDate rt c;
                pe_confidence := "95%" |} /\
    In a days /\ In b days /\ In c days /\
    1 <= a /\ a <= b /\ b <= c /\ c <= longest /\ longest <= 100 /\
    In longest days /\ Forall (fun d => d <= longest) days /\
    map (fun d => (d_periods d, d_date d)) (distribution r)
      = map (fun h => (h, periodToDate rt h)) (seqZ 1 (Z.min longest 24)).
Proof.
  intros Hne Hrem Hsims Hfuel.
  destruct (forecast_trials rt src fuel hist remaining sims s
              Hne Hrem Hsims Hfuel) as (days & s1 & Hd & Hall & Esim & E).
  destruct (summarize_shape rt (map count hist) remaining sims days Hd)
    as (a & b & c & m & _ & _ & _ & Hlast & Hab & Hbc & Hcm & Ia & Ib & Ic & Im
        & r & Er & H50 & H85 & H95 & Hdist & _).
  pose proof (sorted_last_max _ _ (sort_sorted days) Hlast) as Hmax.
  rewrite (sort_perm ascending days) in Hmax.
  rewrite Forall_forall in Hall.
  pose proof (Hall a (proj2 (list_elem_of_In _ _) Ia)) as Ha.
  pose proof (Hall m (proj2 (list_elem_of_In _ _) Im)) as Hm.
  exists days, r, s1, a, b, c, m.
  rewrite E, Er. split; [exact Esim|]. split; [reflexivity|].
  repeat split; try assumption; try lia.
  rewrite Hdist, distributionFrom_horizons. f_equal. f_equal. lia.
Qed.

Lemma forecast_report_shape_witness :
  exists days r s1 a b c longest,
    simulate (fun i => (i mod 3)%nat) (map count Samples.history) 101 10
             (Z.to_nat 5) [] {| draws := 0; trials := 0 |}
      = (Some days, s1) /\
    monteCarloForecast Samples.runtime (fun i => (i mod 3)%nat) 101
      (Some Samples.history) 10 (Some 5) {| draws := 0; trials := 0 |}
      = (Some (Returns r), s1) /\
    percentiles r !! "p50"
      = Some {| pe_periods := a; pe_date := periodToDate Samples.runtime a;
                pe_confidence := "50%" |} /\
    percentiles r !! "p85"
      = Some {| pe_periods := b; pe_date := periodToDate Samples.runtime b;
                pe_confidence := "85%" |} /\
    percentiles r !! "p95"
      = Some {| pe_periods := c; pe_date := periodToDate Samples.runtime c;
                pe_confidence := "95%" |} /\
    In a days /\ In b days /\ In c days /\
    1 <= a /\ a <= b /\ b <= c /\ c <= longest /\ longest <= 100 /\
    In longest days /\ Forall (fun d => d <= longest) days /\
    map (fun d => (d_periods d, d_date d)) (distribution r)
      = map (fun h => (h, periodToDate Samples.runtime h))
            (seqZ 1 (Z.min longest 24)).
Proof.
  apply (forecast_report_shape Samples.runtime (fun i => (i mod 3)%nat) 101
           Samples.history 10 5 {| draws := 0; trials := 0 |}).
  - discriminate.
  - reflexivity.
  - lia.
  - lia.
Defined.

End ForecastReportProps.

(** *** A history without throughput *)

Section IdleHistoryProps.
Import ForecastService.

Lemma float_sub_zero (x : float) : (x - 0)%float = x.
Proof.
  transitivity (SF2Prim (Prim2SF (x - 0)%float));
    [symmetry; apply SF2Prim_Prim2SF|].
  transitivity (SF2Prim (Prim2SF x)); [|apply SF2Prim_Prim2SF].
  f_equal. rewrite sub_spec. unfold SF64sub.
  change (Prim2SF 0) with (S754_zero false).
  destruct (Prim2SF x) as [[|]|[|]| |sx mx ex]; reflexivity.
Qed.

(** With every sample worth 0, a trial that starts with items left runs to
    the cap. *)
Lemma trial_idle src values fuel :
  (forall k, values !! src k = Some 0%float) ->
  forall itemsLeft periods s,
    gtb itemsLeft 0 = true ->
    0 <= periods <= periodCap ->
    (Z.to_nat (periodCap - periods) < fuel)%nat ->
    fst (trial src values fuel itemsLeft periods s) = Some periodCap.
Proof.
  intros Hval. induction fuel as [|fuel IH]; intros itemsLeft periods s Hpos Hp Hf;
    [lia|].
  cbn [trial]. rewrite Hpos. cbn [andb].
  destruct (periods <? periodCap) eqn:C.
  - apply Z.ltb_lt in C. unfold bind at 1. unfold draw at 1.
    rewrite Hval. cbn [from_option]. unfold id. rewrite float_sub_zero.
    apply IH; [exact Hpos | lia | lia].
  - apply Z.ltb_ge in C. cbn. f_equal. lia.
Qed.

Lemma simulate_idle src values fuel remaining :
  (forall k, values !! src k = Some 0%float) ->
  gtb remaining 0 = true ->
  (Z.to_nat periodCap < fuel)%nat ->
  forall n acc s,
    fst (simulate src values fuel remaining n acc s)
      = Some (acc ++ replicate n periodCap).
Proof.
  intros Hval Hrem Hfuel. induction n as [|n IH]; intros acc s.
  - cbn. now rewrite app_nil_r.
  - cbn [simulate]. unfold bind at 1. unfold startTrial at 1. unfold bind at 1.
    pose proof (trial_idle src values fuel Hval remaining 0
                  {| draws := draws s; trials := S (trials s) |} Hrem) as Ht.
    destruct (trial src values fuel remaining 0 _) as [r s1].
    cbn [fst] in Ht. rewrite Ht by (unfold periodCap in *; lia).
    rewrite IH, <- app_assoc. reflexivity.
Qed.

Lemma lookup_idle_history (hist : list ThroughputPoint) (i : nat) :
  (forall t, In t hist -> count t = 0%float) ->
  (i < length hist)%nat ->
  map count hist !! i = Some 0%float.
Proof.
  revert i. induction hist as [|t hist IH]; intros i Hall Hi; cbn in Hi; [lia|].
  destruct i as [|i]; cbn.
  - f_equal. apply Hall. now left.
  - apply IH; [|lia]. intros t' Ht'. apply Hall. now right.
Qed.

(** X12: on a history whose every count is 0, with items left and at least
    one trial, no trial ever finishes: each one stops at the cap, so the
    forecast reports 100 periods at p50, p85 and p95 and a distribution over
    the horizons 1 to 24. *)
Theorem forecast_idle_history rt src fuel hist remaining sims s :
  hist <> [] ->
  (forall t, In t hist -> count t = 0%float) ->
  gtb remaining 0 = true ->
  0 < sims ->
  (100 < fuel)%nat ->
  (forall k, (src k < length hist)%nat) ->
  fst (simulate src (map count hist) fuel remaining (Z.to_nat sims) [] s)
    = Some (replicate (Z.to_nat sims) 100) /\
  exists r,
    fst (monteCarloForecast rt src fuel (Some hist) remaining (Some sims) s)
      = Some (Returns r) /\
    pe_periods <$> percentiles r !! "p50" = Some 100 /\
    pe_periods <$> percentiles r !! "p85" = Some 100 /\
    pe_periods <$> percentiles r !! "p95" = Some 100 /\
    map d_periods (distribution r) = seqZ 1 24.
Proof.
  intros Hne Hall Hrem Hsims Hfuel Hsrc.
  assert (Hcap : (Z.to_nat periodCap < fuel)%nat) by (unfold periodCap; lia).
  assert (Hval : forall k, map count hist !! src k = Some 0%float)
    by (intros k; apply lookup_idle_history; auto).
  pose proof (simulate_idle src (map count hist) fuel remaining Hval Hrem Hcap
                (Z.to_nat sims) [] s) as E.
  cbn [app] in E. split; [exact E|].
  assert (Hn : (0 < Z.to_nat sims)%nat) by lia.
  unfold monteCarloForecast. cbn [from_option]. unfold id.
  rewrite (gtb_not_leb _ _ Hrem), orb_false_r.
  destruct hist as [|t hist']; [congruence|]. cbn [length Nat.eqb].
  unfold bind.
  destruct (simulate src (map count (t :: hist')) fuel remaining
              (Z.to_nat sims) [] s) as [days s1].
  cbn [fst] in E. subst days. cbn [fst ret].
  unfold summarize. cbv zeta.
  rewrite sort_replicate, !percentile_replicate by (assumption || lia).
  assert (Hlast : last (replicate (Z.to_nat sims) periodCap) = Some periodCap).
  { destruct (Z.to_nat sims) as [|n]; [lia|].
    rewrite replicate_S_end, last_snoc. reflexivity. }
  rewrite Hlast. cbn [percentileEntry]. eexists.
  split; [reflexivity|]. cbn [percentiles distribution].
  repeat split; reflexivity.
Qed.

Lemma forecast_idle_history_witness :
  exists r,
    fst (monteCarloForecast Samples.runtime (fun k => 0%nat) 101
           (Some Samples.idleHistory) 7 (Some 3)
           {| draws := 0; trials := 0 |}) = Some (Returns r) /\
    pe_periods <$> percentiles r !! "p50" = Some 100 /\
    pe_periods <$> percentiles r !! "p85" = Some 100 /\
    pe_periods <$> percentiles r !! "p95" = Some 100 /\
    map d_periods (distribution r) = seqZ 1 24.
Proof.
  apply (forecast_idle_history Samples.runtime (fun k => 0%nat) 101
           Samples.idleHistory 7 3 {| draws := 0; trials := 0 |}).
  - discriminate.
  - intros t [<- | [<- | []]]; reflexivity.
  - reflexivity.
  - lia.
  - lia.
  - intros k. cbn. lia.
Defined.

End IdleHistoryProps.

(** *** WSJF without mapped fields *)

Section WsjfFallbackProps.
Import EpicMetricsService.

Lemma priorityScores_values (k : string) (v : float) :
  priorityScores !! k = Some v ->
  In v [5%float; 4%float; 3%float; 2%float; 1%float].
Proof.
  unfold priorityScores. intros H. apply elem_of_list_to_map_2 in H.
  repeat (apply elem_of_cons in H; destruct H as [H | H];
          [injection H as _ <-; cbn; tauto|]).
  apply elem_of_nil in H. destruct H.
Qed.

Lemma basePriority_values (p : string) :
  In (or_num (priorityScores !! p) 3)
     [5%float; 4%float; 3%float; 2%float; 1%float].
Proof.
  destruct (priorityScores !! p) as [v|] eqn:E; [|cbn; tauto].
  apply priorityScores_values in E. cbn in E.
  destruct E as [<- | [<- | [<- | [<- | [<- | []]]]]]; cbn; tauto.
Qed.

Lemma nan_div (y : float) : (nan / y)%float = nan.
Proof.
  rewrite <- (SF2Prim_Prim2SF (nan / y)), div_spec.
  replace (Prim2SF nan) with S754_nan by reflexivity. reflexivity.
Qed.

(** X13: in fallback mode, under a priority whose name is not that of a
    property of [Object.prototype], the business value lies between 1.5 and
    8; under one that is, the business value, the cost of delay and the
    score are [NaN].  Either way the time criticality is one of 1 to 5 (2
    without a due date) and the risk reduction one of 2, 3, 4. *)
Theorem wsjf_fallback_ranges rt epic :
  let w := calculateWSJF rt epic None in
  (Spec.ownPriority epic = true ->
     (1.5 <=? businessValue w)%float = true /\
     (businessValue w <=? 8)%float = true) /\
  (Spec.ownPriority epic = false ->
     is_nan (businessValue w) = true /\ is_nan (costOfDelay w) = true /\
     is_nan (wsjfScore w) = true) /\
  In (timeCriticality w) [5%float; 4%float; 3%float; 2%float; 1%float] /\
  (truthy_str (e_dueDate epic) = false -> timeCriticality w = 2%float) /\
  In (riskReduction w) [4%float; 3%float; 2%float].
Proof.
  intros w. subst w. unfold calculateWSJF, fallbackInputs. cbv zeta.
  cbn [businessValue timeCriticality riskReduction costOfDelay wsjfScore].
  unfold Spec.ownPriority, priorityScore.
  split; [|split; [|split; [|split]]].
  - intros Hown. apply negb_true_iff in Hown. rewrite Hown.
    pose proof (basePriority_values (e_priority epic)) as Hbase.
    set (base := or_num (priorityScores !! e_priority epic) 3) in *.
    cbn in Hbase.
    destruct Hbase as [<- | [<- | [<- | [<- | [<- | []]]]]];
      destruct (20 <=? total (e_children epic))%nat;
      destruct (10 <=? total (e_children epic))%nat;
      destruct (5 <=? total (e_children epic))%nat;
      destruct (gtb (or_num (Some (e_progress epic)) 0) 50);
      destruct (String.eqb (e_health epic) "blocked");
      destruct (String.eqb (e_health epic) "at-risk");
      split; vm_compute; reflexivity.
  - intros Hown. apply negb_false_iff in Hown. rewrite Hown.
    assert (Hbv :
      Math_min 8 (Math_round
        ((nan
          + (if (20 <=? total (e_children epic))%nat then 2
             else if (10 <=? total (e_children epic))%nat then 1.5
             else if (5 <=? total (e_children epic))%nat then 1 else 0.5)
          + (if gtb (or_num (Some (e_progress epic)) 0) 50 then 0.5 else 0)
          + (if String.eqb (e_health epic) "blocked" then 1
             else if String.eqb (e_health epic) "at-risk" then 0.5 else 0))
         * 10) / 10)%float = nan).
    { destruct (20 <=? total (e_children epic))%nat;
        destruct (10 <=? total (e_children epic))%nat;
        destruct (5 <=? total (e_children epic))%nat;
        destruct (gtb (or_num (Some (e_progress epic)) 0) 50);
        destruct (String.eqb (e_health epic) "blocked");
        destruct (String.eqb (e_health epic) "at-risk");
        vm_compute; reflexivity. }
    rewrite Hbv.
    assert (Hcod :
      (nan
       + (if truthy_str (e_dueDate epic)
          then
            if ((new_Date rt (e_dueDate epic) - Date_now rt) / msPerDay <? 14)
            then 5
            else if ((new_Date rt (e_dueDate epic) - Date_now rt) / msPerDay
                     <? 30) then 4
            else if ((new_Date rt (e_dueDate epic) - Date_now rt) / msPerDay
                     <? 60) then 3
            else if ((new_Date rt (e_dueDate epic) - Date_now rt) / msPerDay
                     <? 90) then 2
            else 1
          else 2)
       + (if String.eqb (e_health epic) "blocked" then 4
          else if String.eqb (e_health epic) "at-risk" then 3 else 2))%float
      = nan).
    { repeat match goal with
             | |- context [if ?c then _ else _] => destruct c
             end; vm_compute; reflexivity. }
    rewrite Hcod, nan_div. split; [|split]; vm_compute; reflexivity.
  - destruct (truthy_str (e_dueDate epic)); [|cbn; tauto].
    repeat match goal with
           | |- context [if ?c then _ else _] => destruct c
           end; cbn; tauto.
  - intros ->. reflexivity.
  - repeat match goal with
           | |- context [if ?c then _ else _] => destruct c
           end; cbn; tauto.
Qed.

(** Under a priority called [constructor] nothing of the score is a
    number. *)
Example wsjf_inherited_priority_example :
  let w := calculateWSJF Samples.runtime Samples.constructorPriority None in
  is_nan (businessValue w) = true /\ timeCriticality w = 2%float /\
  riskReduction w = 4%float /\ jobSize w = 1%float /\
  is_nan (costOfDelay w) = true /\ is_nan (wsjfScore w) = true.
Proof. vm_compute. repeat split. Qed.

End WsjfFallbackProps.

(** *** The summary counts *)

Section SummaryProps.
Import EpicMetricsService EpicMetricsRest Spec.
Import ForecastService (Outcome, Returns, Throws).

Lemma filter_sum_two_le {A : Type} (f g : A -> bool) (l : list A) :
  (forall x, f x = true -> g x = false) ->
  (length (List.filter f l) + length (List.filter g l) <= length l)%nat.
Proof.
  intros H. induction l as [|x r IH]; [reflexivity|]. cbn [List.filter].
  destruct (f x) eqn:Ef; [rewrite (H x Ef)|destruct (g x)]; cbn [length]; lia.
Qed.

Lemma summarized_split (epics : list EpicData) :
  (length (List.filter (fun e => String.eqb (e_statusCategory e) "done") epics)
   + length (List.filter
               (fun e => String.eqb (e_statusCategory e) "indeterminate") epics)
   + length (List.filter
               (fun e => String.eqb (e_statusCategory e) "new"
                         || String.eqb (e_statusCategory e) "undefined") epics)
   + length (List.filter (fun e => negb (summarized e)) epics))%nat
  = length epics.
Proof.
  induction epics as [|e r IH]; [reflexivity|]. cbn [List.filter].
  unfold summarized at 1, includes. cbn [existsb].
  repeat match goal with
         | |- context [String.eqb (e_statusCategory e) ?s] =>
             destruct (String.eqb_spec (e_statusCategory e) s)
         end; cbn [orb negb length]; try congruence; lia.
Qed.

(** X14: in the summary, the counts of done, in-progress and to-do epics
    and the number of epics whose status category is none of [done],
    [indeterminate], [new] and [undefined] make up [total]; and the at-risk
    and blocked counts together never exceed it. *)
Theorem summary_counts (epics : list EpicData) :
  let s := buildSummary epics in
  (sm_done s + sm_inProgress s + sm_todo s
   + length (List.filter (fun e => negb (summarized e)) epics)
   = sm_total s)%nat /\
  (sm_atRisk s + sm_blocked s <= sm_total s)%nat.
Proof.
  cbn zeta. unfold buildSummary. cbn [sm_done sm_inProgress sm_todo sm_total
                                       sm_atRisk sm_blocked].
  split; [apply summarized_split|].
  apply filter_sum_two_le. intros e H. apply String.eqb_eq in H.
  rewrite H. reflexivity.
Qed.

Lemma summary_example :
  buildSummary Samples.fourEpics
    = {| sm_total := 4; sm_done := 1; sm_inProgress := 3; sm_todo := 0;
         sm_atRisk := 0; sm_blocked := 0; sm_totalStoryPoints := 0;
         sm_completedStoryPoints := 0 |}.
Proof. vm_compute. reflexivity. Qed.

End SummaryProps.

(** *** Epics as [buildEpicData] builds them *)

Section BuildEpicProps.
Import EpicMetricsService EpicMetricsRest Spec.
Import ForecastService (Outcome, Returns, Throws).

Lemma or_str_done (c : option string) :
  or_str c "new" = "done" <-> c = Some "done".
Proof.
  destruct c as [s|]; cbn; [|split; discriminate].
  destruct (String.eqb_spec s "") as [->|Hs]; [split; discriminate|].
  split; [intros ->; reflexivity | intros [= ->]; reflexivity].
Qed.

Lemma health_done_iff rt epic children deps :
  health (calculateEpicHealth rt epic children deps) = "done"
  <-> raw_statusCategory epic = Some "done".
Proof.
  unfold calculateEpicHealth.
  destruct (bool_decide (raw_statusCategory epic = Some "done")) eqn:E.
  - apply bool_decide_eq_true in E. cbn. tauto.
  - apply bool_decide_eq_false in E.
    split; [|intros H; contradiction].
    repeat match goal with
           | |- context [if ?b then _ else _] => destruct b
           end; cbn [health]; discriminate.
Qed.

(** X15: in the object [buildEpicData] returns, the health is [done]
    exactly when the status category is [done]; [children.total] is the
    number of children given, and [children.issues] lists as many. *)
Theorem built_epic_coherent rt epic children deps :
  let d := ev_data (buildEpicData rt epic children deps) in
  (e_health d = "done" <-> e_statusCategory d = "done") /\
  total (e_children d) = length children /\
  length (ev_issues (buildEpicData rt epic children deps)) = length children.
Proof.
  cbn zeta. unfold buildEpicData.
  cbn [ev_data e_health e_statusCategory e_children ev_issues].
  split; [|split].
  - rewrite health_done_iff, or_str_done. reflexivity.
  - rewrite progress_total. apply length_map.
  - apply length_map.
Qed.

Lemma summary_done_by_health (epics : list EpicData) :
  Forall (fun e => e_health e = "done" <-> e_statusCategory e = "done") epics ->
  length (List.filter (fun e => String.eqb (e_statusCategory e) "done") epics)
    = length (List.filter (fun e => String.eqb (e_health e) "done") epics) /\
  (length (List.filter (fun e => String.eqb (e_statusCategory e) "done") epics)
   + length (List.filter (fun e => String.eqb (e_health e) "at-risk") epics)
   + length (List.filter (fun e => String.eqb (e_health e) "blocked") epics)
   <= length epics)%nat.
Proof.
  induction 1 as [|e r He _ [IH1 IH2]]; [split; reflexivity|].
  cbn [List.filter].
  destruct (String.eqb_spec (e_statusCategory e) "done") as [Hc|Hc];
    destruct (String.eqb_spec (e_health e) "done") as [Hh|Hh];
    try tauto;
    destruct (String.eqb_spec (e_health e) "at-risk");
    destruct (String.eqb_spec (e_health e) "blocked");
    cbn [length]; try congruence; split; lia.
Qed.

(** X16: over epics built by [buildEpicData], the summary's [done] is the
    number of epics whose health is [done], so that done, at-risk and
    blocked epics are counted apart and together never exceed [total]. *)
Theorem summary_of_built_epics rt
    (inputs : list (JiraEpic * list JiraIssue * option Dependencies)) :
  let epics :=
    map (fun '(epic, children, deps) =>
           ev_data (buildEpicData rt epic children deps)) inputs in
  let s := buildSummary epics in
  sm_done s
    = length (List.filter (fun e => String.eqb (e_health e) "done") epics) /\
  (sm_done s + sm_atRisk s + sm_blocked s <= sm_total s)%nat.
Proof.
  cbn zeta. unfold buildSummary.
  cbn [sm_done sm_total sm_atRisk sm_blocked].
  apply summary_done_by_health. apply Forall_map, Forall_forall.
  intros [[epic children] deps] _. unfold buildEpicData.
  cbn [ev_data e_health e_statusCategory].
  rewrite health_done_iff, or_str_done. reflexivity.
Qed.

End BuildEpicProps.

(** *** Throughput by period *)

Section ThroughputProps.
Import EpicMetricsService EpicMetricsRest Spec.
Import ForecastService (Outcome, Returns, Throws).

(** While no key throws, the loop tallies the epics by their keys. *)
Lemma countPeriods_tally rt cal periodType (k : EpicData -> string)
    (completed : list EpicData) :
  (forall e, In e completed ->
     periodKey rt cal periodType (new_Date rt (e_resolutionDate e))
       = Returns (k e)) ->
  forall obj,
    countPeriods rt cal periodType completed obj
      = Returns (tallyBy k completed obj).
Proof.
  induction completed as [|e r IH]; intros Hk obj; [reflexivity|].
  cbn [countPeriods]. rewrite (Hk e (or_introl eq_refl)).
  unfold tallyBy. cbn [fold_left]. apply IH.
  intros e' He'. apply Hk. now right.
Qed.

(** The loop throws exactly when some key does. *)
Lemma countPeriods_throws rt cal periodType (completed : list EpicData) :
  forall obj,
    (exists err, countPeriods rt cal periodType completed obj = Throws err)
    <-> exists e err,
          In e completed /\
          periodKey rt cal periodType (new_Date rt (e_resolutionDate e))
            = Throws err.
Proof.
  induction completed as [|e r IH]; intros obj; cbn [countPeriods].
  - split; [intros [err H]; discriminate | intros (e & err & [] & _)].
  - destruct (periodKey rt cal periodType (new_Date rt (e_resolutionDate e)))
      as [key|err] eqn:E.
    + rewrite IH. split.
      * intros (e' & err & Hin & H). exists e', err. split; [now right|exact H].
      * intros (e' & err & [<-|Hin] & H); [congruence|].
        exists e', err. split; assumption.
    + split; [|intros _; exists err; reflexivity].
      intros _. exists e, err. split; [now left | exact E].
Qed.

Lemma filter_filter_and {A : Type} (f g : A -> bool) (l : list A) :
  List.filter g (List.filter f l) = List.filter (fun x => f x && g x) l.
Proof.
  induction l as [|x r IH]; [reflexivity|]. cbn [List.filter].
  destruct (f x); cbn [andb List.filter]; [destruct (g x); congruence | exact IH].
Qed.

(** X17: whenever the period key of every completed epic can be built,
    [calculateThroughput] returns one entry per period that has a completed
    epic, no period twice; the count of an entry is the number of completed
    epics of its period, and the counts add up to the number of completed
    epics. *)
Theorem throughput_by_period rt cal epics periodType (k : EpicData -> string) :
  (forall e, In e epics -> isCompleted e = true ->
     periodKey rt cal (default "month" periodType)
               (new_Date rt (e_resolutionDate e)) = Returns (k e)) ->
  exists r,
    calculateThroughput rt cal epics periodType = Returns r /\
    (forall p c,
       In {| pc_period := p; pc_count := c |} r
       <-> c = length (completedIn k p epics) /\ (1 <= c)%nat) /\
    NoDup (map pc_period r) /\
    sum_list (map pc_count r) = length (List.filter isCompleted epics).
Proof.
  intros Hk. unfold calculateThroughput.
  rewrite (countPeriods_tally rt cal _ k).
  2:{ intros e He. apply filter_In in He as [He Hc]. now apply Hk. }
  set (m := tallyBy k (List.filter isCompleted epics) OMap.empty).
  set (later := fun a b : string * nat =>
                  gtb (String_localeCompare cal (fst a) (fst b)) 0).
  pose proof (sort_perm later (OMap.entries m)) as Hperm.
  eexists. split; [reflexivity|]. split; [|split].
  - intros p c. rewrite in_map_iff. split.
    + intros ([p' c'] & [= -> ->] & Hin).
      apply (Permutation_in _ Hperm) in Hin.
      apply tallyBy_entries in Hin. unfold completedIn.
      now rewrite <- filter_filter_and.
    + intros H. exists (p, c). split; [reflexivity|].
      apply (Permutation_in _ (Permutation_sym Hperm)).
      apply tallyBy_entries. unfold completedIn in H.
      now rewrite <- filter_filter_and in H.
  - rewrite map_map.
    rewrite (map_ext _ fst) by (intros [? ?]; reflexivity).
    apply NoDup_ListNoDup.
    apply (Permutation_NoDup (Permutation_sym (Permutation_map fst Hperm))).
    apply NoDup_ListNoDup.
    apply (tallyBy_NoDup k _ OMap.empty). constructor.
  - rewrite map_map.
    rewrite (map_ext _ snd) by (intros [? ?]; reflexivity).
    transitivity (sum_list (OMap.values m)).
    + apply (Permutation_map snd) in Hperm. unfold OMap.values.
      unfold OMap.entries in Hperm. now rewrite Hperm.
    + subst m. rewrite tallyBy_sum. reflexivity.
Qed.

Lemma throughput_by_period_witness :
  exists r,
    calculateThroughput Samples.runtime Samples.calendar Samples.januaryEpics
                        (Some "week") = Returns r /\
    (forall p c,
       In {| pc_period := p; pc_count := c |} r
       <-> c = length (completedIn
                         (fun e => if String.eqb (e_key e) "PAY-5"
                                   then "2024-01-28" else "2024-01-07")
                         p Samples.januaryEpics) /\ (1 <= c)%nat) /\
    NoDup (map pc_period r) /\
    sum_list (map pc_count r)
      = length (List.filter isCompleted Samples.januaryEpics).
Proof.
  apply (throughput_by_period Samples.runtime Samples.calendar
           Samples.januaryEpics (Some "week")
           (fun e => if String.eqb (e_key e) "PAY-5"
                     then "2024-01-28" else "2024-01-07")).
  intros e He _.
  repeat (destruct He as [<-|He]; [vm_compute; reflexivity|]). destruct He.
Defined.

(** X18: [calculateThroughput] throws exactly when the period type is
    neither [month] nor [quarter] and the week of some completed epic's
    resolution date cannot be printed; with [month] or [quarter] it always
    returns. *)
Theorem throughput_throws_iff rt cal epics periodType :
  (exists err, calculateThroughput rt cal epics periodType = Throws err)
  <-> calendarPeriod periodType = false /\
      exists e, In e epics /\ isCompleted e = true
                /\ weekUnprintable rt cal e = true.
Proof.
  unfold calculateThroughput, calendarPeriod.
  set (pt := default "month" periodType).
  split.
  - intros [err H].
    destruct (countPeriods rt cal pt _ OMap.empty) as [m|err'] eqn:E;
      [discriminate|].
    assert (Hex : exists err, countPeriods rt cal pt
                    (List.filter isCompleted epics) OMap.empty = Throws err)
      by (exists err'; exact E).
    apply countPeriods_throws in Hex as (e & err1 & Hin & Hkey).
    apply filter_In in Hin as [Hin Hc]. unfold periodKey in Hkey.
    destruct (String.eqb pt "month"); [discriminate|].
    destruct (String.eqb pt "quarter"); [discriminate|].
    split; [reflexivity|]. exists e. repeat split; try assumption.
    unfold weekUnprintable. now rewrite Hkey.
  - intros [Hpt (e & Hin & Hc & Hweek)].
    apply orb_false_iff in Hpt as [Hm Hq].
    assert (Hex : exists err, countPeriods rt cal pt
                    (List.filter isCompleted epics) OMap.empty = Throws err).
    { apply countPeriods_throws. unfold weekUnprintable in Hweek.
      destruct (Date_isoDay cal _) as [|err] eqn:E; [discriminate|].
      exists e, err. split; [apply filter_In; now split|].
      unfold periodKey. now rewrite Hm, Hq. }
    destruct Hex as [err ->]. now exists err.
Qed.

Lemma throughput_example :
  calculateThroughput Samples.runtime Samples.calendar Samples.januaryEpics
                      (Some "week")
    = Returns [ {| pc_period := "2024-01-07"; pc_count := 2 |};
                {| pc_period := "2024-01-28"; pc_count := 1 |} ] /\
  calculateThroughput Samples.runtime Samples.calendar Samples.januaryEpics None
    = Returns [ {| pc_period := "2024-01"; pc_count := 3 |} ] /\
  calculateThroughput Samples.runtime Samples.calendar Samples.januaryEpics
                      (Some "quarter")
    = Returns [ {| pc_period := "2024 Q1"; pc_count := 3 |} ] /\
  calculateThroughput Samples.runtime Samples.calendar Samples.resolvedEpics
                      (Some "week")
    = Throws "RangeError: Invalid time value".
Proof. vm_compute. repeat split. Qed.

Lemma Math_ceil_examples :
  Math_ceil (1 / 3) = 1%float /\ Math_ceil (12 / 3) = 4%float /\
  Math_ceil 2.5 = 3%float /\ Math_ceil (-2.5) = (-2)%float /\
  Prim2SF (Math_ceil (-0.5)) = S754_zero true /\
  Math_ceil infinity = infinity /\ is_nan (Math_ceil nan) = true.
Proof. vm_compute. repeat split. Qed.

End ThroughputProps.

(** *** Cumulative flow *)

Section CumulativeFlowProps.
Import EpicMetricsService EpicMetricsRest Spec.
Import ForecastService (Outcome, Returns, Throws).

(** The state of an epic at a week's end, by the two dates. *)
Lemma flowState_dates rt (weekEnd : float) (e : EpicData) :
  existedBy rt weekEnd e
    = match flowState rt weekEnd e with None => false | Some _ => true end /\
  existedBy rt weekEnd e && resolvedBy rt weekEnd e
    = match flowState rt weekEnd e with Some FlowDone => true | _ => false end.
Proof.
  unfold flowState, existedBy, resolvedBy.
  destruct (truthy_str (e_created e)); cbn [negb orb andb];
    [|split; reflexivity].
  destruct (gtb (new_Date rt (e_created e)) weekEnd); cbn [negb andb];
    [split; reflexivity|].
  destruct (truthy_str (e_resolutionDate e)); cbn [negb orb andb].
  - destruct (new_Date rt (e_resolutionDate e) <=? weekEnd)%float.
    + split; reflexivity.
    + destruct (String.eqb (e_statusCategory e) "indeterminate");
        [split; reflexivity|].
      destruct (String.eqb (e_statusCategory e) "done" && _); split; reflexivity.
  - destruct (String.eqb (e_statusCategory e) "indeterminate");
      [split; reflexivity|].
    destruct (String.eqb (e_statusCategory e) "done" && _); split; reflexivity.
Qed.

(** What one pass over the epics adds to the three counters. *)
Lemma flowStep_counts rt (weekEnd : float) (epics : list EpicData) :
  forall d i t : nat,
    let '(d', i', t') := fold_left (flowStep rt weekEnd) epics (d, i, t) in
    (d' + i' + t'
     = d + i + t + length (List.filter (existedBy rt weekEnd) epics))%nat /\
    (d' = d + length (List.filter
                        (fun e => existedBy rt weekEnd e
                                  && resolvedBy rt weekEnd e) epics))%nat.
Proof.
  induction epics as [|e r IH]; intros d i t; cbn [fold_left List.filter].
  - cbn. lia.
  - destruct (flowState_dates rt weekEnd e) as [-> ->]. unfold flowStep at 2.
    destruct (flowState rt weekEnd e) as [[| |]|].
    + specialize (IH (S d) i t).
      destruct (fold_left (flowStep rt weekEnd) r _) as [[d' i'] t'].
      cbn [length]. lia.
    + specialize (IH d (S i) t).
      destruct (fold_left (flowStep rt weekEnd) r _) as [[d' i'] t'].
      cbn [length]. lia.
    + specialize (IH d i (S t)).
      destruct (fold_left (flowStep rt weekEnd) r _) as [[d' i'] t'].
      cbn [length]. lia.
    + apply IH.
Qed.

(** The snapshot of one week. *)
Lemma snapshotAt_counts rt cal epics (i : Z) (snapshot : Snapshot) :
  snapshotAt rt cal epics i = Returns snapshot ->
  let weekEnd := Date_endOfDayWeeksAgo cal i in
  Date_isoDay cal weekEnd = Returns (week snapshot) /\
  (cf_done snapshot + cf_inProgress snapshot + cf_todo snapshot
   = length (List.filter (existedBy rt weekEnd) epics))%nat /\
  cf_done snapshot
    = length (List.filter (fun e => existedBy rt weekEnd e
                                    && resolvedBy rt weekEnd e) epics).
Proof.
  unfold snapshotAt. cbn zeta.
  destruct (Date_isoDay cal (Date_endOfDayWeeksAgo cal i)) as [label|err];
    [|discriminate].
  pose proof (flowStep_counts rt (Date_endOfDayWeeksAgo cal i) epics 0 0 0)
    as H.
  destruct (fold_left _ epics _) as [[d p] t]. intros [= <-].
  cbn [week cf_done cf_inProgress cf_todo]. split; [reflexivity|]. lia.
Qed.

Lemma snapshotsFrom_spec rt cal epics (n : nat) :
  (forall i, 0 <= i < Z.of_nat n ->
     exists label,
       Date_isoDay cal (Date_endOfDayWeeksAgo cal i) = Returns label) ->
  exists snapshots,
    snapshotsFrom rt cal epics n = Returns snapshots /\
    length snapshots = n /\
    forall (j : nat) snapshot,
      snapshots !! j = Some snapshot ->
      snapshotAt rt cal epics (Z.of_nat n - 1 - Z.of_nat j) = Returns snapshot.
Proof.
  induction n as [|n IH]; intros Hlabel.
  - exists []. repeat split. intros j snapshot H. discriminate.
  - cbn [snapshotsFrom].
    destruct (Hlabel (Z.of_nat n) ltac:(lia)) as [label Hl].
    destruct (snapshotAt rt cal epics (Z.of_nat n)) as [snapshot|err] eqn:E.
    2:{ unfold snapshotAt in E. rewrite Hl in E.
        now destruct (fold_left _ epics _) as [[d p] t]. }
    destruct IH as (rest & -> & Hlen & Hrest).
    { intros i Hi. apply Hlabel. lia. }
    exists (snapshot :: rest). split; [reflexivity|].
    split; [cbn; now rewrite Hlen|].
    intros [|j] s Hs.
    + injection Hs as <-. rewrite <- E. f_equal. lia.
    + cbn in Hs. apply Hrest in Hs. rewrite <- Hs. f_equal. lia.
Qed.

(** X19: when the end of each of the [weeks] weeks can be printed,
    [buildCumulativeFlow] returns [weeks] snapshots, oldest first; the
    snapshot at position [j] is labelled with the end of the week
    [weeks - 1 - j] weeks back, its three counts add up to the number of
    epics created by then, and [done] is the number of those resolved by
    then. *)
Theorem cumulative_flow_snapshots rt cal epics (weeks : option Z) :
  (forall i, 0 <= i < default 12 weeks ->
     exists label,
       Date_isoDay cal (Date_endOfDayWeeksAgo cal i) = Returns label) ->
  exists snapshots,
    buildCumulativeFlow rt cal epics weeks = Returns snapshots /\
    length snapshots = Z.to_nat (default 12 weeks) /\
    forall (j : nat) snapshot,
      snapshots !! j = Some snapshot ->
      let weekEnd :=
        Date_endOfDayWeeksAgo cal (default 12 weeks - 1 - Z.of_nat j) in
      Date_isoDay cal weekEnd = Returns (week snapshot) /\
      (cf_done snapshot + cf_inProgress snapshot + cf_todo snapshot
       = length (List.filter (existedBy rt weekEnd) epics))%nat /\
      cf_done snapshot
        = length (List.filter (fun e => existedBy rt weekEnd e
                                        && resolvedBy rt weekEnd e) epics).
Proof.
  intros Hlabel. unfold buildCumulativeFlow.
  destruct (snapshotsFrom_spec rt cal epics (Z.to_nat (default 12 weeks)))
    as (snapshots & Hrun & Hlen & Hat).
  { intros i Hi. apply Hlabel. lia. }
  exists snapshots. split; [exact Hrun|]. split; [exact Hlen|].
  intros j snapshot Hj.
  assert (Hjlt : (j < length snapshots)%nat).
  { apply lookup_lt_is_Some. now exists snapshot. }
  specialize (Hat j snapshot Hj).
  replace (Z.of_nat (Z.to_nat (default 12 weeks)) - 1 - Z.of_nat j)
    with (default 12 weeks - 1 - Z.of_nat j) in Hat by lia.
  now apply snapshotAt_counts.
Qed.

Lemma cumulative_flow_snapshots_witness :
  exists snapshots,
    buildCumulativeFlow Samples.runtime Samples.calendar Samples.fourEpics
                        (Some 3) = Returns snapshots /\
    length snapshots = Z.to_nat (default 12 (Some 3)) /\
    forall (j : nat) snapshot,
      snapshots !! j = Some snapshot ->
      let weekEnd :=
        Date_endOfDayWeeksAgo Samples.calendar
          (default 12 (Some 3) - 1 - Z.of_nat j) in
      Date_isoDay Samples.calendar weekEnd = Returns (week snapshot) /\
      (cf_done snapshot + cf_inProgress snapshot + cf_todo snapshot
       = length (List.filter (existedBy Samples.runtime weekEnd)
                             Samples.fourEpics))%nat /\
      cf_done snapshot
        = length (List.filter
                    (fun e => existedBy Samples.runtime weekEnd e
                              && resolvedBy Samples.runtime weekEnd e)
                    Samples.fourEpics).
Proof.
  apply (cumulative_flow_snapshots Samples.runtime Samples.calendar
           Samples.fourEpics (Some 3)).
  intros i Hi. cbn in Hi.
  assert (Hcases : i = 0 \/ i = 1 \/ i = 2) by lia.
  destruct Hcases as [->|[->| ->]]; eexists; vm_compute; reflexivity.
Defined.

Lemma cumulative_flow_example :
  buildCumulativeFlow Samples.runtime Samples.calendar Samples.fourEpics
                      (Some 2)
    = Returns [ {| week := "2024-06-03"; cf_done := 1; cf_inProgress := 3;
                   cf_todo := 0 |};
                {| week := "2024-06-10"; cf_done := 1; cf_inProgress := 3;
                   cf_todo := 0 |} ] /\
  buildCumulativeFlow Samples.runtime Samples.calendar Samples.fourEpics
                      (Some (-1)) = Returns [] /\
  buildCumulativeFlow Samples.runtime Samples.calendar Samples.fourEpics None
    = Throws "RangeError: Invalid time value".
Proof. vm_compute. repeat split. Qed.

End CumulativeFlowProps.

(** *** MoSCoW categories *)

Section MoscowProps.
Import EpicMetricsService EpicMetricsRest Spec.
Import ForecastService (Outcome, Returns, Throws).

Lemma moscowOfText_cases (text c : string) :
  moscowOfText text = Some c -> In c categories.
Proof.
  unfold moscowOfText, categories.
  repeat match goal with
         | |- context [if ?b then _ else _] => destruct b
         end; intros [= <-]; cbn; tauto.
Qed.

Lemma moscowOfLabels_cases (labels : list string) (c : string) :
  moscowOfLabels labels = Some c -> In c categories.
Proof.
  unfold moscowOfLabels, categories.
  repeat match goal with
         | |- context [if ?b then _ else _] => destruct b
         end; intros [= <-]; cbn; tauto.
Qed.

Lemma categorizeMoSCoW_cases rt epic fieldMappings :
  let c := categorizeMoSCoW rt epic fieldMappings in
  c = "Must Have" \/ c = "Should Have" \/ c = "Could Have" \/ c = "Won't Have".
Proof.
  cbn zeta.
  assert (Hin : forall c, In c categories ->
            c = "Must Have" \/ c = "Should Have" \/ c = "Could Have"
            \/ c = "Won't Have").
  { intros c H. cbn in H. intuition. }
  unfold categorizeMoSCoW.
  destruct (moscowOfLabels _) as [c|] eqn:El;
    [apply Hin, (moscowOfLabels_cases _ _ El)|].
  destruct (mappedMoscow epic fieldMappings) as [val|].
  - destruct (moscowOfText (toLowerCase val)) as [c|] eqn:Et;
      [apply Hin, (moscowOfText_cases _ _ Et)|].
    repeat match goal with
           | |- context [if ?b then _ else _] => destruct b
           end; tauto.
  - repeat match goal with
           | |- context [if ?b then _ else _] => destruct b
           end; tauto.
Qed.

(** X20: whatever the labels, the mapped field and the signals of the
    fallback, [categorizeMoSCoW] answers with one of the four category
    names. *)
Theorem moscow_category_range rt epic fieldMappings :
  In (categorizeMoSCoW rt epic fieldMappings) categories.
Proof.
  pose proof (categorizeMoSCoW_cases rt epic fieldMappings) as H.
  cbn zeta in H. unfold categories. cbn [In].
  destruct H as [->|[->|[->| ->]]]; tauto.
Qed.

(** X21: an epic as [buildEpicData] returns it carries no raw fields, so
    its category is the same with any field mapping as with none: only the
    labels and the composite score decide. *)
Theorem moscow_of_built_epic_ignores_mapping rt epic children deps
    fieldMappings :
  categorizeMoSCoW rt (buildEpicData rt epic children deps) fieldMappings
    = categorizeMoSCoW rt (buildEpicData rt epic children deps) None.
Proof.
  unfold categorizeMoSCoW.
  assert (H : mappedMoscow (buildEpicData rt epic children deps) fieldMappings
              = None).
  { unfold mappedMoscow. destruct fieldMappings as [fm|]; [|reflexivity].
    destruct (truthy_str (fm_moscow fm)); [|reflexivity].
    unfold buildEpicData. cbn [ev_textFields]. now rewrite lookup_empty. }
  rewrite H. reflexivity.
Qed.

Lemma moscow_example :
  map (fun v => categorizeMoSCoW Samples.runtime v (Some Samples.allMappings))
      Samples.threeViews = ["Won't Have"; "Must Have"; "Won't Have"] /\
  map (fun v => categorizeMoSCoW Samples.runtime v None) Samples.threeViews
    = ["Won't Have"; "Must Have"; "Won't Have"] /\
  moscowScore Samples.runtime Samples.scoredEpic = 2%float /\
  moscowOfLabels ["should-have"; "must"] = Some "Must Have" /\
  moscowOfText "we won't" = Some "Won't Have" /\
  moscowOfText "custom" = None.
Proof. vm_compute. repeat split. Qed.

(** A blocked epic of Medium priority with a due date long past is a Must
    Have; under a priority called [constructor] the score is no number and
    the same epic is a Won't Have. *)
Example moscow_inherited_priority_example :
  moscowScore Samples.runtime
    (Samples.duePriority "Medium") = 6%float /\
  categorizeMoSCoW Samples.runtime
    (Samples.view (Samples.duePriority "Medium") [] ∅) None = "Must Have" /\
  is_nan (moscowScore Samples.runtime (Samples.duePriority "constructor"))
    = true /\
  categorizeMoSCoW Samples.runtime
    (Samples.view (Samples.duePriority "constructor") [] ∅) None
    = "Won't Have".
Proof. vm_compute. repeat split. Qed.

End MoscowProps.

(** *** The prioritization report *)

Section PrioritizationProps.
Import EpicMetricsService EpicMetricsRest Spec.
Import ForecastService (Outcome, Returns, Throws).

Lemma prioritized_perm rt epics fieldMappings :
  Permutation (pz_epics (buildPrioritizationData rt epics fieldMappings))
              (map (prioritize rt fieldMappings) (List.filter openEpic epics)).
Proof. unfold buildPrioritizationData. cbn [pz_epics]. apply sort_perm. Qed.

(** X22: the report lists each epic that is not done once, whatever the
    order the scores give: its list is a rearrangement of the open epics'
    entries, and no listed entry is done. *)
Theorem prioritization_lists_open_epics rt epics fieldMappings :
  let r := buildPrioritizationData rt epics fieldMappings in
  Permutation (pz_epics r)
    (map (prioritize rt fieldMappings) (List.filter openEpic epics)) /\
  length (pz_epics r) = length (List.filter openEpic epics) /\
  Forall (fun p => pr_statusCategory p <> "done") (pz_epics r).
Proof.
  cbn zeta. pose proof (prioritized_perm rt epics fieldMappings) as Hperm.
  split; [exact Hperm|]. split.
  - rewrite (Permutation_length Hperm). apply length_map.
  - apply Forall_forall. intros p Hp. apply list_elem_of_In in Hp.
    apply (Permutation_in _ Hperm) in Hp.
    apply in_map_iff in Hp as (e & <- & He). apply filter_In in He as [_ He].
    unfold openEpic in He. cbn [prioritize pr_statusCategory].
    intros Hd. rewrite Hd in He. discriminate.
Qed.

Lemma tallyBy_keys_present {A : Type} (f : A -> string) (l : list A) :
  forall obj,
    (forall x, In x l -> In (f x) (OMap.keys obj)) ->
    OMap.keys (tallyBy f l obj) = OMap.keys obj.
Proof.
  unfold tallyBy. induction l as [|x r IH]; intros obj H; [reflexivity|].
  cbn [fold_left].
  assert (Hk : OMap.keys (increment (f x) obj) = OMap.keys obj).
  { unfold increment. rewrite omap_keys_set.
    assert (E : existsb (String.eqb (f x)) (OMap.keys obj) = true).
    { apply existsb_exists. exists (f x).
      split; [apply H; now left | apply String.eqb_refl]. }
    now rewrite E. }
  rewrite IH; [exact Hk|]. intros y Hy. rewrite Hk. apply H. now right.
Qed.

(** X23: [moscowDistribution] has the four categories as its keys, in the
    order must, should, could, won't; each stands at the number of listed
    epics of that category, and the four counts add up to the number of
    listed epics. *)
Theorem moscow_distribution_counts rt epics fieldMappings :
  let r := buildPrioritizationData rt epics fieldMappings in
  OMap.keys (moscowDistribution r) = categories /\
  (forall c, In c categories ->
     OMap.get c (moscowDistribution r)
       = Some (length (List.filter (fun p => String.eqb (pr_moscow p) c)
                                   (pz_epics r)))) /\
  sum_list (OMap.values (moscowDistribution r)) = length (pz_epics r).
Proof.
  cbn zeta. pose proof (prioritized_perm rt epics fieldMappings) as Hperm.
  unfold buildPrioritizationData in *.
  cbn [moscowDistribution pz_epics] in *.
  set (l := sort _ (map _ _)) in *.
  change (fold_left _ l initialDistribution)
    with (tallyBy pr_moscow l initialDistribution).
  split; [|split].
  - rewrite tallyBy_keys_present; [reflexivity|].
    intros p Hp. apply (Permutation_in _ Hperm) in Hp.
    apply in_map_iff in Hp as (e & <- & _). cbn [prioritize pr_moscow].
    pose proof (categorizeMoSCoW_cases rt e fieldMappings) as H.
    cbn zeta in H. destruct H as [->|[->|[->| ->]]]; cbn; tauto.
  - intros c Hc. rewrite tallyBy_get. cbn zeta.
    cbn in Hc. destruct Hc as [<-|[<-|[<-|[<-|[]]]]]; reflexivity.
  - rewrite tallyBy_sum. reflexivity.
Qed.

Lemma geb_not_ltb (x m : float) : geb x m = true -> (x <? m)%float = false.
Proof.
  unfold geb. intros H. destruct (x <? m)%float eqn:E; [|reflexivity].
  pose proof (gtb_not_leb m x E) as H'. congruence.
Qed.

Lemma quadrants_split (mv me : option float) (l : list Prioritized) :
  let atLeast x m := geb x (toNumber m) in
  let below x m := (x <? toNumber m)%float in
  (length (List.filter (fun e => atLeast (pr_value e) mv
                                 && below (pr_effort e) me) l)
   + length (List.filter (fun e => atLeast (pr_value e) mv
                                   && atLeast (pr_effort e) me) l)
   + length (List.filter (fun e => below (pr_value e) mv
                                   && below (pr_effort e) me) l)
   + length (List.filter (fun e => below (pr_value e) mv
                                   && atLeast (pr_effort e) me) l))%nat
  = length (List.filter (fun e => comparable (pr_value e) mv
                                  && comparable (pr_effort e) me) l).
Proof.
  cbn zeta. induction l as [|e r IH]; [reflexivity|].
  cbn [List.filter]. unfold comparable at 1 2.
  pose proof (geb_not_ltb (pr_value e) (toNumber mv)) as Hv.
  pose proof (geb_not_ltb (pr_effort e) (toNumber me)) as He.
  destruct (geb (pr_value e) (toNumber mv));
    [rewrite (Hv eq_refl) | destruct (pr_value e <? toNumber mv)%float];
    (destruct (geb (pr_effort e) (toNumber me));
     [rewrite (He eq_refl) | destruct (pr_effort e <? toNumber me)%float]);
    cbn [andb orb length]; lia.
Qed.

Lemma medianOr_cases (fallback : float) (values : list float) :
  exists m,
    medianOr fallback values = Some m /\
    (values = [] -> m = fallback) /\
    (values <> [] -> In m values).
Proof.
  unfold medianOr. destruct values as [|v r].
  - exists fallback. cbn. repeat split; tauto.
  - set (l := v :: r).
    assert (Hlt : (length l / 2 < length (sort ascendingNum l))%nat).
    { rewrite sort_length. apply Nat.div_lt; cbn; lia. }
    apply lookup_lt_is_Some in Hlt as [m Hm]. exists m.
    replace (0 <? length l)%nat with true by reflexivity.
    split; [exact Hm|]. split; [discriminate|]. intros _.
    apply list_elem_of_lookup_2, list_elem_of_In in Hm.
    apply (Permutation_in _ (sort_perm ascendingNum l)). exact Hm.
Qed.

(** X24: the medians of the report are never missing.  With no listed epic
    of positive effort the median effort is 5, otherwise it is the positive
    effort of a listed epic; likewise the median value is 3 or the positive
    value of a listed epic. *)
Theorem prioritization_medians rt epics fieldMappings :
  let r := buildPrioritizationData rt epics fieldMappings in
  (exists m, medianEffort r = Some m /\
     (m = 5%float /\
      Forall (fun p => gtb (pr_effort p) 0 = false) (pz_epics r)
      \/ exists p, In p (pz_epics r) /\ pr_effort p = m
                   /\ gtb m 0 = true)) /\
  (exists m, medianValue r = Some m /\
     (m = 3%float /\
      Forall (fun p => gtb (pr_value p) 0 = false) (pz_epics r)
      \/ exists p, In p (pz_epics r) /\ pr_value p = m
                   /\ gtb m 0 = true)).
Proof.
  cbn zeta. unfold buildPrioritizationData.
  cbn [medianValue medianEffort pz_epics].
  set (l := sort _ (map _ _)).
  assert (H : forall (g : Prioritized -> float) fallback,
    exists m,
      medianOr fallback (map g (List.filter (fun e => gtb (g e) 0) l)) = Some m
      /\ (m = fallback /\ Forall (fun p => gtb (g p) 0 = false) l
          \/ exists p, In p l /\ g p = m /\ gtb m 0 = true)).
  { intros g fallback.
    destruct (medianOr_cases fallback
                (map g (List.filter (fun e => gtb (g e) 0) l)))
      as (m & Hm & Hnil & Hcons).
    exists m. split; [exact Hm|].
    destruct (List.filter (fun e => gtb (g e) 0) l) as [|p0 r0] eqn:E.
    - left. split; [now apply Hnil|]. apply Forall_forall. intros p Hp.
      apply list_elem_of_In in Hp.
      destruct (gtb (g p) 0) eqn:Eg; [|reflexivity].
      assert (In p (List.filter (fun e => gtb (g e) 0) l))
        by (apply filter_In; now split).
      rewrite E in H. destruct H.
    - right. rewrite <- E in Hcons.
      destruct (in_map_iff g (List.filter (fun e => gtb (g e) 0) l) m)
        as [Hin _].
      destruct Hin as (p & Hp & Hpin); [apply Hcons; rewrite E; discriminate|].
      apply filter_In in Hpin as [Hpin Hpos].
      exists p. repeat split; [exact Hpin | exact Hp | now rewrite <- Hp]. }
  split; [apply (H pr_effort) | apply (H pr_value)].
Qed.

(** X25: no listed epic is counted in two quadrants: the four quadrant
    counts add up to the number of listed epics whose value and effort both
    compare with the medians, which is at most the number of listed epics. *)
Theorem quadrants_disjoint rt epics fieldMappings :
  let r := buildPrioritizationData rt epics fieldMappings in
  let q := quadrants r in
  (quickWins q + bigBets q + fillIns q + moneyPit q
   = length (List.filter
               (fun e => comparable (pr_value e) (medianValue r)
                         && comparable (pr_effort e) (medianEffort r))
               (pz_epics r)))%nat /\
  (quickWins q + bigBets q + fillIns q + moneyPit q
   <= length (pz_epics r))%nat.
Proof.
  cbn zeta. unfold buildPrioritizationData.
  cbn [quadrants quickWins bigBets fillIns moneyPit medianValue medianEffort
       pz_epics].
  set (l := sort _ (map _ _)).
  set (mv := medianOr 3 _). set (me := medianOr 5 _).
  pose proof (quadrants_split mv me l) as H. cbn zeta in H.
  split; [exact H|]. rewrite H. apply List.filter_length_le.
Qed.

Lemma prioritization_example :
  let r := buildPrioritizationData Samples.runtime Samples.threeViews
             (Some Samples.allMappings) in
  map pr_key (pz_epics r) = ["PAY-10"; "PAY-12"] /\
  map pr_moscow (pz_epics r) = ["Must Have"; "Won't Have"] /\
  map (fun p => wsjfScore (pr_wsjf p)) (pz_epics r) = [5%float; 0%float] /\
  moscowDistribution r
    = [("Must Have", 1%nat); ("Should Have", 0%nat); ("Could Have", 0%nat);
       ("Won't Have", 1%nat)] /\
  quadrants r = {| quickWins := 1; bigBets := 0; fillIns := 1;
                   moneyPit := 0 |} /\
  medianEffort r = Some 5%float /\ medianValue r = Some 5%float.
Proof. vm_compute. repeat split. Qed.

End PrioritizationProps.
